(** * Minerva: score-formula recomputation and weight training

    A shallow embedding of [retrieval/stored_formula.py] (the class
    [StoredFormula]) and of [evaluation/weight_training.py] (the class
    [WeightTrainer]), with the properties of the scoring-formula
    interpreter and of the greedy weight optimizer stated and proved on it.

    Conventions of the embedding.
    - Python numbers (ints and floats) are exact rationals [Q]; the
      properties below are algebraic and order-theoretic and do not depend on
      rounding.  Numeric results are compared with [==] like Python's [==].
    - Python exceptions are values of [exn]; a computation that may raise
      has type [result A].
    - A Python [dict] whose iteration order matters is an association list
      in insertion order ([odict]); a dict that is only looked up by key is a
      [gmap]. *)

From Stdlib Require Import QArith Qabs Lia Lqa.
From stdpp Require Import gmap strings list.

#[local] Set Warnings "-register-all".
Open Scope Q_scope.

(** ** Exceptions and the error monad *)

Inductive exn : Type :=
| ValueError (msg : string)
| KeyError (key : string)
| IndexError
| TypeError
| AssertionError
| NameError (var : string)
| RecursionError.

Inductive result (A : Type) : Type :=
| Ok (a : A)
| Raise (e : exn).
Arguments Ok {A} a.
Arguments Raise {A} e.

#[global] Instance result_ret : MRet result := λ A a, Ok a.
#[global] Instance result_bind : MBind result := λ A B f m,
  match m with
  | Ok a => f a
  | Raise e => Raise e
  end.

#[global] Instance result_fmap : FMap result := λ A B f m,
  match m with
  | Ok a => Ok (f a)
  | Raise e => Raise e
  end.

Definition raises {A} (r : result A) : Prop := ∃ e, r = Raise e.

(** A list comprehension [[f(x) for x in l]]: left to right, the first
    exception aborts it. *)
Section comprehension.
Context {A B : Type} (f : A → result B).

Fixpoint mapM (l : list A) : result (list B) :=
  match l with
  | [] => Ok []
  | x :: xs =>
      match f x with
      | Raise e => Raise e
      | Ok y =>
          match mapM xs with
          | Raise e => Raise e
          | Ok ys => Ok (y :: ys)
          end
      end
  end.
End comprehension.

(** ** Python values and builtins used by the interpreter *)

(** The items of a hit tuple: a string (field name, term), a number or
    [None]. *)
Inductive pyval : Type :=
| PyNone
| PyNum (q : Q)
| PyStr (s : string).

(** [part[i]] on a tuple or list. *)
Definition getitem (part : list pyval) (i : nat) : result pyval :=
  match part !! i with
  | Some v => Ok v
  | None => Raise IndexError
  end.

(** An operand of [*]: a number, anything else is a [TypeError] (sequence
    repetition [str * int] is outside the model). *)
Definition as_num (v : pyval) : result Q :=
  match v with
  | PyNum q => Ok q
  | _ => Raise TypeError
  end.

(** A weight map as the interpreter receives it: a [dict] keyed by strings,
    or a [collections.defaultdict] whose factory returns [d]
    ([default_factory = Some d]; [defaultdict(lambda:1)] has [Some 1]). *)
Record pydict : Type := PyDict {
  items : gmap string Q;
  default_factory : option Q
}.

Definition lookup_key (d : pydict) (k : pyval) : option Q :=
  match k with
  | PyStr s => items d !! s
  | _ => None
  end.

Definition key_repr (k : pyval) : string :=
  match k with
  | PyStr s => s
  | PyNone => "None"
  | PyNum _ => "<number>"
  end.

(** [d[k]]: a missing key raises [KeyError] on a plain dict and yields the
    factory's value on a defaultdict. *)
Definition subscript (d : pydict) (k : pyval) : result Q :=
  match lookup_key d k with
  | Some v => Ok v
  | None =>
      match default_factory d with
      | Some v => Ok v
      | None => Raise (KeyError (key_repr k))
      end
  end.

(** [d.get(k, dflt)]: never consults the default factory. *)
Definition get (d : pydict) (k : pyval) (dflt : Q) : Q :=
  match lookup_key d k with
  | Some v => v
  | None => dflt
  end.

(** Truth value of an optional argument [d=None]: [None] and the empty
    dict are both false. *)
Definition truthy (d : option pydict) : option pydict :=
  match d with
  | Some d' => if decide (items d' = ∅) then None else Some d'
  | None => None
  end.

Definition Qlt_bool (x y : Q) : bool := negb (Qle_bool y x).

(** [sum(scores)] starts from 0 and adds from the left. *)
Definition py_sum (scores : list Q) : Q := fold_left Qplus scores 0.

(** [reduce(lambda x, y: x * y, scores)]: no initial value, so the empty
    list is a [TypeError]. *)
Definition py_reduce_mul (scores : list Q) : result Q :=
  match scores with
  | [] => Raise TypeError
  | x :: xs => Ok (fold_left Qmult xs x)
  end.

(** [max(scores)]: the first greatest item; the empty list is a
    [ValueError]. *)
Definition py_max (scores : list Q) : result Q :=
  match scores with
  | [] => Raise (ValueError "max() arg is an empty sequence")
  | x :: xs => Ok (fold_left (λ m y, if Qlt_bool m y then y else m) xs x)
  end.

(** ** The stored formula *)

(** What [StoredFormula.formula] holds:
    - [Hit part]: a tuple (or list, after a JSON round trip)
      [(field, qw, fw [, tf, docFreq, maxDocs] [, term])];
    - [Combine ty parts]: the dict [{"type": ty, "parts": parts}];
    - [Value ty v]: the dict [{"type": ty, "value": v}];
    - [Unmatched]: the dict [{"coord": 0, "matches": []}] stored when the
      explanation did not match;
    - [Atom v]: anything that is neither tuple, list nor dict; [Atom PyNone]
      is the part [None]. *)
Inductive formula : Type :=
| Hit (part : list pyval)
| Combine (type : string) (parts : list formula)
| Value (type : string) (value : option Q)
| Unmatched
| Atom (v : pyval).

Definition TERM_POSITION_IN_TUPLE : nat := 6.

Definition is_in (s : string) (l : list string) : bool :=
  bool_decide (s ∈ l).

(** The tuple branch of [computeScore]. *)
Definition hitScore (part : list pyval)
    (field_parameters kw_parameters : option pydict) : result Q :=
  field_multiplier ←
    match truthy field_parameters with
    | Some fp => field ← getitem part 0; subscript fp field
    | None => Ok 1
    end;
  query_weight ←
    match truthy kw_parameters with
    | Some kw =>
        if (length part <=? 3)%nat
        then Raise (ValueError "Record missing 4th parameter: <term>")
        else
          term ← getitem part TERM_POSITION_IN_TUPLE;
          qw ← getitem part 1 ≫= as_num;
          Ok (get kw term 0 * qw)
    | None => getitem part 1 ≫= as_num
    end;
  fw ← getitem part 2 ≫= as_num;
  Ok (query_weight * field_multiplier * fw).

(** The dispatch of [computeScore] on its part, with the recursion into the
    parts of a combining node.  A part that is [None] stands for
    [self.formula]; [stored] is what recomputing that gives.  (The message
    of the last error goes on with the repr of the part's type.) *)
Fixpoint recompute (stored : result Q) (part : formula)
    (field_parameters kw_parameters : option pydict) : result Q :=
  match part with
  | Hit t => hitScore t field_parameters kw_parameters
  | Combine type parts =>
      if is_in type ["*"; "+"; "max"] then
        match mapM (λ sub_part,
                      recompute stored sub_part field_parameters
                        kw_parameters)
                parts with
        | Raise e => Raise e
        | Ok scores =>
            if String.eqb type "*" then py_reduce_mul scores
            else if String.eqb type "+" then Ok (py_sum scores)
            else py_max scores
        end
      else if is_in type ["const"; "coord"] then Raise (KeyError "value")
      else Raise (ValueError ("Unexpected operation type: " +:+ type))
  | Value type value =>
      if is_in type ["*"; "+"; "max"] then Raise (KeyError "parts")
      else if is_in type ["const"; "coord"] then
        match value with
        | None => Raise AssertionError
        | Some v => Ok v
        end
      else Raise (ValueError ("Unexpected operation type: " +:+ type))
  | Unmatched => Raise (KeyError "type")
  | Atom PyNone => stored
  | Atom _ => Raise (ValueError "Unexpected type")
  end.

(** What a [None] part is recomputed to: [part = self.formula] and the
    dispatch on it.  A stored formula that is itself [None] is then of an
    unexpected type; a [None] part met inside the stored formula starts the
    same recomputation again, without end, until the interpreter's
    recursion limit raises [RecursionError] ([RuntimeError] in
    Python 2). *)
Definition stored_score (self_formula : formula)
    (field_parameters kw_parameters : option pydict) : result Q :=
  match self_formula with
  | Atom PyNone => Raise (ValueError "Unexpected type")
  | _ => recompute (Raise RecursionError) self_formula field_parameters
           kw_parameters
  end.

(** [StoredFormula.computeScore(part, field_parameters, kw_parameters)] on
    an object whose [self.formula] is [self_formula]; the default call
    [computeScore()] has [part = Atom PyNone]. *)
Definition computeScore (self_formula part : formula)
    (field_parameters kw_parameters : option pydict) : result Q :=
  recompute (stored_score self_formula field_parameters kw_parameters) part
    field_parameters kw_parameters.

(** ** Loading a formula from an Elastic explanation *)

(** One node of the explanation: [{"description": ..., "value": ...,
    "details": [...]}]; a JSON [null] value is [None]. *)
Inductive detail : Type :=
| Detail (description : string) (value : option Q) (details : list detail).

Definition description (d : detail) : string :=
  match d with Detail s _ _ => s end.
Definition value (d : detail) : option Q :=
  match d with Detail _ v _ => v end.
Definition details (d : detail) : list detail :=
  match d with Detail _ _ ds => ds end.

Record explanation : Type := Explanation {
  matched : bool;
  explanation_root : detail
}.

(** [s.startswith(p)]. *)
Definition startswith (s p : string) : bool := String.prefix p s.

Definition num_item (v : option Q) : pyval :=
  match v with
  | Some q => PyNum q
  | None => PyNone
  end.

Definition int_item (v : option Z) : pyval :=
  match v with
  | Some z => PyNum (inject_Z z)
  | None => PyNone
  end.

(** The tuple built when the first sub-detail is a [fieldWeight]: the query
    weight is not reported and taken as 1. *)
Definition fieldWeight_hit (save_terms : bool) (field_name : string) (fw : Q)
    (term : string) : list pyval :=
  let qw := 1 in
  if save_terms
  then [PyStr field_name; PyNum qw; PyNum fw; PyStr term]
  else [PyStr field_name; PyNum qw; PyNum fw].

(** The tuple built from a full [queryWeight * fieldWeight] explanation. *)
Definition full_hit (save_terms : bool) (field_name : string)
    (qw fw : option Q) (tf docFreq maxDocs : option Z) (term : string)
    : list pyval :=
  if save_terms
  then [PyStr field_name; num_item qw; num_item fw;
        int_item tf; int_item docFreq; int_item maxDocs; PyStr term]
  else [PyStr field_name; num_item qw; num_item fw;
        int_item tf; int_item docFreq; int_item maxDocs].

Definition int_truthy (v : option Z) : bool :=
  match v with
  | Some z => negb (z =? 0)%Z
  | None => false
  end.

Section fromElasticExplanation.
(** The three regular expressions of the parser, as the library matches
    them on a description:
    [weight\((.*?)\:(.*?)\sin] gives (field, term),
    [idf\(docFreq=(\d+),\smaxDocs=(\d+).*?\)] gives (docFreq, maxDocs),
    [tf\(freq=(.+?)\).*] gives the frequency as [int(float(...))]. *)
Variable re_weight : string → option (string * string).
Variable re_idf : string → option (Z * Z).
Variable re_tf : string → option Z.

Variable save_terms : bool.

(** [for detail in ds: m = re.match(...); if m: ...; break]. *)
Fixpoint first_match {A} (re : string → option A) (ds : list detail)
    : option A :=
  match ds with
  | [] => None
  | d :: ds' =>
      match re (description d) with
      | Some m => Some m
      | None => first_match re ds'
      end
  end.

(** The loop over [elements] that collects tf, docFreq and maxDocs. *)
Fixpoint scan_elements (elements : list detail)
    (tf docFreq maxDocs : option Z) : option Z * option Z * option Z :=
  match elements with
  | [] => (tf, docFreq, maxDocs)
  | element :: rest =>
      if int_truthy docFreq && int_truthy tf then (tf, docFreq, maxDocs)
      else
        let '(docFreq', maxDocs') :=
          match first_match re_idf (details element) with
          | Some (d, m) => (Some d, Some m)
          | None => (docFreq, maxDocs)
          end in
        let tf' :=
          match first_match re_tf (details element) with
          | Some t => Some t
          | None => tf
          end in
        scan_elements rest tf' docFreq' maxDocs'
  end.

(** The last branch of [iterateDetail]: a term hit or a constant. *)
Definition hitDetail (d : detail) : result formula :=
  match re_weight (description d) with
  | Some (field_name, term) =>
      match details d !! 0%nat with
      | None => Raise IndexError
      | Some elem =>
          if startswith (description elem) "fieldWeight" then
            match value elem with
            | None => Raise TypeError
            | Some fw =>
                Ok (Hit (fieldWeight_hit save_terms field_name fw term))
            end
          else
            let elements := details elem in
            match elements !! 0%nat, elements !! 1%nat with
            | Some e0, Some e1 =>
                let '(tf, docFreq, maxDocs) :=
                  scan_elements elements None None None in
                Ok (Hit (full_hit save_terms field_name (value e0) (value e1)
                           tf docFreq maxDocs term))
            | _, _ => Raise IndexError
            end
      end
  | None =>
      if startswith (description d) "match on required clause, product of"
      then Ok (Value "const" (value d))
      else Raise (NameError "new_element")
  end.

Fixpoint iterateDetail (d : detail) : result formula :=
  match d with
  | Detail desc v ds =>
      if startswith desc "coord" then Ok (Value "coord" v)
      else if startswith desc "sum of" then
        match mapM iterateDetail ds with
        | Ok parts => Ok (Combine "+" parts)
        | Raise e => Raise e
        end
      else if startswith desc "product of" then
        match mapM iterateDetail ds with
        | Ok parts => Ok (Combine "*" parts)
        | Raise e => Raise e
        end
      else if startswith desc "max of" then
        match mapM iterateDetail ds with
        | Ok parts => Ok (Combine "max" parts)
        | Raise e => Raise e
        end
      else hitDetail (Detail desc v ds)
  end.

(** [StoredFormula.fromElasticExplanation]: the new value of
    [self.formula]. *)
Definition fromElasticExplanation (e : explanation) : result formula :=
  if negb (matched e) then Ok Unmatched
  else iterateDetail (explanation_root e).
End fromElasticExplanation.

(** ** The interpreter as the specification words it *)

(** The score of a hit in the specification's words: the field weight
    defaults to 1 when the field is absent (or no field map is given), and a
    supplied term map replaces the query weight by
    [term_weights.get(term, 0) * qw]. *)
Definition spec_hit_score (field : string) (qw fw : Q) (term : option string)
    (field_weights term_weights : option (gmap string Q)) : Q :=
  let field_weight_override :=
    match field_weights with
    | Some m => default 1 (m !! field)
    | None => 1
    end in
  let query_weight :=
    match term_weights with
    | Some m => default 0 (term ≫= (m !!.)) * qw
    | None => qw
    end in
  query_weight * field_weight_override * fw.

(** What the lookup [field_parameters[field]] of the code amounts to, case
    by case. *)
Inductive field_weight_override (field : string)
    : option pydict → result Q → Prop :=
| fwo_no_map :
    field_weight_override field None (Ok 1)
| fwo_empty_map d :
    items d = ∅ →
    field_weight_override field (Some d) (Ok 1)
| fwo_present d v :
    items d !! field = Some v →
    field_weight_override field (Some d) (Ok v)
| fwo_factory d v :
    items d ≠ ∅ → items d !! field = None → default_factory d = Some v →
    field_weight_override field (Some d) (Ok v)
| fwo_missing d :
    items d ≠ ∅ → items d !! field = None → default_factory d = None →
    field_weight_override field (Some d) (Raise (KeyError field)).

(** Sum, product and maximum of a list of scores, mathematically. *)
Definition sum_scores (scores : list Q) : Q := fold_right Qplus 0 scores.
Definition product_scores (scores : list Q) : Q := fold_right Qmult 1 scores.
Definition is_maximum (m : Q) (scores : list Q) : Prop :=
  m ∈ scores ∧ ∀ s, s ∈ scores → s <= m.

(** ** Insertion-ordered dicts *)

(** A Python dict whose iteration order is observed: the entries in
    insertion order.  The keys of a dict are distinct ([NoDup (keys d)]);
    [dict_set] keeps them so. *)
Definition odict (V : Type) : Type := list (string * V).

Definition keys {V} (d : odict V) : list string := d.*1.

(** [d.get(k)], [None] when the key is absent. *)
Fixpoint dict_get {V} (k : string) (d : odict V) : option V :=
  match d with
  | [] => None
  | (k', v) :: d' => if String.eqb k k' then Some v else dict_get k d'
  end.

(** [d[k] = v]: in place when the key exists, appended otherwise. *)
Fixpoint dict_set {V} (k : string) (v : V) (d : odict V) : odict V :=
  match d with
  | [] => [(k, v)]
  | (k', v') :: d' =>
      if String.eqb k k' then (k, v) :: d' else (k', v') :: dict_set k v d'
  end.

(** [d[k]] as an expression. *)
Definition dict_item {V} (k : string) (d : odict V) : result V :=
  match dict_get k d with
  | Some v => Ok v
  | None => Raise (KeyError k)
  end.

(** [{x: v for x in names}]. *)
Definition dict_fromkeys {V} (names : list string) (v : V) : odict V :=
  fold_left (λ d x, dict_set x v d) names [].

(** A [for] loop whose body may raise. *)
Fixpoint foldM {A S} (f : S → A → result S) (l : list A) (s : S) : result S :=
  match l with
  | [] => Ok s
  | a :: l' =>
      match f s a with
      | Ok s' => foldM f l' s'
      | Raise e => Raise e
      end
  end.

(** ** The sweep loop of [WeightTrainer.dynamicWeightValues] *)

Definition MIN_WEIGHT : Z := 0.

(** The step sizes written into [self.exp["movements"]]. *)
Definition MOVEMENTS : list Z := [-1; 6; -2]%Z.

(** The variables of the search that the inner loops update;
    [this_score = None] while the variable is still unbound. *)
Record search_state : Type := SearchState {
  weights : odict Z;
  previous_score : Q;
  this_score : option Q
}.

(** The variables of the [while] loop. *)
Record loop_state : Type := LoopState {
  search : search_state;
  score_baseline : Q;
  overall_improvement : Q;
  passes : nat;
  score_progression : list Q;
  GLOBAL_FILE_COUNTER : nat
}.

Section sweep.
(** [measure weights] stands for
    [self.measurePrecomputedResolution(train_set, method,
       addExtraWeights(weights, self.exp), query_type)[0][self.exp["metric"]]]
    with the training set, the method and the experiment fixed. *)
Variable measure : odict Z → result Q.

(** The body of [for index in range(len(weights))]. *)
Definition adjust_weight (direction : Z) (st : search_state) (index : nat)
    : result search_state :=
  match keys (weights st) !! index with
  | None => Raise IndexError
  | Some weight_name =>
      prev_weight ← dict_item weight_name (weights st);
      let weights1 :=
        dict_set weight_name (Z.max MIN_WEIGHT (prev_weight + direction))
          (weights st) in
      this ← measure weights1;
      if Qle_bool this (previous_score st)
      then Ok (SearchState (dict_set weight_name prev_weight weights1)
                 (previous_score st) (Some this))
      else Ok (SearchState weights1 this (Some this))
  end.

(** The body of [for direction in self.exp["movements"]]. *)
Definition sweep_direction (st : search_state) (direction : Z)
    : result search_state :=
  foldM (adjust_weight direction) (seq 0 (length (weights st))) st.

(** One pass of the [while] loop over all directions and weights. *)
Definition sweep (movements : list Z) (st : search_state)
    : result search_state :=
  foldM sweep_direction movements st.

(** [passes < 3 or overall_improvement > 0]. *)
Definition continue (ls : loop_state) : bool :=
  (passes ls <? 3)%nat || Qlt_bool 0 (overall_improvement ls).

(** The statements of the loop body after the sweep. *)
Definition end_of_pass (ls : loop_state) (st : search_state)
    : result loop_state :=
  match this_score st with
  | None => Raise (NameError "this_score")
  | Some this =>
      Ok (LoopState st this (this - score_baseline ls) (S (passes ls))
            (score_progression ls ++ [this]) (S (GLOBAL_FILE_COUNTER ls)))
  end.

(** The [while] loop; [None] when [fuel] passes do not suffice. *)
Fixpoint sweep_loop (fuel : nat) (movements : list Z) (ls : loop_state)
    : option (result loop_state) :=
  if continue ls then
    match fuel with
    | O => None
    | S fuel' =>
        match sweep movements (search ls) ≫= end_of_pass ls with
        | Raise e => Some (Raise e)
        | Ok ls' => sweep_loop fuel' movements ls'
        end
    end
  else Some (Ok ls).

(** The statements before the loop: the initial score and variables. *)
Definition start_search (weights0 : odict Z) (this0 : option Q)
    (counter : nat) : result loop_state :=
  score_baseline ← measure weights0;
  Ok (LoopState (SearchState weights0 score_baseline this0)
        score_baseline score_baseline 0 [score_baseline] (S counter)).
End sweep.

(** A metric that always has a value, as the measurement the loop calls. *)
Definition evaluate (metric : odict Z → Q) : odict Z → result Q :=
  λ w, Ok (metric w).

(** The weights and the score the search has accepted so far. *)
Definition accepted (st : search_state) : odict Z * Q :=
  (weights st, previous_score st).

(** [loop_runs measure movements n ls ls']: from [ls] the [while] loop makes
    exactly [n] passes and leaves in [ls']. *)
Inductive loop_runs (measure : odict Z → result Q) (movements : list Z)
    : nat → loop_state → loop_state → Prop :=
| loop_runs_exit ls :
    continue ls = false →
    loop_runs measure movements 0 ls ls
| loop_runs_pass n ls ls1 ls' :
    continue ls = true →
    sweep measure movements (search ls) ≫= end_of_pass ls = Ok ls1 →
    loop_runs measure movements n ls1 ls' →
    loop_runs measure movements (S n) ls ls'.

(** One sweep in the specification's words: for each step size in order
    and each weight name in order, add the step to the weight, clamp at 0,
    re-evaluate; keep the change when the new score is strictly greater than
    the accepted one, and leave the weights as they were otherwise. *)
Definition spec_try (metric : odict Z → Q) (delta : Z)
    (wp : odict Z * Q) (name : string) : odict Z * Q :=
  match dict_get name wp.1 with
  | None => wp
  | Some weight =>
      let tentative := dict_set name (Z.max 0 (weight + delta)) wp.1 in
      if Qlt_bool wp.2 (metric tentative)
      then (tentative, metric tentative)
      else wp
  end.

Definition spec_sweep (metric : odict Z → Q) (movements : list Z)
    (wp : odict Z * Q) : odict Z * Q :=
  fold_left (λ wp delta, fold_left (spec_try metric delta) (keys wp.1) wp)
    movements wp.

(** The number of the metric's values above a score: what the sweeps
    decrease. *)
Definition values_above (values : list Q) (score : Q) : nat :=
  length (filter (λ v, Qlt_bool score v = true) values).

(** A step, and so a sweep, either leaves the accepted weights and score as
    they are or moves the score up among the metric's values. *)
Definition progress (values : list Q) (wp wp' : odict Z * Q) : Prop :=
  wp' = wp ∨ (values_above values wp'.2 < values_above values wp.2)%nat.

(** ** Smoothing of the learned weights *)

(** [min(a, b)]: the first smallest argument. *)
Definition py_min (a b : Q) : Q := if Qlt_bool b a then b else a.

(** The body of the smoothing loop on one weight. *)
Definition smooth_weight (w : Q) : Q :=
  let amount := Qabs (py_min 1 w / 3) in
  if Qlt_bool 1 w then w - amount
  else if Qlt_bool w 1 then w + amount
  else w.

(** [for weight in best_weights[query_type][method]: ...], updating the
    dict in place. *)
Definition smooth_weights (best : odict Q) : result (odict Q) :=
  foldM (λ d weight,
           w ← dict_item weight d;
           let amount := Qabs (py_min 1 w / 3) in
           if Qlt_bool 1 w then Ok (dict_set weight (w - amount) d)
           else if Qlt_bool w 1 then Ok (dict_set weight (w + amount) d)
           else Ok d)
        (keys best) best.

(** Smoothing in the specification's words: a third of the distance to 1. *)
Definition spec_smooth_weight (w : Q) : Q :=
  if Qlt_bool 1 w then w - (w - 1) / 3
  else if Qlt_bool w 1 then w + (1 - w) / 3
  else w.

(** Two metrics to run the search on: one with the two values 0 and 1,
    reached when the weight of ["text"] is at least 3, and one that grows
    with the first weight without bound. *)
Definition threshold_metric (w : odict Z) : Q :=
  match dict_get "text" w with
  | Some z => if (3 <=? z)%Z then 1 else 0
  | None => 0
  end.

Definition first_weight_metric (w : odict Z) : Q :=
  match w with
  | (_, z) :: _ => inject_Z z
  | [] => 0
  end.

(** ** Cross-validation folds *)

(** The code is written for Python 2 and 3 ([__future__], [six]); the two
    differ on [zip]. *)
Inductive pyversion : Type := Python2 | Python3.

(** The objects the fold selection handles: numpy index arrays and their
    items, tuples, lists, the iterator that Python 3's [zip] returns (with
    the items it would produce, or the exception its source would raise) and
    a [sklearn.model_selection.KFold] instance. *)
Inductive pyobj : Type :=
| PyInt (n : nat)
| PyArray (indices : list nat)
| PyTuple (elems : list pyobj)
| PyList (elems : list pyobj)
| PyZip (pending : result (list pyobj))
| PyKFold (n_splits : nat).

(** [o[i]]: lists, tuples and arrays are subscriptable; a [zip] iterator
    and a [KFold] instance are not. *)
Definition py_getitem (o : pyobj) (i : nat) : result pyobj :=
  match o with
  | PyTuple l | PyList l =>
      match l !! i with
      | Some x => Ok x
      | None => Raise IndexError
      end
  | PyArray a =>
      match a !! i with
      | Some n => Ok (PyInt n)
      | None => Raise IndexError
      end
  | PyInt _ | PyZip _ | PyKFold _ => Raise TypeError
  end.

(** [iter(o)] run to the end: a [KFold] instance defines neither
    [__iter__] nor [__getitem__]. *)
Definition py_iter (o : pyobj) : result (list pyobj) :=
  match o with
  | PyTuple l | PyList l => Ok l
  | PyArray a => Ok (map PyInt a)
  | PyZip pending => pending
  | PyInt _ | PyKFold _ => Raise TypeError
  end.

(** [a, b = o]. *)
Definition py_unpack2 (o : pyobj) : result (pyobj * pyobj) :=
  l ← py_iter o;
  match l with
  | [a; b] => Ok (a, b)
  | _ => Raise (ValueError "wrong number of values to unpack")
  end.

(** [zip(iterable)] with one argument: a list of 1-tuples in Python 2,
    which consumes the iterable; a lazy iterator in Python 3. *)
Definition py_zip1 (ver : pyversion) (iterable : result (list pyobj))
    : result pyobj :=
  let tuples := map (λ x, PyTuple [x]) <$> iterable in
  match ver with
  | Python2 => l ← tuples; Ok (PyList l)
  | Python3 => Ok (PyZip tuples)
  end.

(** [model_selection.KFold(n_splits=k, shuffle=False, random_state=None)]:
    the constructor wants at least two splits. *)
Definition KFold (n_splits : nat) : result pyobj :=
  if (n_splits <=? 1)%nat
  then Raise (ValueError "k-fold cross-validation requires n_splits=2 or more")
  else Ok (PyKFold n_splits).

(** The sizes of the folds: the first [n_samples % n_splits] folds have one
    sample more. *)
Definition fold_sizes (n_splits n_samples : nat) : list nat :=
  map (λ i, if (i <? n_samples mod n_splits)%nat
            then S (n_samples / n_splits) else (n_samples / n_splits)%nat)
      (seq 0 n_splits).

(** The test folds: consecutive ranges of these sizes. *)
Fixpoint test_folds (current : nat) (sizes : list nat) : list (list nat) :=
  match sizes with
  | [] => []
  | fold_size :: rest =>
      seq current fold_size :: test_folds (current + fold_size) rest
  end.

(** [cv.split(X)] for [len(X) = n_samples], run to the end: the pairs
    (train indices, test indices), the train indices being the others in
    increasing order. *)
Definition KFold_split (n_splits n_samples : nat)
    : result (list (list nat * list nat)) :=
  if (n_samples <? n_splits)%nat
  then Raise (ValueError "n_splits greater than the number of samples")
  else Ok (map (λ test, (filter (λ i, i ∉ test) (seq 0 n_samples), test))
             (test_folds 0 (fold_sizes n_splits n_samples))).

Definition split_objects (n_splits n_samples : nat) : result (list pyobj) :=
  map (λ train_test : list nat * list nat,
         PyTuple [PyArray train_test.1; PyArray train_test.2])
  <$> KFold_split n_splits n_samples.

(** The fold selection of [dynamicWeightValues]:
    [cv = model_selection.KFold(...); cv = zip(cv.split(retrieval_results));
     traincv, testcv = cv[split_fold]]. *)
Definition select_train_fold (ver : pyversion) (numfolds n_results : nat)
    (split_fold : nat) : result (pyobj * pyobj) :=
  cv ← KFold numfolds;
  cv ← py_zip1 ver (split_objects numfolds n_results);
  py_getitem cv split_fold ≫= py_unpack2.

(** The fold selection of [measureScoresOfWeights]:
    [cv = model_selection.KFold(...); cv = [k for k in cv];
     traincv, testcv = cv[split_fold]]. *)
Definition select_test_fold (numfolds : nat) (split_fold : nat)
    : result (pyobj * pyobj) :=
  cv ← KFold numfolds;
  cv ← PyList <$> py_iter cv;
  py_getitem cv split_fold ≫= py_unpack2.

(** The fold [i] of the split itself: [list(cv.split(X))[i]]. *)
Definition KFold_fold (n_splits n_samples i : nat)
    : result (list nat * list nat) :=
  splits ← KFold_split n_splits n_samples;
  match splits !! i with
  | Some train_test => Ok train_test
  | None => Raise IndexError
  end.

(** ** Measuring precomputed results *)

(** The values held by a precomputed result, by the [result_dict] that is
    logged for it and by a line of averaged scores. *)
Inductive jvalue : Type :=
| JStr (s : string)
| JNum (q : Q)
| JStrings (l : list string)
| JFormulas (fs : list (string * formula)).

Definition pyresult : Type := odict jvalue.

Section measurePrecomputedResolution.
(** What [proc.results_logging.ResultsLogger] and
    [weight_functions.runPrecomputedQuery] provide; their code is not part
    of the sources at hand.  [logger] is the state of a [ResultsLogger],
    [retrieved] an item of the list of recomputed candidates (the query
    returns [None] or a list). *)
Context {logger retrieved : Type}.
Variable new_logger : nat → logger.
Variable addResolutionResultDict : logger → pyresult → logger.
Variable measureScoreAndLog :
  logger → list retrieved → jvalue → pyresult → logger.
(** [logger.averages] after [computeAverageScores()], and
    [logger.scores["precision"]]. *)
Variable averages : logger → odict (odict (odict Q)).
Variable precision_scores : logger → odict (odict Q).
Variable runPrecomputedQuery :
  list (string * formula) → odict Q → result (option (list retrieved)).

Variable method : string.
Variable parameters : odict Q.

(** The [result_dict] built for a result. *)
Definition make_result_dict (r : pyresult) : result pyresult :=
  file_guid ← dict_item "file_guid" r;
  citation_id ← dict_item "citation_id" r;
  doc_position ← dict_item "doc_position" r;
  query_method ← dict_item "query_method" r;
  az ← dict_item "az" r;
  cfc ← dict_item "cfc" r;
  match_guids ← dict_item "match_guids" r;
  Ok [("file_guid", file_guid); ("citation_id", citation_id);
      ("doc_position", doc_position); ("query_method", query_method);
      ("doc_method", JStr method); ("az", az); ("cfc", cfc);
      ("match_guids", match_guids)].

(** The five entries added when the query came back empty. *)
Definition empty_query_scores (result_dict : pyresult) : pyresult :=
  dict_set "first_result" (JStr "")
    (dict_set "rank" (JNum 0)
       (dict_set "ndcg_score" (JNum 0)
          (dict_set "precision_score" (JNum 0)
             (dict_set "mrr_score" (JNum 0) result_dict)))).

(** [not retrieved or len(retrieved) == 0]. *)
Definition no_candidates (r : option (list retrieved)) : bool :=
  match r with
  | None | Some [] => true
  | Some (_ :: _) => false
  end.

(** The body of [for result in retrieval_results]. *)
Definition measure_result (lg : logger) (r : pyresult) : result logger :=
  match dict_get "formulas" r with
  | None => Ok lg
  | Some formulas =>
      fs ← match formulas with
           | JFormulas fs => Ok fs
           | _ => Raise TypeError
           end;
      retrieved ← runPrecomputedQuery fs parameters;
      result_dict ← make_result_dict r;
      if no_candidates retrieved
      then Ok (addResolutionResultDict lg (empty_query_scores result_dict))
      else
        citation_multi ← dict_item "citation_multi" r;
        Ok (measureScoreAndLog lg (default [] retrieved) citation_multi
              result_dict)
  end.

(** One line of the returned list, for a query method and a doc method. *)
Definition data_line (lg : logger) (citation_az query_method : string)
    (doc_method : string) (metrics : odict Q) : result pyresult :=
  let line :=
    fold_left (λ line m, dict_set ("avg_" +:+ m.1) (JNum m.2) line) metrics
      [("query_method", JStr query_method); ("doc_method", JStr doc_method);
       ("citation_az", JStr citation_az)] in
  by_query ← dict_item query_method (precision_scores lg);
  precision_total ← dict_item doc_method by_query;
  Ok (dict_set "precision_total" (JNum precision_total) line).

(** [WeightTrainer.measurePrecomputedResolution]. *)
Definition measurePrecomputedResolution (retrieval_results : list pyresult)
    (citation_az : string) : result (list pyresult) :=
  lg ← foldM measure_result retrieval_results
          (new_logger (length retrieval_results));
  foldM (λ results qm,
           foldM (λ results dm,
                    line ← data_line lg citation_az qm.1 dm.1 dm.2;
                    Ok (results ++ [line]))
                 qm.2 results)
        (averages lg) [].
End measurePrecomputedResolution.

(** [scores[0][metric]] as a number; [metric] is evaluated after
    [scores[0]]. *)
Definition first_score (scores : list pyresult) (metric : result string)
    : result Q :=
  match scores with
  | [] => Raise IndexError
  | line :: _ =>
      m ← metric;
      v ← dict_item m line;
      match v with
      | JNum q => Ok q
      | _ => Raise TypeError
      end
  end.

(** ** The experiment and the stored results *)

(** The values of an experiment's options. *)
Inductive cfg : Type :=
| CNone
| CBool (b : bool)
| CInt (z : Z)
| CStr (s : string)
| CList (l : list cfg)
| CDict (d : list (string * cfg)).

(** An entry of the dict of testing methods. *)
Record doc_method : Type := DocMethod {
  method_type : string;
  runtime_parameters : list string
}.

(** What [loadPrecomputedFormulas] returns, as the trainer looks at it: its
    class and its stored results. *)
Inductive reader_class : Type :=
| ResultIncrementalReader
| PythonList
| OtherClass.

Record results_reader : Type := ResultsReader {
  reader_class_of : reader_class;
  rows : list pyresult
}.

(** What the function returns: the dict of best weights, or
    [defaultdict(lambda:1)] when a training set is empty.  An option of the
    wrong type is a [TypeError] where it is first used. *)
Inductive trained : Type :=
| BestWeights (best_weights : odict (odict (odict Q)))
| DefaultOnes.

(** A computation that may raise and whose loops may need more passes than
    the fuel allows ([None]). *)
Definition fueled (A : Type) : Type := option (result A).

Definition fbind {A B} (m : fueled A) (f : A → fueled B) : fueled B :=
  match m with
  | None => None
  | Some (Raise e) => Some (Raise e)
  | Some (Ok a) => f a
  end.

(** A [for] loop whose body may raise, run out of fuel or return from the
    function ([inr]). *)
Fixpoint for_each {A S R} (f : S → A → fueled (S + R)) (l : list A) (s : S)
    : fueled (S + R) :=
  match l with
  | [] => Some (Ok (inl s))
  | a :: l' =>
      fbind (f s a) (λ c,
        match c with
        | inl s' => for_each f l' s'
        | inr r => Some (Ok (inr r))
        end)
  end.

Definition exp_item (exp : gmap string cfg) (k : string) : result cfg :=
  match exp !! k with
  | Some v => Ok v
  | None => Raise (KeyError k)
  end.

Definition cfg_ints (v : cfg) : result (list Z) :=
  match v with
  | CList l =>
      mapM (λ x, match x with CInt z => Ok z | _ => Raise TypeError end) l
  | _ => Raise TypeError
  end.

Definition cfg_strings (v : cfg) : result (list string) :=
  match v with
  | CList l =>
      mapM (λ x, match x with CStr s => Ok s | _ => Raise TypeError end) l
  | _ => Raise TypeError
  end.

Definition cfg_string (v : cfg) : result string :=
  match v with
  | CStr s => Ok s
  | _ => Raise TypeError
  end.

(** Truth value of an option's value. *)
Definition cfg_truthy (v : option cfg) : bool :=
  match v with
  | None | Some CNone | Some (CBool false) | Some (CInt 0)
  | Some (CStr "") | Some (CList []) | Some (CDict []) => false
  | Some _ => true
  end.

(** The variables that outlive one method's search. *)
Record trainer_state : Type := TrainerState {
  best_weights_of : odict (odict (odict Q));
  last_score : option Q;
  file_counter : nat
}.

(** ** [WeightTrainer.loadPrecomputedFormulas] *)

Section loadPrecomputedFormulas.
(** The two classes of [db.result_store] that the method builds; their code
    is not part of the sources at hand.  [ElasticResultStorer name index]
    stands for [ElasticResultStorer(name, index, cp.Corpus.endpoint)] and
    [ResultDiskReader prr exp_dir max_results] for
    [ResultDiskReader(prr, cache_dir=os.path.join(exp_dir, "cache"),
    max_results=max_results)] with its [bufsize] set to 30; either may
    raise. *)
Context {storer : Type}.
Variable ElasticResultStorer : cfg → string → result storer.
Variable ResultDiskReader : storer → cfg → cfg → result results_reader.

Definition loadPrecomputedFormulas (exp : gmap string cfg)
    (query_type : string) : result results_reader :=
  name ← exp_item exp "name";
  queries_classification ←
    exp_item exp "queries_classification" ≫= cfg_string;
  prr ← ElasticResultStorer name
          ("prr_" +:+ queries_classification +:+ "_" +:+ query_type);
  exp_dir ← exp_item exp "exp_dir";
  ResultDiskReader prr exp_dir
    (default (CInt 1000) (exp !! "max_per_class_results")).
End loadPrecomputedFormulas.

(** ** [WeightTrainer.dynamicWeightValues] *)

Section dynamicWeightValues.
Context {logger retrieved storer : Type}.
Variable new_logger : nat → logger.
Variable addResolutionResultDict : logger → pyresult → logger.
Variable measureScoreAndLog :
  logger → list retrieved → jvalue → pyresult → logger.
Variable averages : logger → odict (odict (odict Q)).
Variable precision_scores : logger → odict (odict Q).
Variable runPrecomputedQuery :
  list (string * formula) → odict Q → result (option (list retrieved)).

(** From [base_pipeline], [weight_functions] and [db.result_store]; their
    code is not part of the sources at hand.  [addExtraWeights] returns a
    dict of its own. *)
Variable getDictOfTestingMethods : cfg → odict doc_method.
Variable addExtraWeights : odict Z → gmap string cfg → odict Q.
Variable ElasticResultStorer : cfg → string → result storer.
Variable ResultDiskReader : storer → cfg → cfg → result results_reader.

Variable ver : pyversion.

(** [[retrieval_results[i] for i in traincv]] or
    [retrieval_results.subset(traincv)]. *)
Definition subset (retrieval_results : results_reader) (traincv : pyobj)
    : result (list pyresult) :=
  match reader_class_of retrieval_results with
  | OtherClass => Raise (ValueError "Unkown class of results")
  | _ =>
      indices ← py_iter traincv;
      mapM (λ i, match i with
                 | PyInt n =>
                     match rows retrieval_results !! n with
                     | Some r => Ok r
                     | None => Raise IndexError
                     end
                 | _ => Raise TypeError
                 end) indices
  end.

(** The search for one method: the body of [for method in
    annotated_boost_methods]. *)
Definition train_method (fuel : nat) (exp : gmap string cfg)
    (all_doc_methods : odict doc_method) (train_set : list pyresult)
    (query_type : string) (ts : trainer_state) (method : string)
    : fueled (trainer_state + trained * nat) :=
  let measure := λ w,
    scores ← measurePrecomputedResolution new_logger addResolutionResultDict
                measureScoreAndLog averages precision_scores
                runPrecomputedQuery method (addExtraWeights w exp)
                train_set query_type;
    first_score scores (exp_item exp "metric" ≫= cfg_string) in
  match dict_item method all_doc_methods with
  | Raise e => Some (Raise e)
  | Ok m =>
      let weights0 := dict_fromkeys (runtime_parameters m) 1%Z in
      match start_search measure weights0 (last_score ts) (file_counter ts),
            exp_item exp "movements" ≫= cfg_ints with
      | Raise e, _ | Ok _, Raise e => Some (Raise e)
      | Ok ls0, Ok movements =>
          fbind (sweep_loop measure fuel movements ls0) (λ ls,
            Some (
              this ← measure (weights (search ls));
              let best := addExtraWeights (weights (search ls)) exp in
              best' ← (if cfg_truthy (exp !! "smooth_weights")
                       then smooth_weights best else Ok best);
              by_method ← dict_item query_type (best_weights_of ts);
              Ok (inl (TrainerState
                         (dict_set query_type (dict_set method best' by_method)
                            (best_weights_of ts))
                         (Some this) (GLOBAL_FILE_COUNTER ls)))))
      end
  end.

(** The body of [for query_type in self.exp["train_weights_for"]]. *)
Definition train_query_type (fuel : nat) (exp : gmap string cfg)
    (all_doc_methods : odict doc_method)
    (annotated_boost_methods : list string) (numfolds : result nat)
    (split_fold : nat) (ts : trainer_state) (query_type : string)
    : fueled (trainer_state + trained * nat) :=
  let ts := TrainerState (dict_set query_type [] (best_weights_of ts))
              (last_score ts) (file_counter ts) in
  match loadPrecomputedFormulas ElasticResultStorer ResultDiskReader exp
          query_type with
  | Raise e => Some (Raise e)
  | Ok retrieval_results =>
      let n := length (rows retrieval_results) in
      if (n =? 0)%nat then Some (Ok (inl ts))
      else
        match numfolds with
        | Raise e => Some (Raise e)
        | Ok numfolds =>
            if (n <? numfolds)%nat then Some (Ok (inl ts))
            else
              match select_train_fold ver numfolds n split_fold with
              | Raise e => Some (Raise e)
              | Ok (traincv, testcv) =>
                  match subset retrieval_results traincv with
                  | Raise e => Some (Raise e)
                  | Ok train_set =>
                      if (length train_set =? 0)%nat
                      then Some (Ok (inr (DefaultOnes, file_counter ts)))
                      else
                        for_each (train_method fuel exp all_doc_methods
                                    train_set query_type)
                          annotated_boost_methods ts
                  end
              end
        end
  end.

(** [WeightTrainer.dynamicWeightValues(split_fold)], from the experiment
    [self.exp] and the counter of exported files to the result, the
    experiment as the call leaves it and the counter.  The loop that closes
    the function reads [results_compare], which the body of the loop over
    the query types binds: without a query type it is unbound. *)
Definition dynamicWeightValues (fuel : nat) (exp : gmap string cfg)
    (counter : nat) (split_fold : nat)
    : fueled (trained * gmap string cfg * nat) :=
  match exp_item exp "doc_methods" with
  | Raise e => Some (Raise e)
  | Ok doc_methods =>
      let all_doc_methods := getDictOfTestingMethods doc_methods in
      let annotated_boost_methods :=
        (filter (λ x, is_in (method_type x.2) ["annotated_boost"] = true)
           all_doc_methods).*1 in
      let exp := <["movements" := CList [CInt (-1); CInt 6; CInt (-2)]]> exp in
      let numfolds :=
        match exp !! "cross_validation_folds" with
        | None => Ok 2%nat
        | Some (CInt z) => Ok (Z.to_nat z)
        | Some _ => Raise TypeError
        end in
      match exp_item exp "train_weights_for" ≫= cfg_strings with
      | Raise e => Some (Raise e)
      | Ok query_types =>
          fbind (for_each (train_query_type fuel exp all_doc_methods
                             annotated_boost_methods numfolds split_fold)
                   query_types (TrainerState [] None counter))
            (λ c,
               match c with
               | inl ts =>
                   match query_types with
                   | [] => Some (Raise (NameError "results_compare"))
                   | _ :: _ =>
                       Some (Ok (BestWeights (best_weights_of ts), exp,
                                 file_counter ts))
                   end
               | inr r => Some (Ok (r.1, exp, r.2))
               end)
      end
  end.
End dynamicWeightValues.

(** ** A small experiment to run the trainer on *)

Definition example_exp : gmap string cfg :=
  <["name" := CStr "exp1"]>
    (<["exp_dir" := CStr "/exp/"]>
       (<["queries_classification" := CStr "AZ"]>
          (<["doc_methods" := CDict []]>
             (<["train_weights_for" := CList [CStr "Bkg"]]>
                (<["metric" := CStr "avg_mrr"]>
                   (<["cross_validation_folds" := CInt 2]>
                      (<["movements" := CList [CInt 1; CInt (-1)]]> ∅))))))).

Definition example_result (guid : string) : pyresult :=
  [("file_guid", JStr guid); ("citation_id", JStr "cit0");
   ("doc_position", JNum 1); ("query_method", JStr "window");
   ("az", JStr "Bkg"); ("cfc", JStr ""); ("match_guids", JStrings ["g7"]);
   ("citation_multi", JNum 1); ("formulas", JFormulas [])].




(** The trainer with a logger that keeps the logged dicts, a query that
    finds nothing, one boosted method with two fields and four stored
    results. *)
Definition example_trainer (ver : pyversion) (fuel : nat)
    (exp : gmap string cfg) (counter split_fold : nat)
    : fueled (trained * gmap string cfg * nat) :=
  dynamicWeightValues (logger := list pyresult) (retrieved := unit)
    (storer := string)
    (λ _, []) (λ lg d, lg ++ [d]) (λ lg _ _ d, lg ++ [d])
    (λ _, []) (λ _, []) (λ _ _, Ok (Some []))
    (λ _, [("az_annotated", DocMethod "annotated_boost" ["text"; "title"])])
    (λ w _, map (λ kv, (kv.1, inject_Z kv.2)) w)
    (λ _ index, Ok index)
    (λ _ _ _, Ok (ResultsReader PythonList
                    [example_result "f1"; example_result "f2";
                     example_result "f3"; example_result "f4"]))
    ver fuel exp counter split_fold.

(** ** Shapes of formulas and explanations *)

(** A formula without a [None] part. *)
Fixpoint none_free (f : formula) : bool :=
  match f with
  | Atom PyNone => false
  | Combine _ parts => forallb none_free parts
  | Hit _ | Value _ _ | Unmatched | Atom _ => true
  end.

(** A formula without term hits: combining nodes and constants only. *)
Fixpoint hit_free (f : formula) : bool :=
  match f with
  | Hit _ => false
  | Combine _ parts => forallb hit_free parts
  | Value _ _ | Unmatched | Atom _ => true
  end.

(** Every hit tuple of the formula has a first item. *)
Fixpoint hits_nonempty (f : formula) : bool :=
  match f with
  | Hit [] => false
  | Hit (_ :: _) => true
  | Combine _ parts => forallb hits_nonempty parts
  | Value _ _ | Unmatched | Atom _ => true
  end.

(** The hit tuples of the parser: the field name first; 3 or 6 items
    without the term, 4 or 7 items with the term as last item. *)
Definition hit_shape (save_terms : bool) (t : list pyval) : Prop :=
  (∃ field, t !! 0%nat = Some (PyStr field)) ∧
  if save_terms
  then (length t = 4%nat ∨ length t = 7%nat) ∧ ∃ term, last t = Some (PyStr term)
  else length t = 3%nat ∨ length t = 6%nat.

(** The formulas of the parser: hits of these shapes under ["+"], ["*"]
    and ["max"] nodes, with ["coord"] and ["const"] values. *)
Inductive parsed_shape (save_terms : bool) : formula → Prop :=
| parsed_hit t :
    hit_shape save_terms t →
    parsed_shape save_terms (Hit t)
| parsed_combine ty parts :
    ty ∈ ["+"; "*"; "max"] →
    Forall (parsed_shape save_terms) parts →
    parsed_shape save_terms (Combine ty parts)
| parsed_value ty v :
    ty ∈ ["coord"; "const"] →
    parsed_shape save_terms (Value ty v).

(** The two errors with which [computeScore] rejects a node it does not
    know. *)
Definition unexpected_node (e : exn) : Prop :=
  (∃ type, e = ValueError ("Unexpected operation type: " +:+ type))
  ∨ e = ValueError "Unexpected type".

(** [consistent re_weight d v]: the explanation [d] reports the value [v]
    and its values add up the way the engine computes them: a sum, product
    or maximum node has the sum, product or maximum of its details; a
    weight node has the value of its [fieldWeight] detail, or the product
    of the query weight and the field weight listed under its first
    detail. *)
Inductive consistent (re_weight : string → option (string * string))
    : detail → Q → Prop :=
| consistent_coord desc v ds :
    startswith desc "coord" = true →
    consistent re_weight (Detail desc (Some v) ds) v
| consistent_sum desc v ds vs :
    startswith desc "coord" = false →
    startswith desc "sum of" = true →
    Forall2 (consistent re_weight) ds vs →
    v == sum_scores vs →
    consistent re_weight (Detail desc (Some v) ds) v
| consistent_product desc v ds vs :
    startswith desc "coord" = false →
    startswith desc "sum of" = false →
    startswith desc "product of" = true →
    ds ≠ [] →
    Forall2 (consistent re_weight) ds vs →
    v == product_scores vs →
    consistent re_weight (Detail desc (Some v) ds) v
| consistent_max desc v ds vs :
    startswith desc "coord" = false →
    startswith desc "sum of" = false →
    startswith desc "product of" = false →
    startswith desc "max of" = true →
    ds ≠ [] →
    Forall2 (consistent re_weight) ds vs →
    is_maximum v vs →
    consistent re_weight (Detail desc (Some v) ds) v
| consistent_fieldWeight desc v ds field term elem fw :
    startswith desc "coord" = false →
    startswith desc "sum of" = false →
    startswith desc "product of" = false →
    startswith desc "max of" = false →
    re_weight desc = Some (field, term) →
    ds !! 0%nat = Some elem →
    startswith (description elem) "fieldWeight" = true →
    value elem = Some fw →
    v == fw →
    consistent re_weight (Detail desc (Some v) ds) v
| consistent_weight desc v ds field term elem e0 e1 qw fw :
    startswith desc "coord" = false →
    startswith desc "sum of" = false →
    startswith desc "product of" = false →
    startswith desc "max of" = false →
    re_weight desc = Some (field, term) →
    ds !! 0%nat = Some elem →
    startswith (description elem) "fieldWeight" = false →
    details elem !! 0%nat = Some e0 →
    details elem !! 1%nat = Some e1 →
    value e0 = Some qw →
    value e1 = Some fw →
    v == qw * fw →
    consistent re_weight (Detail desc (Some v) ds) v
| consistent_const desc v ds :
    startswith desc "coord" = false →
    startswith desc "sum of" = false →
    startswith desc "product of" = false →
    startswith desc "max of" = false →
    re_weight desc = None →
    startswith desc "match on required clause, product of" = true →
    consistent re_weight (Detail desc (Some v) ds) v.

(** An explanation to run the parser on, with the matches of the three
    regular expressions on its descriptions: a product of a coordination
    factor and a sum of two weights of [text:search], the first with query
    weight and field weight, the second with its field weight only. *)
Definition example_re_weight (desc : string) : option (string * string) :=
  if String.prefix "weight(text:search in " desc
  then Some ("text", "search") else None.

Definition example_re_idf (desc : string) : option (Z * Z) :=
  if String.prefix "idf(docFreq=4, maxDocs=10)" desc
  then Some (4, 10)%Z else None.

Definition example_re_tf (desc : string) : option Z :=
  if String.prefix "tf(freq=1.0)" desc then Some 1%Z else None.

Definition example_full_weight : detail :=
  Detail "weight(text:search in 12) [PerFieldSimilarity], result of:"
    (Some (3 # 2))
    [Detail "score(doc=12,freq=1.0), product of:" (Some (3 # 2))
       [Detail "queryWeight, product of:" (Some 3)
          [Detail "idf(docFreq=4, maxDocs=10)" (Some 2) [];
           Detail "queryNorm" (Some (3 # 2)) []];
        Detail "fieldWeight in 12, product of:" (Some (1 # 2))
          [Detail "tf(freq=1.0), with freq of:" (Some 1) [];
           Detail "idf(docFreq=4, maxDocs=10)" (Some 2) [];
           Detail "fieldNorm(doc=12)" (Some (1 # 4)) []]]].

Definition example_field_weight : detail :=
  Detail "weight(text:search in 12) [PerFieldSimilarity], result of:"
    (Some 2)
    [Detail "fieldWeight in 12, product of:" (Some 2) []].

Definition example_explanation : explanation :=
  Explanation true
    (Detail "product of:" (Some (7 # 4))
       [Detail "sum of:" (Some (7 # 2))
          [example_full_weight; example_field_weight];
        Detail "coord(1/2)" (Some (1 # 2)) []]).

(** What a step, a sweep and the whole loop keep of the accepted weights
    and score: the weight names in their order, every weight either as it
    was or at least 0, the score equal to the metric of the weights once it
    was so, and never below where it started. *)
Definition search_kept (metric : odict Z → Q) (wp wp' : odict Z * Q) : Prop :=
  keys wp'.1 = keys wp.1 ∧
  (∀ name z, dict_get name wp'.1 = Some z →
             (0 ≤ z)%Z ∨ dict_get name wp.1 = Some z) ∧
  (wp.2 = metric wp.1 → wp'.2 = metric wp'.1) ∧
  wp.2 <= wp'.2.

(** ** [WeightTrainer.measureScoresOfWeights] and [trainWeights] *)

(** The cells of the two tables that are written to disk. *)
Inductive cell : Type :=
| CellNone
| CellNum (q : Q)
| CellStr (s : string)
| CellStrs (l : list string)
| CellPairs (l : list (string * Q))
| CellValue (v : jvalue).

(** A table written with [DataFrame(rows).to_csv(file_name)]. *)
Record csv_file : Type := CsvFile {
  file_name : string;
  table_rows : list (odict cell)
}.

(** [self.exp.get("cross_validation_folds", 2)] as [range] takes it: an
    integer, a boolean counting as one. *)
Definition folds_option (exp : gmap string cfg) : result Z :=
  match exp !! "cross_validation_folds" with
  | None => Ok 2%Z
  | Some (CInt z) => Ok z
  | Some (CBool b) => Ok (if b then 1 else 0)%Z
  | Some _ => Raise TypeError
  end.

(** [scores[0]]. *)
Definition first_line (scores : list pyresult) : result pyresult :=
  match scores with
  | [] => Raise IndexError
  | line :: _ => Ok line
  end.

(** ["_".join(names)]. *)
Fixpoint join_underscore (names : list string) : string :=
  match names with
  | [] => ""
  | [x] => x
  | x :: rest => x +:+ "_" +:+ join_underscore rest
  end.

(** What the loop over the folds accumulates for one fold. *)
Record fold_state : Type := FoldState {
  results_of : list (odict cell);
  improvements : list Q;
  better_zones : list string;
  better_zones_details : list (string * Q)
}.

Section measureScoresOfWeights.
Context {logger retrieved storer : Type}.
Variable new_logger : nat → logger.
Variable addResolutionResultDict : logger → pyresult → logger.
Variable measureScoreAndLog :
  logger → list retrieved → jvalue → pyresult → logger.
Variable averages : logger → odict (odict (odict Q)).
Variable precision_scores : logger → odict (odict Q).
Variable runPrecomputedQuery :
  list (string * formula) → odict Q → result (option (list retrieved)).
Variable getDictOfTestingMethods : cfg → odict doc_method.
Variable addExtraWeights : odict Z → gmap string cfg → odict Q.
Variable ElasticResultStorer : cfg → string → result storer.
Variable ResultDiskReader : storer → cfg → cfg → result results_reader.
Variable ver : pyversion.

(** [for metric in metrics: result[metric] = scores[0][metric]]. *)
Definition copy_metrics (line : pyresult) (row : odict cell)
    : result (odict cell) :=
  foldM (λ row metric,
           v ← dict_item metric line;
           Ok (dict_set metric (CellValue v) row))
        ["avg_mrr"; "avg_ndcg"; "avg_precision"; "precision_total"] row.

(** The body of [for method in weights[query_type]]: the baseline row and
    the row of the learned weights. *)
Definition score_method (exp : gmap string cfg)
    (all_doc_methods : odict doc_method) (test_set : list pyresult)
    (n_results : nat) (split_fold : nat) (query_type : string)
    (by_method : odict (odict Q)) (fs : fold_state) (method : string)
    : result fold_state :=
  m ← dict_item method all_doc_methods;
  let weights_baseline :=
    addExtraWeights (dict_fromkeys (runtime_parameters m) 1%Z) exp in
  let measure := λ parameters,
    measurePrecomputedResolution new_logger addResolutionResultDict
      measureScoreAndLog averages precision_scores runPrecomputedQuery
      method parameters test_set query_type in
  scores ← measure weights_baseline;
  baseline_score ← first_score scores (exp_item exp "metric" ≫= cfg_string);
  line ← first_line scores;
  learned ← dict_item method by_method;
  row ← copy_metrics line
         [("query_type", CellStr query_type);
          ("fold", CellNum (inject_Z (Z.of_nat split_fold)));
          ("score", CellNum baseline_score); ("method", CellStr method);
          ("type", CellStr "baseline"); ("improvement", CellNone);
          ("pct_improvement", CellNone);
          ("num_data_points", CellNum (inject_Z (Z.of_nat n_results)))];
  let row := fold_left (λ row weight, dict_set weight (CellNum 1) row)
               (keys learned) row in
  let results := results_of fs ++ [row] in
  scores ← measure learned;
  this_score ← first_score scores (exp_item exp "metric" ≫= cfg_string);
  let impro := this_score - baseline_score in
  let pct_impro :=
    if Qeq_bool baseline_score 0 then 0 else 100 * (impro / baseline_score) in
  let improvements' :=
    improvements fs
    ++ [impro * inject_Z (Z.of_nat (length test_set))
        / inject_Z (Z.of_nat n_results)] in
  let improved := Qlt_bool 0 impro in
  line ← first_line scores;
  row ← copy_metrics line
         [("query_type", CellStr query_type);
          ("fold", CellNum (inject_Z (Z.of_nat split_fold)));
          ("score", CellNum this_score); ("method", CellStr method);
          ("type", CellStr "weight"); ("improvement", CellNum impro);
          ("pct_improvement", CellNum pct_impro);
          ("num_data_points", CellNum (inject_Z (Z.of_nat n_results)))];
  row ← foldM (λ row weight,
                 w ← dict_item weight learned;
                 Ok (dict_set weight (CellNum w) row))
              (keys learned) row;
  Ok (FoldState (results ++ [row]) improvements'
        (if improved then better_zones fs ++ [query_type]
         else better_zones fs)
        (if improved then better_zones_details fs ++ [(query_type, pct_impro)]
         else better_zones_details fs)).

(** The body of [for query_type in self.exp["train_weights_for"]]. *)
Definition score_query_type (exp : gmap string cfg)
    (all_doc_methods : odict doc_method) (numfolds : Z) (split_fold : nat)
    (weights : trained) (fs : fold_state) (query_type : string)
    : result fold_state :=
  retrieval_results ←
    loadPrecomputedFormulas ElasticResultStorer ResultDiskReader exp
      query_type;
  let n := length (rows retrieval_results) in
  if (n =? 0)%nat then Ok fs
  else if (Z.of_nat n <? numfolds)%Z then Ok fs
  else
    '(traincv, testcv) ← select_test_fold (Z.to_nat numfolds) split_fold;
    test_set ← subset retrieval_results testcv;
    by_method ← match weights with
                 | BestWeights bw => dict_item query_type bw
                 | DefaultOnes => Raise TypeError
                 end;
    foldM (score_method exp all_doc_methods test_set n split_fold query_type
             by_method)
      (keys by_method) fs.

(** The row of a fold in the second table. *)
Definition fold_row (split_fold : nat) (fs : fold_state) : odict cell :=
  [("fold", CellNum (inject_Z (Z.of_nat split_fold)));
   ("avg_improvement",
    CellNum (if (0 <? length (improvements fs))%nat
             then fold_left Qplus (improvements fs) 0
                  / inject_Z (Z.of_nat (length (improvements fs)))
             else 0));
   ("num_improved_zones",
    CellNum (inject_Z (Z.of_nat
      (length (filter (λ x, Qlt_bool 0 x = true) (improvements fs))))));
   ("num_zones", CellNum (inject_Z (Z.of_nat (length (improvements fs)))));
   ("better_zones", CellStrs (better_zones fs));
   ("better_zones_details", CellPairs (better_zones_details fs))].

(** The body of [for split_fold in range(numfolds)], on the rows of the
    two tables. *)
Definition score_fold (exp : gmap string cfg)
    (all_doc_methods : odict doc_method) (best_weights : gmap nat trained)
    (numfolds : Z) (acc : list (odict cell) * list (odict cell))
    (split_fold : nat) : result (list (odict cell) * list (odict cell)) :=
  weights ← match best_weights !! split_fold with
             | Some w => Ok w
             | None => Raise (KeyError "split_fold")
             end;
  query_types ← exp_item exp "train_weights_for" ≫= cfg_strings;
  fs ← foldM (score_query_type exp all_doc_methods numfolds split_fold
                weights)
         query_types (FoldState acc.1 [] [] []);
  Ok (results_of fs, acc.2 ++ [fold_row split_fold fs]).

(** [WeightTrainer.measureScoresOfWeights(best_weights)]: the two tables
    it writes, the improvements first. *)
Definition measureScoresOfWeights (exp : gmap string cfg)
    (all_doc_methods : odict doc_method) (best_weights : gmap nat trained)
    : result (csv_file * csv_file) :=
  name ← exp_item exp "name";
  _ ← exp_item exp "metric";
  numfolds ← folds_option exp;
  '(results, fold_results) ←
    foldM (score_fold exp all_doc_methods best_weights numfolds)
      (seq 0 (Z.to_nat numfolds)) ([], []);
  xtra ← join_underscore <$> (exp_item exp "train_weights_for" ≫= cfg_strings);
  exp_dir ← exp_item exp "exp_dir" ≫= cfg_string;
  name ← cfg_string name;
  Ok (CsvFile (exp_dir +:+ name +:+ "_improvements_" +:+ xtra +:+ ".csv")
        results,
      CsvFile (exp_dir +:+ name +:+ "_folds_" +:+ xtra +:+ ".csv")
        fold_results).

(** [WeightTrainer.trainWeights()], from the experiment, the options and
    the counter of exported files to the two tables, the experiment as the
    call leaves it and the counter. *)
Definition trainWeights (fuel : nat) (exp options : gmap string cfg)
    (counter : nat)
    : fueled (csv_file * csv_file * gmap string cfg * nat) :=
  match exp_item exp "doc_methods" with
  | Raise e => Some (Raise e)
  | Ok doc_methods =>
      let all_doc_methods := getDictOfTestingMethods doc_methods in
      let exp :=
        if cfg_truthy (options !! "override_folds")
        then match options !! "override_folds" with
             | Some v => <["cross_validation_folds" := v]> exp
             | None => exp
             end
        else exp in
      match folds_option exp with
      | Raise e => Some (Raise e)
      | Ok numfolds =>
          fbind
            (for_each
               (λ (st : gmap nat trained * gmap string cfg * nat) split_fold,
                  fbind (dynamicWeightValues new_logger addResolutionResultDict
                           measureScoreAndLog averages precision_scores
                           runPrecomputedQuery getDictOfTestingMethods
                           addExtraWeights ElasticResultStorer
                           ResultDiskReader ver fuel st.1.2 st.2 split_fold)
                    (λ r, Some (Ok (inl (<[split_fold := r.1.1]> st.1.1,
                                         r.1.2, r.2)))))
               (seq 0 (Z.to_nat numfolds)) (∅, exp, counter))
            (λ c : (gmap nat trained * gmap string cfg * nat) + Empty_set,
               match c with
               | inl st =>
                   Some (tables ← measureScoresOfWeights st.1.2
                                     all_doc_methods st.1.1;
                         Ok (tables.1, tables.2, st.1.2, st.2))
               | inr r => match r with end
               end)
      end
  end.
End measureScoresOfWeights.

(** [measureScoresOfWeights] and [trainWeights] with the logger, the query
    and the four stored results of [example_trainer]. *)
Definition example_scorer (exp : gmap string cfg)
    (best_weights : gmap nat trained) : result (csv_file * csv_file) :=
  measureScoresOfWeights (logger := list pyresult) (retrieved := unit)
    (storer := string)
    (λ _, []) (λ lg d, lg ++ [d]) (λ lg _ _ d, lg ++ [d])
    (λ _, []) (λ _, []) (λ _ _, Ok (Some []))
    (λ w _, map (λ kv, (kv.1, inject_Z kv.2)) w)
    (λ _ index, Ok index)
    (λ _ _ _, Ok (ResultsReader PythonList
                    [example_result "f1"; example_result "f2";
                     example_result "f3"; example_result "f4"]))
    exp [("az_annotated", DocMethod "annotated_boost" ["text"; "title"])]
    best_weights.

Definition example_trainWeights (ver : pyversion) (fuel : nat)
    (exp options : gmap string cfg) (counter : nat)
    : fueled (csv_file * csv_file * gmap string cfg * nat) :=
  trainWeights (logger := list pyresult) (retrieved := unit)
    (storer := string)
    (λ _, []) (λ lg d, lg ++ [d]) (λ lg _ _ d, lg ++ [d])
    (λ _, []) (λ _, []) (λ _ _, Ok (Some []))
    (λ _, [("az_annotated", DocMethod "annotated_boost" ["text"; "title"])])
    (λ w _, map (λ kv, (kv.1, inject_Z kv.2)) w)
    (λ _ index, Ok index)
    (λ _ _ _, Ok (ResultsReader PythonList
                    [example_result "f1"; example_result "f2";
                     example_result "f3"; example_result "f4"]))
    ver fuel exp options counter.

(** * Properties *)

(** ** The formula interpreter *)

Lemma mapM_Forall2 {A B} (f : A → result B) (l : list A) (ys : list B) :
  Forall2 (λ x y, f x = Ok y) l ys → mapM f l = Ok ys.
Proof.
  induction 1 as [|x y l ys Hxy _ IH]; simpl; [done|].
  by rewrite Hxy, IH.
Qed.

Lemma truthy_None_iff (d : option pydict) :
  truthy d = None ↔ d = None ∨ ∃ d', d = Some d' ∧ items d' = ∅.
Proof.
  unfold truthy. destruct d as [d'|]; [|by split; [left|]].
  destruct (decide (items d' = ∅)) as [He|Hne].
  - split; [right; by exists d'|done].
  - split; [done|]. intros [?|(? & [= <-] & ?)]; done.
Qed.

Lemma truthy_Some (d : pydict) :
  items d ≠ ∅ → truthy (Some d) = Some d.
Proof. intros H. unfold truthy. by destruct (decide (items d = ∅)). Qed.

Lemma py_sum_acc (l : list Q) (a : Q) :
  fold_left Qplus l a == a + sum_scores l.
Proof.
  revert a; induction l as [|x l IH]; intros a; simpl.
  - ring.
  - rewrite IH. ring.
Qed.

Lemma py_sum_spec (l : list Q) : py_sum l == sum_scores l.
Proof. unfold py_sum. rewrite py_sum_acc. ring. Qed.

Lemma py_product_acc (l : list Q) (a : Q) :
  fold_left Qmult l a == a * product_scores l.
Proof.
  revert a; induction l as [|x l IH]; intros a; simpl.
  - ring.
  - rewrite IH. ring.
Qed.

Lemma Qlt_bool_true (x y : Q) : Qlt_bool x y = true ↔ x < y.
Proof.
  unfold Qlt_bool. rewrite negb_true_iff.
  destruct (Qle_bool y x) eqn:E.
  - apply Qle_bool_iff in E. split; [done|]. intros H. exfalso. lra.
  - split; [|done]. intros _. apply Qnot_le_lt. intros H.
    apply Qle_bool_iff in H. congruence.
Qed.

Lemma Qlt_bool_false (x y : Q) : Qlt_bool x y = false ↔ y <= x.
Proof.
  unfold Qlt_bool. rewrite negb_false_iff. apply Qle_bool_iff.
Qed.

Lemma py_max_acc (l : list Q) (a : Q) :
  let r := fold_left (λ m y, if Qlt_bool m y then y else m) l a in
  (r = a ∨ r ∈ l) ∧ a <= r ∧ ∀ s, s ∈ l → s <= r.
Proof.
  revert a; induction l as [|x l IH]; intros a; simpl.
  - split; [by left|]. split; [apply Qle_refl|]. intros s Hs. inversion Hs.
  - destruct (IH (if Qlt_bool a x then x else a)) as (Hin & Hle & Hall).
    destruct (Qlt_bool a x) eqn:E.
    + apply Qlt_bool_true in E. split.
      { destruct Hin as [->|Hin]; right; [left|by right]. }
      split; [lra|]. intros s Hs. inversion Hs; subst; auto.
    + apply Qlt_bool_false in E. split.
      { destruct Hin as [->|Hin]; [by left|right; by right]. }
      split; [done|]. intros s Hs. inversion Hs; subst; auto. lra.
Qed.

Lemma py_max_spec (x : Q) (l : list Q) :
  ∃ r, py_max (x :: l) = Ok r ∧ is_maximum r (x :: l).
Proof.
  eexists; split; [reflexivity|].
  destruct (py_max_acc l x) as (Hin & Hle & Hall). split.
  - destruct Hin as [->|Hin]; [left|by right].
  - intros s Hs. inversion Hs; subst; auto.
Qed.

(** C4. A combining node with a non-empty list of parts whose children are
    recomputed to [scores] returns their sum for ["+"], their product for
    ["*"] and their maximum for ["max"]. *)
Theorem computeScore_combine (self_formula : formula)
    (parts : list formula) (scores : list Q) (fp kw : option pydict) :
  parts ≠ [] →
  Forall2 (λ p s, computeScore self_formula p fp kw = Ok s) parts scores →
  (∃ r, computeScore self_formula (Combine "+" parts) fp kw = Ok r ∧
        r == sum_scores scores) ∧
  (∃ r, computeScore self_formula (Combine "*" parts) fp kw = Ok r ∧
        r == product_scores scores) ∧
  (∃ r, computeScore self_formula (Combine "max" parts) fp kw = Ok r ∧
        is_maximum r scores).
Proof.
  intros Hne HF.
  assert (Hm := mapM_Forall2 _ _ _ HF).
  unfold computeScore in *.
  destruct scores as [|x xs].
  { inversion HF; subst. done. }
  split; [|split].
  - exists (py_sum (x :: xs)). split; [|apply py_sum_spec].
    simpl. rewrite Hm. reflexivity.
  - exists (fold_left Qmult xs x). split.
    + simpl. rewrite Hm. reflexivity.
    + rewrite py_product_acc. simpl. ring.
  - destruct (py_max_spec x xs) as (r & Hr & Hmax).
    exists r. split; [|done]. simpl. rewrite Hm. exact Hr.
Qed.

Lemma computeScore_combine_witness :
  let parts := [Value "const" (Some 2); Value "coord" (Some (1 # 2));
                Hit [PyStr "text"; PyNum 3; PyNum 4]] in
  let scores := [2; 1 # 2; 3 * 1 * 4] in
  let stored := Combine "*" parts in
  (∃ r, computeScore stored (Combine "+" parts) None None = Ok r ∧
        r == sum_scores scores) ∧
  (∃ r, computeScore stored (Combine "*" parts) None None = Ok r ∧
        r == product_scores scores) ∧
  (∃ r, computeScore stored (Combine "max" parts) None None = Ok r ∧
        is_maximum r scores).
Proof.
  apply computeScore_combine; [done|].
  repeat constructor.
Defined.

Lemma hitScore_field_multiplier (field : string) (qw fw : Q)
    (rest : list pyval) (fp : option pydict) (m : result Q) :
  field_weight_override field fp m →
  match truthy fp with
  | Some d =>
      f ← getitem (PyStr field :: PyNum qw :: PyNum fw :: rest) 0;
      subscript d f
  | None => Ok 1
  end = m.
Proof.
  destruct 1 as [|d He|d v Hv|d v Hne Hv Hd|d Hne Hv Hd]; simpl.
  - done.
  - destruct (decide (items d = ∅)); done.
  - destruct (decide (items d = ∅)) as [He|_].
    + rewrite He, lookup_empty in Hv. done.
    + unfold subscript; simpl. by rewrite Hv.
  - destruct (decide (items d = ∅)); [done|].
    unfold subscript; simpl. by rewrite Hv, Hd.
  - destruct (decide (items d = ∅)); [done|].
    unfold subscript; simpl. by rewrite Hv, Hd.
Qed.

(** C1 (amended). For a hit tuple [(field, qw, fw, ...)] the field
    multiplier is what [field_parameters[field]] gives: 1 without a field map
    or with an empty one, the stored weight when the field is present, the
    factory's value on a defaultdict, and a [KeyError] on a plain dict that
    lacks the field.  Without a term map, or with an empty one, the score is
    [qw * multiplier * fw]; with a non-empty term map and the term at index
    6 of the tuple it is [kw.get(term, 0) * qw * multiplier * fw], which is
    0 when the term is absent from the map. *)
Theorem computeScore_hit (self_formula : formula) (field : string)
    (qw fw : Q) (rest : list pyval) (fp kw : option pydict) (m : result Q) :
  field_weight_override field fp m →
  let part := Hit (PyStr field :: PyNum qw :: PyNum fw :: rest) in
  match m with
  | Raise e => computeScore self_formula part fp kw = Raise e
  | Ok mult =>
      ((kw = None ∨ ∃ k, kw = Some k ∧ items k = ∅) →
       computeScore self_formula part fp kw = Ok (qw * mult * fw)) ∧
      (∀ k term,
         kw = Some k → items k ≠ ∅ → rest !! 3%nat = Some (PyStr term) →
         computeScore self_formula part fp kw
           = Ok (default 0 (items k !! term) * qw * mult * fw) ∧
         (items k !! term = None →
          default 0 (items k !! term) * qw * mult * fw == 0))
  end.
Proof.
  intros Hm part. subst part.
  pose proof (hitScore_field_multiplier field qw fw rest fp m Hm) as Hf.
  change (computeScore self_formula (Hit ?t) fp kw) with (hitScore t fp kw).
  unfold hitScore. rewrite Hf.
  destruct m as [mult|e]; [|done]. split.
  - intros Hkw. apply truthy_None_iff in Hkw. rewrite Hkw. done.
  - intros k term -> Hne Hterm. rewrite (truthy_Some k Hne). split.
    + destruct rest as [|r0 [|r1 [|r2 [|r3 rest']]]]; try done.
      simpl in Hterm. injection Hterm as ->. simpl.
      unfold get; simpl. by destruct (items k !! term).
    + intros ->. simpl. ring.
Qed.

Lemma computeScore_hit_witness :
  field_weight_override "text" (Some (PyDict {["text" := 5]} None)) (Ok 5) ∧
  computeScore Unmatched
    (Hit [PyStr "text"; PyNum 3; PyNum (1 # 2);
          PyNum 1; PyNum 4; PyNum 10; PyStr "search"])
    (Some (PyDict {["text" := 5]} None)) None = Ok (3 * 5 * (1 # 2)).
Proof.
  assert (H : field_weight_override "text"
                (Some (PyDict {["text" := 5]} None)) (Ok 5))
    by (apply fwo_present; reflexivity).
  split; [exact H|].
  apply (computeScore_hit Unmatched "text" 3 (1 # 2)
           [PyNum 1; PyNum 4; PyNum 10; PyStr "search"] _ None (Ok 5) H).
  by left.
Defined.

(** C1, as stated, fails on a plain dict that lacks the field of the hit:
    the lookup raises [KeyError] instead of defaulting to 1. *)
Lemma computeScore_hit_plain_dict_counterexample :
  ¬ ∃ r,
      computeScore (Hit [PyStr "text"; PyNum 2; PyNum 3])
        (Hit [PyStr "text"; PyNum 2; PyNum 3])
        (Some (PyDict {["title" := 5]} None)) None = Ok r ∧
      r == spec_hit_score "text" 2 3 None (Some {["title" := 5]}) None.
Proof.
  intros (r & Hr & _). vm_compute in Hr. discriminate Hr.
Qed.

(** C5. A hit parsed from a [fieldWeight] explanation with
    [save_terms = True] carries its term as fourth item; recomputing it
    with a non-empty term map reads index 6 and raises [IndexError]. *)
Theorem computeScore_fieldWeight_hit_IndexError (self_formula : formula)
    (field term : string) (fw : Q) (kw : pydict) :
  items kw ≠ ∅ →
  computeScore self_formula (Hit (fieldWeight_hit true field fw term)) None
    (Some kw)
  = Raise IndexError.
Proof.
  intros Hne.
  change (hitScore (fieldWeight_hit true field fw term) None (Some kw)
          = Raise IndexError).
  unfold hitScore. rewrite (truthy_Some kw Hne). reflexivity.
Qed.

Lemma computeScore_fieldWeight_hit_IndexError_witness :
  computeScore (Hit (fieldWeight_hit true "text" (1 # 2) "search"))
    (Hit (fieldWeight_hit true "text" (1 # 2) "search"))
    None (Some (PyDict {["search" := 2]} None)) = Raise IndexError.
Proof.
  apply computeScore_fieldWeight_hit_IndexError. simpl.
  intros H. apply (f_equal (λ m : gmap string Q, m !! "search")) in H.
  vm_compute in H. discriminate H.
Defined.

(** C8. An explanation that did not match is stored as the dict
    [{"coord": 0, "matches": []}], which has no ["type"] entry: recomputing
    it raises [KeyError] whatever the weight maps are, when it is passed as
    the part and when it is the stored formula of the default call. *)
Theorem computeScore_unmatched (re_weight : string → option (string * string))
    (re_idf : string → option (Z * Z)) (re_tf : string → option Z)
    (save_terms : bool) (root : detail) (self_formula : formula)
    (fp kw : option pydict) :
  fromElasticExplanation re_weight re_idf re_tf save_terms
    (Explanation false root) = Ok Unmatched ∧
  computeScore self_formula Unmatched fp kw = Raise (KeyError "type") ∧
  computeScore Unmatched (Atom PyNone) fp kw = Raise (KeyError "type").
Proof. repeat split; reflexivity. Qed.

(** ** Insertion-ordered dicts *)

Section odict_facts.
Context {V : Type}.
Implicit Types (d : odict V) (k : string) (v : V).

Lemma dict_get_set_eq k v d : dict_get k (dict_set k v d) = Some v.
Proof.
  induction d as [|[k' v'] d IH]; simpl.
  - by rewrite String.eqb_refl.
  - destruct (String.eqb k k') eqn:E; simpl.
    + by rewrite String.eqb_refl.
    + by rewrite E.
Qed.

Lemma dict_get_set_ne k k' v d :
  k ≠ k' → dict_get k' (dict_set k v d) = dict_get k' d.
Proof.
  intros Hne. induction d as [|[k0 v0] d IH]; simpl.
  - destruct (String.eqb k' k) eqn:E; [|done].
    apply String.eqb_eq in E. congruence.
  - destruct (String.eqb k k0) eqn:E; simpl.
    + apply String.eqb_eq in E. subst k0.
      destruct (String.eqb k' k) eqn:E'; [|done].
      apply String.eqb_eq in E'. congruence.
    + by rewrite IH.
Qed.

Lemma keys_dict_set k v d :
  is_Some (dict_get k d) → keys (dict_set k v d) = keys d.
Proof.
  unfold keys. induction d as [|[k' v'] d IH]; simpl.
  - by intros [? ?].
  - destruct (String.eqb k k') eqn:E; simpl.
    + apply String.eqb_eq in E. by subst.
    + intros H. f_equal. by apply IH.
Qed.

Lemma dict_set_restore k v v' d :
  dict_get k d = Some v → dict_set k v (dict_set k v' d) = d.
Proof.
  induction d as [|[k' v0] d IH]; simpl; [done|].
  destruct (String.eqb k k') eqn:E; simpl.
  - rewrite String.eqb_refl. apply String.eqb_eq in E.
    intros [= ->]. by subst.
  - rewrite E. intros H. by rewrite IH.
Qed.

Lemma keys_lookup_dict_get d i k :
  keys d !! i = Some k → is_Some (dict_get k d).
Proof.
  unfold keys. revert i. induction d as [|[k' v'] d IH]; intros i; simpl.
  - by rewrite lookup_nil.
  - destruct (String.eqb k k') eqn:E; [by eexists|].
    destruct i as [|i]; simpl.
    + intros [= ->]. by rewrite String.eqb_refl in E.
    + apply IH.
Qed.

Lemma dict_get_is_Some_keys d k :
  is_Some (dict_get k d) ↔ k ∈ keys d.
Proof.
  unfold keys. induction d as [|[k' v'] d IH]; simpl.
  - split; [by intros [? ?]|by intros ?%elem_of_nil].
  - destruct (String.eqb k k') eqn:E.
    + apply String.eqb_eq in E. subst. split; [intros _; left|by eexists].
    + rewrite IH. split; [by right|].
      intros [->|?]%elem_of_cons; [|done].
      by rewrite String.eqb_refl in E.
Qed.
End odict_facts.

Lemma foldM_app {A S} (f : S → A → result S) (l1 l2 : list A) (s : S) :
  foldM f (l1 ++ l2) s = foldM f l1 s ≫= foldM f l2.
Proof.
  revert s; induction l1 as [|a l1 IH]; intros s; simpl; [done|].
  destruct (f s a); [apply IH|done].
Qed.

(** ** One sweep of the optimizer *)

Section sweep_facts.
Variable metric : odict Z → Q.
Abbreviation measure := (evaluate metric).

Lemma adjust_weight_step (direction : Z) (st : search_state) (index : nat)
    (name : string) :
  keys (weights st) !! index = Some name →
  ∃ prev_weight st',
    dict_get name (weights st) = Some prev_weight ∧
    adjust_weight measure direction st index = Ok st' ∧
    let tentative :=
      dict_set name (Z.max 0 (prev_weight + direction)) (weights st) in
    this_score st' = Some (metric tentative) ∧
    ((previous_score st < metric tentative ∧
      weights st' = tentative ∧ previous_score st' = metric tentative) ∨
     (metric tentative <= previous_score st ∧
      weights st' = weights st ∧ previous_score st' = previous_score st)).
Proof.
  intros Hname.
  destruct (keys_lookup_dict_get _ _ _ Hname) as [prev_weight Hprev].
  unfold adjust_weight, dict_item, evaluate. rewrite Hname, Hprev. simpl.
  destruct (Qle_bool _ _) eqn:E.
  - eexists _, _. split; [done|]. split; [done|]. simpl.
    split; [done|]. right. apply Qle_bool_iff in E.
    split; [done|]. split; [|done]. by apply dict_set_restore.
  - eexists _, _. split; [done|]. split; [done|]. simpl.
    split; [done|]. left. split; [|done].
    apply Qnot_le_lt. intros H. apply Qle_bool_iff in H.
    unfold MIN_WEIGHT in E. congruence.
Qed.

Lemma adjust_weight_spec_try (direction : Z) (st : search_state)
    (index : nat) (name : string) :
  keys (weights st) !! index = Some name →
  ∃ st',
    adjust_weight measure direction st index = Ok st' ∧
    accepted st' = spec_try metric direction (accepted st) name ∧
    keys (weights st') = keys (weights st) ∧
    is_Some (this_score st').
Proof.
  intros Hname.
  destruct (adjust_weight_step direction st index name Hname)
    as (prev_weight & st' & Hprev & Hst' & Hthis & Hcases).
  exists st'. split; [done|]. unfold accepted, spec_try. simpl.
  rewrite Hprev.
  destruct Hcases as [(Hlt & Hw & Hp)|(Hle & Hw & Hp)].
  - apply Qlt_bool_true in Hlt. rewrite Hlt, Hw, Hp.
    split; [done|]. split; [|by eexists].
    apply keys_dict_set. by eexists.
  - apply Qlt_bool_false in Hle. rewrite Hle, Hw, Hp.
    split; [done|]. split; [done|by eexists].
Qed.

Lemma spec_try_keys (delta : Z) (wp : odict Z * Q) (name : string) :
  keys (spec_try metric delta wp name).1 = keys wp.1.
Proof.
  unfold spec_try. destruct (dict_get name wp.1) eqn:E; [|done].
  destruct (Qlt_bool _ _); [|done]. simpl.
  apply keys_dict_set. by eexists.
Qed.

Lemma fold_spec_try_keys (delta : Z) (names : list string)
    (wp : odict Z * Q) :
  keys (fold_left (spec_try metric delta) names wp).1 = keys wp.1.
Proof.
  revert wp; induction names as [|n names IH]; intros wp; simpl; [done|].
  by rewrite IH, spec_try_keys.
Qed.

(** The indexed loop over [range(len(weights))] visits the names in
    order. *)
Lemma adjust_weights_spec (direction : Z) (ks : list string) :
  ∀ (indices : list nat) (names : list string) (st : search_state),
    keys (weights st) = ks →
    Forall2 (λ i n, ks !! i = Some n) indices names →
    ∃ st',
      foldM (adjust_weight measure direction) indices st = Ok st' ∧
      accepted st'
        = fold_left (spec_try metric direction) names (accepted st) ∧
      keys (weights st') = ks ∧
      (indices ≠ [] → is_Some (this_score st')).
Proof.
  intros indices names st Hks HF. revert st Hks.
  induction HF as [|i n indices names Hi HF IH]; intros st Hks.
  - exists st. done.
  - simpl. rewrite <- Hks in Hi.
    destruct (adjust_weight_spec_try direction st i n Hi)
      as (st1 & Hst1 & Hacc & Hkeys & Hthis).
    rewrite Hst1. rewrite Hks in Hkeys.
    destruct (IH st1 Hkeys) as (st' & Hst' & Hacc' & Hkeys' & Hthis').
    exists st'. split; [done|]. split; [by rewrite Hacc', Hacc|].
    split; [done|]. intros _.
    destruct indices as [|i' indices]; [|by apply Hthis'].
    simpl in Hst'. by injection Hst' as <-.
Qed.

Lemma seq_keys_Forall2 {V} (d : odict V) :
  Forall2 (λ i n, keys d !! i = Some n) (seq 0 (length d)) (keys d).
Proof.
  apply Forall2_same_length_lookup_2.
  - unfold keys. by rewrite length_seq, length_fmap.
  - intros i x y Hx Hy. apply lookup_seq in Hx as [-> _]. done.
Qed.

Lemma sweep_direction_spec (direction : Z) (st : search_state) :
  ∃ st',
    sweep_direction measure st direction = Ok st' ∧
    accepted st'
      = fold_left (spec_try metric direction) (keys (weights st))
          (accepted st) ∧
    keys (weights st') = keys (weights st) ∧
    (weights st ≠ [] → is_Some (this_score st')).
Proof.
  unfold sweep_direction.
  destruct (adjust_weights_spec direction (keys (weights st))
              (seq 0 (length (weights st))) (keys (weights st)) st eq_refl
              (seq_keys_Forall2 _))
    as (st' & Hst' & Hacc & Hkeys & Hthis).
  exists st'. split; [done|]. split; [done|]. split; [done|].
  intros Hne. apply Hthis. by destruct (weights st).
Qed.

Lemma sweep_spec (movements : list Z) (st : search_state) :
  ∃ st',
    sweep measure movements st = Ok st' ∧
    accepted st' = spec_sweep metric movements (accepted st) ∧
    keys (weights st') = keys (weights st) ∧
    (movements ≠ [] → weights st ≠ [] → is_Some (this_score st')).
Proof.
  unfold sweep, spec_sweep. revert st.
  induction movements as [|d movements IH]; intros st; simpl.
  - exists st. done.
  - destruct (sweep_direction_spec d st)
      as (st1 & Hst1 & Hacc & Hkeys & Hthis).
    rewrite Hst1.
    destruct (IH st1) as (st' & Hst' & Hacc' & Hkeys' & Hthis').
    exists st'. split; [done|].
    split; [by rewrite Hacc', Hacc|]. split; [congruence|].
    intros _ Hne.
    assert (weights st1 ≠ []) as Hne1.
    { intros E. rewrite E in Hkeys. by destruct (weights st). }
    destruct movements as [|d' movements]; [|by apply Hthis'].
    simpl in Hst'. injection Hst' as <-. by apply Hthis.
Qed.

(** C2. In a sweep step the weight at [index] is set to
    [max(0, weight + direction)] and the metric re-evaluated; the change
    is kept exactly when the new score is strictly greater than the
    accepted one, and otherwise the weights are as before the step.  A
    whole sweep takes these steps for each direction in order and each
    weight name in order. *)
Theorem sweep_accepts_strict_improvements (movements : list Z)
    (st : search_state) (direction : Z) (index : nat) :
  match keys (weights st) !! index with
  | None => adjust_weight measure direction st index = Raise IndexError
  | Some name =>
      ∃ prev_weight st',
        dict_get name (weights st) = Some prev_weight ∧
        adjust_weight measure direction st index = Ok st' ∧
        let tentative :=
          dict_set name (Z.max 0 (prev_weight + direction)) (weights st) in
        this_score st' = Some (metric tentative) ∧
        ((previous_score st < metric tentative ∧
          weights st' = tentative ∧ previous_score st' = metric tentative) ∨
         (metric tentative <= previous_score st ∧
          weights st' = weights st ∧
          previous_score st' = previous_score st))
  end ∧
  ∃ st',
    sweep measure movements st = Ok st' ∧
    (weights st', previous_score st')
      = spec_sweep metric movements (weights st, previous_score st).
Proof.
  split.
  - destruct (keys (weights st) !! index) as [name|] eqn:Hname.
    + by apply adjust_weight_step.
    + unfold adjust_weight. by rewrite Hname.
  - destruct (sweep_spec movements st) as (st' & Hst' & Hacc & _).
    by exists st'.
Qed.
End sweep_facts.

(** ** Termination of the sweep loop *)

Lemma loop_runs_fuel (measure : odict Z → result Q) (movements : list Z)
    (n : nat) (ls ls' : loop_state) :
  loop_runs measure movements n ls ls' →
  ∀ fuel,
    sweep_loop measure fuel movements ls
      = if (n <=? fuel)%nat then Some (Ok ls') else None.
Proof.
  induction 1 as [ls Hc|n ls ls1 ls' Hc Hpass _ IH]; intros fuel.
  - destruct fuel; simpl; by rewrite Hc.
  - destruct fuel as [|fuel]; simpl; rewrite Hc; [done|].
    rewrite Hpass. apply IH.
Qed.

Lemma loop_runs_passes (measure : odict Z → result Q) (movements : list Z)
    (n : nat) (ls ls' : loop_state) :
  loop_runs measure movements n ls ls' →
  passes ls' = (passes ls + n)%nat ∧ continue ls' = false.
Proof.
  induction 1 as [ls Hc|n ls ls1 ls' Hc Hpass _ [IH1 IH2]].
  - split; [lia|done].
  - split; [|done]. rewrite IH1.
    destruct (sweep _ _ _) as [st|e]; [|done]. simpl in Hpass.
    unfold end_of_pass in Hpass. destruct (this_score st); [|done].
    injection Hpass as <-. simpl. lia.
Qed.

Lemma continue_false_passes (ls : loop_state) :
  continue ls = false → (3 ≤ passes ls)%nat.
Proof.
  unfold continue. intros [H _]%orb_false_iff.
  apply Nat.ltb_ge in H. done.
Qed.

(** Every pass of the loop is a sweep in the specification's words. *)
Lemma loop_runs_accepted (metric : odict Z → Q) (movements : list Z)
    (n : nat) (ls ls' : loop_state) :
  loop_runs (evaluate metric) movements n ls ls' →
  accepted (search ls')
  = Nat.iter n (spec_sweep metric movements) (accepted (search ls)).
Proof.
  induction 1 as [ls Hc|n ls ls1 ls' Hc Hpass _ IH]; [done|].
  rewrite IH, Nat.iter_succ_r. f_equal.
  destruct (sweep_spec metric movements (search ls))
    as (st & Hst & Hacc & _).
  rewrite Hst in Hpass. simpl in Hpass. unfold end_of_pass in Hpass.
  destruct (this_score st); [|done]. by injection Hpass as <-.
Qed.

Section termination.
Variable metric : odict Z → Q.
Variable values : list Q.
Hypothesis metric_values : ∀ w, ∃ v, v ∈ values ∧ metric w == v.
Abbreviation measure := (evaluate metric).

Lemma values_above_mono (l : list Q) (p q : Q) :
  p <= q → (values_above l q ≤ values_above l p)%nat.
Proof.
  intros Hpq. unfold values_above.
  induction l as [|x l IH]; [done|].
  rewrite !filter_cons.
  destruct (decide (Qlt_bool q x = true)) as [Hq|Hq];
    destruct (decide (Qlt_bool p x = true)) as [Hp|Hp]; simpl; try lia.
  exfalso. apply Hp. apply Qlt_bool_true. apply Qlt_bool_true in Hq. lra.
Qed.

Lemma values_above_lt (l : list Q) (p q v : Q) :
  p < q → v ∈ l → q == v → (values_above l q < values_above l p)%nat.
Proof.
  intros Hpq Hv Hqv. induction l as [|x l IH]; [by apply elem_of_nil in Hv|].
  assert (Hmono := values_above_mono l p q (Qlt_le_weak _ _ Hpq)).
  unfold values_above in *. rewrite !filter_cons.
  apply elem_of_cons in Hv as [<-|Hv].
  - destruct (decide (Qlt_bool q v = true)) as [Hq|Hq].
    { apply Qlt_bool_true in Hq. lra. }
    destruct (decide (Qlt_bool p v = true)) as [Hp|Hp]; [simpl; lia|].
    exfalso. apply Hp. apply Qlt_bool_true. lra.
  - specialize (IH Hv).
    destruct (decide (Qlt_bool q x = true)) as [Hq|Hq];
      destruct (decide (Qlt_bool p x = true)) as [Hp|Hp]; simpl; try lia.
    exfalso. apply Hp. apply Qlt_bool_true. apply Qlt_bool_true in Hq. lra.
Qed.

Abbreviation progress := (progress values).

Lemma progress_trans (a b c : odict Z * Q) :
  progress a b → progress b c → progress a c.
Proof.
  unfold progress. intros [->|Hab] [->|Hbc]; auto. right. lia.
Qed.

Lemma spec_try_progress (delta : Z) (wp : odict Z * Q) (name : string) :
  progress wp (spec_try metric delta wp name).
Proof.
  unfold spec_try. destruct (dict_get name wp.1) as [w|]; [|by left].
  destruct (Qlt_bool _ _) eqn:E; [|by left].
  right. simpl. apply Qlt_bool_true in E.
  destruct (metric_values (dict_set name (Z.max 0 (w + delta)) wp.1))
    as (v & Hv & Heq).
  by apply (values_above_lt values _ _ v).
Qed.

Lemma spec_sweep_progress (movements : list Z) (wp : odict Z * Q) :
  progress wp (spec_sweep metric movements wp).
Proof.
  unfold spec_sweep. revert wp.
  induction movements as [|d movements IH]; intros wp; simpl; [by left|].
  eapply progress_trans; [|apply IH].
  generalize (keys wp.1). intros names. revert wp.
  induction names as [|n names IHn]; intros wp; simpl; [by left|].
  eapply progress_trans; [apply spec_try_progress|apply IHn].
Qed.

(** With a weight and a direction to try, the outcome of a sweep does not
    depend on the score variable it starts with. *)
Lemma sweep_ext (movements : list Z) (st st2 : search_state) :
  movements ≠ [] → weights st ≠ [] →
  accepted st2 = accepted st →
  sweep measure movements st2 = sweep measure movements st.
Proof.
  intros Hm Hw Hacc. destruct st as [w p t], st2 as [w2 p2 t2].
  unfold accepted in Hacc. simpl in *. injection Hacc as -> ->.
  destruct movements as [|d movements]; [done|].
  destruct w as [|[k v] w]; [done|].
  unfold sweep. simpl. unfold sweep_direction. simpl.
  unfold adjust_weight. simpl. done.
Qed.

(** Once a sweep changes nothing the loop stops after at most three
    further passes. *)
Lemma loop_runs_settled (movements : list Z) (st : search_state) (t : Q) :
  sweep measure movements st = Ok st → this_score st = Some t →
  ∀ (k : nat) (ls : loop_state),
    search ls = st → score_baseline ls = t →
    Qlt_bool 0 (overall_improvement ls) = false →
    (3 - passes ls ≤ k)%nat →
    ∃ n ls', loop_runs measure movements n ls ls'.
Proof.
  intros Hfix Ht. induction k as [|k IH]; intros ls Hs Hb Hi Hk.
  - exists 0%nat, ls. constructor. unfold continue. rewrite Hi.
    rewrite orb_false_r. apply Nat.ltb_ge. lia.
  - destruct (continue ls) eqn:Hc; [|exists 0%nat, ls; by constructor].
    set (ls1 := LoopState st t (t - score_baseline ls) (S (passes ls))
                  (score_progression ls ++ [t])
                  (S (GLOBAL_FILE_COUNTER ls))).
    destruct (IH ls1) as (n & ls' & Hruns); [done|done| |simpl; lia|].
    { simpl. rewrite Hb. apply Qlt_bool_false. lra. }
    exists (S n), ls'. apply (loop_runs_pass _ _ _ _ ls1); [done| |done].
    rewrite Hs, Hfix. simpl. unfold end_of_pass. by rewrite Ht.
Qed.

Lemma loop_runs_fixpoint (movements : list Z) (st : search_state) :
  sweep measure movements st = Ok st → is_Some (this_score st) →
  ∀ ls, search ls = st → ∃ n ls', loop_runs measure movements n ls ls'.
Proof.
  intros Hfix [t Ht] ls Hs.
  assert (Hpass : ∀ l, search l = st →
            sweep measure movements (search l) ≫= end_of_pass l
            = Ok (LoopState st t (t - score_baseline l) (S (passes l))
                    (score_progression l ++ [t])
                    (S (GLOBAL_FILE_COUNTER l)))).
  { intros l ->. rewrite Hfix. simpl. unfold end_of_pass. by rewrite Ht. }
  destruct (continue ls) eqn:Hc; [|exists 0%nat, ls; by constructor].
  pose proof (Hpass ls Hs) as H1. set (ls1 := LoopState _ _ _ _ _ _) in H1.
  destruct (continue ls1) eqn:Hc1.
  2:{ exists 1%nat, ls1. eapply loop_runs_pass; [done|exact H1|].
      by constructor. }
  pose proof (Hpass ls1 eq_refl) as H2.
  set (ls2 := LoopState _ _ _ _ _ _) in H2.
  destruct (loop_runs_settled movements st t Hfix Ht (3 - passes ls2) ls2)
    as (n & ls' & Hruns); [done|done| |done|].
  { simpl. apply Qlt_bool_false. lra. }
  exists (S (S n)), ls'.
  eapply loop_runs_pass; [done|exact H1|].
  eapply loop_runs_pass; [done|exact H2|done].
Qed.

Lemma loop_runs_exists (movements : list Z) :
  movements ≠ [] →
  ∀ (m : nat) (ls : loop_state),
    weights (search ls) ≠ [] →
    (values_above values (previous_score (search ls)) ≤ m)%nat →
    ∃ n ls', loop_runs measure movements n ls ls'.
Proof.
  intros Hm. induction m as [|m IH]; intros ls Hw Hv.
  all: destruct (continue ls) eqn:Hc; [|exists 0%nat, ls; by constructor].
  all: destruct (sweep_spec metric movements (search ls))
         as (st & Hst & Hacc & Hkeys & Hthis).
  all: specialize (Hthis Hm Hw).
  all: assert (Hw' : weights st ≠ [])
         by (intros E; rewrite E in Hkeys; by destruct (weights (search ls))).
  all: pose proof (spec_sweep_progress movements (accepted (search ls)))
         as Hprog; rewrite <- Hacc in Hprog.
  all: destruct Hthis as [t Ht].
  all: set (ls1 := LoopState st t (t - score_baseline ls) (S (passes ls))
                     (score_progression ls ++ [t])
                     (S (GLOBAL_FILE_COUNTER ls))).
  all: assert (Hpass : sweep measure movements (search ls) ≫= end_of_pass ls
                       = Ok ls1)
         by (rewrite Hst; simpl; unfold end_of_pass; by rewrite Ht).
  all: assert (Hsettled : accepted st = accepted (search ls) →
                 ∃ n ls', loop_runs measure movements n ls ls').
  1,3: intros Hsame;
       assert (Hfix : sweep measure movements st = Ok st)
         by (rewrite (sweep_ext movements (search ls) st Hm Hw Hsame);
             exact Hst);
       destruct (loop_runs_fixpoint movements st Hfix (ex_intro _ t Ht)
                   ls1 eq_refl) as (n & ls' & Hruns);
       exists (S n), ls'; by apply (loop_runs_pass _ _ _ _ ls1).
  - destruct Hprog as [Hsame|Hlt]; [by apply Hsettled|].
    unfold accepted in Hlt. simpl in Hlt. lia.
  - destruct Hprog as [Hsame|Hlt]; [by apply Hsettled|].
    destruct (IH ls1) as (n & ls' & Hruns); [done| |].
    { unfold accepted in Hlt. simpl in *. lia. }
    exists (S n), ls'. by apply (loop_runs_pass _ _ _ _ ls1).
Qed.

(** C3 (amended). With a metric that takes finitely many values (as every
    score computed in floating point does, and every rank-based average
    over a fixed finite training set) and at least one weight to tune, the
    search starts and its sweep loop makes a finite number [n] of passes, at
    least 3, each of them a full sweep over the step sizes and the weights,
    and then stops: the weights and the score it has accepted are those of
    [n] sweeps from the initial ones, [n] passes of fuel suffice and fewer
    do not. *)
Theorem sweep_loop_terminates (weights0 : odict Z) (this0 : option Q)
    (counter : nat) :
  weights0 ≠ [] →
  ∃ ls0 n ls',
    start_search measure weights0 this0 counter = Ok ls0 ∧
    (3 ≤ n)%nat ∧ passes ls' = n ∧
    accepted (search ls')
    = Nat.iter n (spec_sweep metric MOVEMENTS) (weights0, metric weights0) ∧
    ∀ fuel,
      sweep_loop measure fuel MOVEMENTS ls0
        = if (n <=? fuel)%nat then Some (Ok ls') else None.
Proof.
  intros Hw. unfold start_search, evaluate. simpl.
  eexists.
  destruct (loop_runs_exists MOVEMENTS ltac:(done)
              (values_above values (metric weights0))
              (LoopState (SearchState weights0 (metric weights0) this0)
                 (metric weights0) (metric weights0) 0 [metric weights0]
                 (S counter)) Hw ltac:(simpl; lia))
    as (n & ls' & Hruns).
  exists n, ls'. split; [done|].
  destruct (loop_runs_passes _ _ _ _ _ Hruns) as [Hp Hc]. simpl in Hp.
  apply continue_false_passes in Hc.
  split; [lia|]. split; [done|].
  split; [|by apply loop_runs_fuel].
  by rewrite (loop_runs_accepted metric _ _ _ _ Hruns).
Qed.
End termination.

(** A metric computed from an outcome of the training set (the ranks of
    its queries, say) that can take finitely many forms has finitely many
    values. *)
Lemma metric_of_outcomes_values {O : Type} (outcome : odict Z → O)
    (outcomes : list O) (score : O → Q) :
  (∀ w, outcome w ∈ outcomes) →
  ∀ w, ∃ v, v ∈ map score outcomes ∧ score (outcome w) == v.
Proof.
  intros H w. exists (score (outcome w)). split; [|reflexivity].
  apply list_elem_of_fmap. by exists (outcome w).
Qed.

Lemma sweep_loop_terminates_witness :
  ∃ ls0 n ls',
    start_search (evaluate threshold_metric)
      [("text", 1%Z); ("title", 1%Z)] None 0 = Ok ls0 ∧
    (3 ≤ n)%nat ∧ passes ls' = n ∧
    accepted (search ls')
    = Nat.iter n (spec_sweep threshold_metric MOVEMENTS)
        ([("text", 1%Z); ("title", 1%Z)],
         threshold_metric [("text", 1%Z); ("title", 1%Z)]) ∧
    ∀ fuel,
      sweep_loop (evaluate threshold_metric) fuel MOVEMENTS ls0
        = if (n <=? fuel)%nat then Some (Ok ls') else None.
Proof.
  apply (sweep_loop_terminates threshold_metric [0; 1]).
  - intros w. unfold threshold_metric.
    destruct (dict_get "text" w) as [z|].
    + destruct (3 <=? z)%Z.
      * exists 1. split; [right; left|reflexivity].
      * exists 0. split; [left|reflexivity].
    + exists 0. split; [left|reflexivity].
  - discriminate.
Defined.

(** The two conditions are needed.  In exact arithmetic a metric that
    grows with a weight without bound keeps the loop running for ever, and
    without a weight to tune the first pass ends in an unbound
    [this_score]. *)

Lemma Qle_bool_inject_Z (a b : Z) :
  Qle_bool (inject_Z a) (inject_Z b) = (a <=? b)%Z.
Proof. unfold Qle_bool, inject_Z. simpl. by rewrite !Z.mul_1_r. Qed.

Lemma sweep_first_weight (z : Z) (t : option Q) :
  (1 ≤ z)%Z →
  sweep (evaluate first_weight_metric) MOVEMENTS
    (SearchState [("text", z)] (inject_Z z) t)
  = Ok (SearchState [("text", z + 6)%Z] (inject_Z (z + 6))
          (Some (inject_Z (z + 4)))).
Proof.
  intros Hz. unfold sweep, MOVEMENTS, sweep_direction, MIN_WEIGHT. simpl.
  unfold adjust_weight, evaluate, MIN_WEIGHT. simpl.
  rewrite Qle_bool_inject_Z.
  rewrite (proj2 (Z.leb_le _ _)) by lia. simpl.
  rewrite Qle_bool_inject_Z.
  rewrite (proj2 (Z.leb_gt _ _)) by lia. simpl.
  rewrite Qle_bool_inject_Z.
  rewrite (proj2 (Z.leb_le _ _)) by lia. simpl.
  rewrite (Z.max_r 0 (z + 6)) by lia.
  rewrite (Z.max_r 0 (z + 6 + -2)) by lia.
  by replace (z + 6 + -2)%Z with (z + 4)%Z by lia.
Qed.

Lemma sweep_loop_first_weight (fuel : nat) :
  ∀ (ls : loop_state) (z : Z) (t : option Q),
    (1 ≤ z)%Z →
    search ls = SearchState [("text", z)] (inject_Z z) t →
    score_baseline ls < inject_Z z + 4 →
    continue ls = true →
    sweep_loop (evaluate first_weight_metric) fuel MOVEMENTS ls = None.
Proof.
  induction fuel as [|fuel IH]; intros ls z t Hz Hs Hb Hc; simpl;
    rewrite Hc; [done|].
  rewrite Hs, sweep_first_weight by done. simpl.
  apply (IH _ (z + 6)%Z (Some (inject_Z (z + 4)))); simpl.
  - lia.
  - done.
  - rewrite !inject_Z_plus.
    change (inject_Z 4) with 4. change (inject_Z 6) with 6. lra.
  - unfold continue. simpl. apply orb_true_iff. right.
    apply Qlt_bool_true. rewrite inject_Z_plus.
    change (inject_Z 4) with 4. lra.
Qed.

Lemma sweep_loop_diverges_on_unbounded_metric (this0 : option Q)
    (counter fuel : nat) :
  ∃ ls0,
    start_search (evaluate first_weight_metric) [("text", 1%Z)] this0 counter
      = Ok ls0 ∧
    sweep_loop (evaluate first_weight_metric) fuel MOVEMENTS ls0 = None.
Proof.
  eexists. split; [reflexivity|].
  apply (sweep_loop_first_weight fuel _ 1%Z this0); simpl; try done.
Qed.

Lemma sweep_loop_raises_without_weights (metric : odict Z → Q)
    (this0 : option Q) (counter fuel : nat) :
  ∃ ls0,
    start_search (evaluate metric) [] None counter = Ok ls0 ∧
    sweep_loop (evaluate metric) (S fuel) MOVEMENTS ls0
    = Some (Raise (NameError "this_score")).
Proof. eexists. split; reflexivity. Qed.

(** C3, as stated for every deterministic metric, fails on both counts.
    With the metric that returns the first weight, started from the weight
    1, no number of passes ends the loop; and with no weight to tune the
    first pass raises [NameError] on [this_score] instead of completing a
    sweep.  In neither case is there a number of sweeps, at least 3, after
    which the loop has stopped. *)
Lemma sweep_loop_terminates_counterexample :
  (¬ ∃ ls0 n ls',
       start_search (evaluate first_weight_metric) [("text", 1%Z)] None 0
         = Ok ls0 ∧
       (3 ≤ n)%nat ∧ passes ls' = n ∧
       ∀ fuel,
         sweep_loop (evaluate first_weight_metric) fuel MOVEMENTS ls0
           = if (n <=? fuel)%nat then Some (Ok ls') else None) ∧
  (¬ ∃ ls0 n ls',
       start_search (evaluate first_weight_metric) [] None 0 = Ok ls0 ∧
       (3 ≤ n)%nat ∧ passes ls' = n ∧
       ∀ fuel,
         sweep_loop (evaluate first_weight_metric) fuel MOVEMENTS ls0
           = if (n <=? fuel)%nat then Some (Ok ls') else None).
Proof.
  split.
  - intros (ls0 & n & ls' & Hstart & _ & _ & Hfuel).
    destruct (sweep_loop_diverges_on_unbounded_metric None 0 n)
      as (ls1 & Hstart1 & Hnone).
    rewrite Hstart in Hstart1. injection Hstart1 as <-.
    rewrite Hfuel, Nat.leb_refl in Hnone. discriminate Hnone.
  - intros (ls0 & n & ls' & Hstart & _ & _ & Hfuel).
    destruct (sweep_loop_raises_without_weights first_weight_metric None 0 n)
      as (ls1 & Hstart1 & Hraise).
    rewrite Hstart in Hstart1. injection Hstart1 as <-.
    rewrite Hfuel in Hraise.
    rewrite (proj2 (Nat.leb_le n (S n))) in Hraise by lia.
    discriminate Hraise.
Qed.

(** ** Smoothing *)

Lemma smooth_weight_cases (w : Q) :
  (1 < w ∧ smooth_weight w == w - 1 / 3) ∨
  (w < 1 ∧ smooth_weight w == w + Qabs w / 3) ∨
  (w == 1 ∧ smooth_weight w == w).
Proof.
  unfold smooth_weight, py_min.
  destruct (Qlt_bool 1 w) eqn:E1.
  - left. apply Qlt_bool_true in E1. split; [done|].
    assert (Qlt_bool w 1 = false) as -> by (apply Qlt_bool_false; lra).
    reflexivity.
  - apply Qlt_bool_false in E1. destruct (Qlt_bool w 1) eqn:E2.
    + right; left. apply Qlt_bool_true in E2. split; [done|].
      unfold Qdiv. rewrite Qabs_Qmult. reflexivity.
    + right; right. apply Qlt_bool_false in E2. split; [lra|reflexivity].
Qed.

Lemma smooth_weights_lookup (names : list string) :
  NoDup names →
  ∀ best : odict Q,
    (∀ k, k ∈ names → is_Some (dict_get k best)) →
    ∃ best',
      foldM (λ d weight,
               w ← dict_item weight d;
               let amount := Qabs (py_min 1 w / 3) in
               if Qlt_bool 1 w then Ok (dict_set weight (w - amount) d)
               else if Qlt_bool w 1 then Ok (dict_set weight (w + amount) d)
               else Ok d) names best = Ok best' ∧
      ∀ k, dict_get k best'
           = if decide (k ∈ names) then smooth_weight <$> dict_get k best
             else dict_get k best.
Proof.
  induction 1 as [|a names Ha _ IH]; intros best Hin.
  - exists best. split; [done|]. intros k.
    by rewrite decide_False by apply not_elem_of_nil.
  - destruct (Hin a) as [w Hw]; [by left|].
    simpl. unfold dict_item. rewrite Hw. simpl.
    set (d1 := if Qlt_bool 1 w then dict_set a (w - Qabs (py_min 1 w / 3)) best
               else if Qlt_bool w 1
                    then dict_set a (w + Qabs (py_min 1 w / 3)) best
                    else best).
    assert (Hd1a : dict_get a d1 = Some (smooth_weight w)).
    { unfold d1, smooth_weight.
      destruct (Qlt_bool 1 w); [apply dict_get_set_eq|].
      destruct (Qlt_bool w 1); [apply dict_get_set_eq|done]. }
    assert (Hd1k : ∀ k, k ≠ a → dict_get k d1 = dict_get k best).
    { intros k Hk. unfold d1.
      destruct (Qlt_bool 1 w); [by apply dict_get_set_ne|].
      destruct (Qlt_bool w 1); [by apply dict_get_set_ne|done]. }
    destruct (IH d1) as (best' & Hbest' & Hget).
    { intros k Hk. rewrite Hd1k; [apply Hin; by right|]. by intros ->. }
    exists best'. split.
    { unfold d1 in Hbest'.
      destruct (Qlt_bool 1 w); [done|]. by destruct (Qlt_bool w 1). }
    intros k. rewrite Hget.
    destruct (decide (k = a)) as [->|Hne].
    + rewrite decide_False by done. rewrite decide_True by left.
      by rewrite Hd1a, Hw.
    + rewrite (Hd1k k Hne).
      destruct (decide (k ∈ names)) as [Hk|Hk].
      * rewrite decide_True by (by right). done.
      * rewrite decide_False; [done|].
        by intros [->|?]%elem_of_cons.
Qed.

(** C6 (amended). Smoothing changes every learned weight [w] by
    [abs(min(1, w) / 3)]: a weight above 1 becomes [w - 1/3], a weight
    below 1 becomes [w + |w|/3], and a weight equal to 1 stays. *)
Theorem smooth_weights_by_third_of_min (best : odict Q) (name : string)
    (w : Q) :
  NoDup (keys best) →
  dict_get name best = Some w →
  ∃ best' w',
    smooth_weights best = Ok best' ∧
    dict_get name best' = Some w' ∧
    ((1 < w ∧ w' == w - 1 / 3) ∨
     (w < 1 ∧ w' == w + Qabs w / 3) ∨
     (w == 1 ∧ w' == w)).
Proof.
  intros Hnd Hw. unfold smooth_weights.
  destruct (smooth_weights_lookup (keys best) Hnd best)
    as (best' & Hbest' & Hget).
  { intros k Hk. by apply dict_get_is_Some_keys. }
  exists best', (smooth_weight w). split; [done|]. split.
  - rewrite Hget, Hw. rewrite decide_True; [done|].
    apply dict_get_is_Some_keys. by eexists.
  - apply smooth_weight_cases.
Qed.

Lemma smooth_weights_by_third_of_min_witness :
  ∃ best' w',
    smooth_weights [("text", 4); ("title", 0); ("abstract", 1)] = Ok best' ∧
    dict_get "text" best' = Some w' ∧
    ((1 < 4 ∧ w' == 4 - 1 / 3) ∨
     (4 < 1 ∧ w' == 4 + Qabs 4 / 3) ∨
     (4 == 1 ∧ w' == 4)).
Proof.
  apply smooth_weights_by_third_of_min.
  - by apply (bool_decide_unpack _).
  - reflexivity.
Defined.

(** C6, as stated, fails on the weight 4: smoothing gives [4 - 1/3], not
    [4 - (4 - 1)/3 = 3]. *)
Lemma smooth_weights_counterexample :
  ¬ ∃ best' w',
      smooth_weights [("text", 4)] = Ok best' ∧
      dict_get "text" best' = Some w' ∧
      w' == spec_smooth_weight 4.
Proof.
  intros (best' & w' & Hbest & Hw & Heq).
  vm_compute in Hbest. injection Hbest as <-.
  vm_compute in Hw. injection Hw as <-.
  vm_compute in Heq. discriminate Heq.
Qed.

(** ** Cross-validation folds *)

(** C7. Selecting a fold raises on both paths, whatever the Python version,
    the number of folds, the number of results and the fold index: in
    [dynamicWeightValues] the result of [zip] is a list of 1-tuples
    (Python 2, unpacking fails) or an iterator (Python 3, subscripting
    fails); in [measureScoresOfWeights] the [KFold] object is iterated
    instead of its split. *)
Theorem select_fold_raises (ver : pyversion) (numfolds n_results : nat)
    (split_fold : nat) :
  raises (select_train_fold ver numfolds n_results split_fold) ∧
  raises (select_test_fold numfolds split_fold).
Proof.
  unfold select_train_fold, select_test_fold, KFold, raises.
  destruct (numfolds <=? 1)%nat; [split; by eexists|]. simpl. split.
  - unfold py_zip1, split_objects. destruct ver; simpl.
    + destruct (KFold_split numfolds n_results) as [l|e]; simpl;
        [|by eexists].
      rewrite list_lookup_fmap.
      destruct (_ !! split_fold); simpl; by eexists.
    + by eexists.
  - by eexists.
Qed.

Example select_train_fold_python2 :
  select_train_fold Python2 2 4 0
  = Raise (ValueError "wrong number of values to unpack").
Proof. reflexivity. Qed.

Example select_train_fold_python3 :
  select_train_fold Python3 2 4 0 = Raise TypeError.
Proof. reflexivity. Qed.

Example select_test_fold_2 : select_test_fold 2 0 = Raise TypeError.
Proof. reflexivity. Qed.

(** The split that both paths mean to select from is the contiguous
    partition: the test folds, in order, make up [0 .. n-1], and the train
    indices of a fold are those outside its test fold. *)

Lemma test_folds_concat (sizes : list nat) (current : nat) :
  concat (test_folds current sizes) = seq current (sum_list sizes).
Proof.
  revert current; induction sizes as [|s sizes IH]; intros current; simpl.
  - done.
  - by rewrite IH, seq_app.
Qed.

Lemma test_folds_length (sizes : list nat) (current : nat) :
  length (test_folds current sizes) = length sizes.
Proof.
  revert current; induction sizes as [|s sizes IH]; intros current; simpl;
    [done|by rewrite IH].
Qed.

Lemma sum_fold_sizes_prefix (q r k : nat) :
  sum_list (map (λ i, if (i <? r)%nat then S q else q) (seq 0 k))
  = (k * q + Nat.min r k)%nat.
Proof.
  induction k as [|k IH]; [simpl; lia|].
  rewrite seq_S, map_app, sum_list_with_app, IH. simpl.
  destruct (k <? r)%nat eqn:E.
  - apply Nat.ltb_lt in E. lia.
  - apply Nat.ltb_ge in E. lia.
Qed.

Lemma sum_fold_sizes (n_splits n_samples : nat) :
  (1 ≤ n_splits)%nat →
  sum_list (fold_sizes n_splits n_samples) = n_samples.
Proof.
  intros Hk. unfold fold_sizes. rewrite sum_fold_sizes_prefix.
  pose proof (Nat.mod_upper_bound n_samples n_splits).
  pose proof (Nat.div_mod_eq n_samples n_splits). lia.
Qed.

Lemma snd_map_pair {A B} (g : A → B) (l : list A) :
  (map (λ x, (g x, x)) l).*2 = l.
Proof. induction l as [|x l IH]; simpl; [done|by f_equal]. Qed.

Lemma KFold_split_partition (n_splits n_samples : nat) :
  (1 ≤ n_splits ≤ n_samples)%nat →
  ∃ splits,
    KFold_split n_splits n_samples = Ok splits ∧
    length splits = n_splits ∧
    concat (splits.*2) = seq 0 n_samples ∧
    ∀ i train test,
      splits !! i = Some (train, test) →
      KFold_fold n_splits n_samples i = Ok (train, test) ∧
      ∀ j, (j ∈ train ↔ j < n_samples ∧ j ∉ test)%nat.
Proof.
  intros [Hk Hn]. unfold KFold_fold, KFold_split.
  assert ((n_samples <? n_splits)%nat = false) as -> by by apply Nat.ltb_ge.
  eexists. split; [reflexivity|]. split; [|split].
  - rewrite length_map, test_folds_length. unfold fold_sizes.
    by rewrite length_map, length_seq.
  - rewrite snd_map_pair, test_folds_concat, sum_fold_sizes; done.
  - intros i train test Hi. simpl. rewrite Hi. split; [done|].
    apply list_lookup_fmap_Some in Hi as (t & [= -> ->] & Ht).
    intros j. rewrite list_elem_of_filter, elem_of_seq. simpl.
    split; [intros [? ?]; split; [lia|done]|intros [? ?]; split; [done|lia]].
Qed.

(** ** Measuring precomputed results *)

Section empty_query.
Context {logger retrieved : Type}.
Variable new_logger : nat → logger.
Variable addResolutionResultDict : logger → pyresult → logger.
Variable measureScoreAndLog :
  logger → list retrieved → jvalue → pyresult → logger.
Variable averages : logger → odict (odict (odict Q)).
Variable precision_scores : logger → odict (odict Q).
Variable runPrecomputedQuery :
  list (string * formula) → odict Q → result (option (list retrieved)).
Variable method : string.
Variable parameters : odict Q.

Abbreviation measure_one :=
  (measure_result addResolutionResultDict measureScoreAndLog
     runPrecomputedQuery method parameters).

End empty_query.



(** ** The configured step sizes *)

Lemma insert_movements_eq (e1 e2 : gmap string cfg) (v : cfg) :
  (∀ k, k ≠ "movements" → e1 !! k = e2 !! k) →
  <["movements" := v]> e1 = <["movements" := v]> e2.
Proof.
  intros H. apply map_eq. intros k.
  destruct (decide (k = "movements")) as [->|Hne].
  - by rewrite !lookup_insert_eq.
  - rewrite !lookup_insert_ne by done. by apply H.
Qed.

(** C10. Two experiments that differ only in the [movements] option give
    the same result (and leave the same experiment behind): the option is
    overwritten with [[-1, 6, -2]] before anything reads it. *)
Theorem dynamicWeightValues_ignores_movements
    {logger retrieved storer : Type}
    (new_logger : nat → logger)
    (addResolutionResultDict : logger → pyresult → logger)
    (measureScoreAndLog : logger → list retrieved → jvalue → pyresult → logger)
    (averages : logger → odict (odict (odict Q)))
    (precision_scores : logger → odict (odict Q))
    (runPrecomputedQuery :
       list (string * formula) → odict Q → result (option (list retrieved)))
    (getDictOfTestingMethods : cfg → odict doc_method)
    (addExtraWeights : odict Z → gmap string cfg → odict Q)
    (ElasticResultStorer : cfg → string → result storer)
    (ResultDiskReader : storer → cfg → cfg → result results_reader)
    (ver : pyversion) (fuel : nat) (e1 e2 : gmap string cfg)
    (counter split_fold : nat) :
  (∀ k, k ≠ "movements" → e1 !! k = e2 !! k) →
  dynamicWeightValues new_logger addResolutionResultDict measureScoreAndLog
    averages precision_scores runPrecomputedQuery getDictOfTestingMethods
    addExtraWeights ElasticResultStorer ResultDiskReader ver fuel e1 counter
    split_fold
  = dynamicWeightValues new_logger addResolutionResultDict measureScoreAndLog
      averages precision_scores runPrecomputedQuery getDictOfTestingMethods
      addExtraWeights ElasticResultStorer ResultDiskReader ver fuel e2
      counter split_fold.
Proof.
  intros H. unfold dynamicWeightValues, exp_item.
  rewrite (H "doc_methods") by done.
  by rewrite (insert_movements_eq e1 e2 _ H).
Qed.

Lemma dynamicWeightValues_ignores_movements_witness :
  example_trainer Python3 5 example_exp 0 0
  = example_trainer Python3 5
      (<["movements" := CList [CInt 3; CInt (-3)]]> example_exp) 0 0.
Proof.
  unfold example_trainer.
  apply dynamicWeightValues_ignores_movements.
  intros k Hk. by rewrite lookup_insert_ne.
Defined.

(** With stored results at hand the call ends at the fold selection. *)
Example example_trainer_python3 :
  example_trainer Python3 5 example_exp 0 0 = Some (Raise TypeError).
Proof. vm_compute. reflexivity. Qed.

Example example_trainer_python2 :
  example_trainer Python2 5 example_exp 0 0
  = Some (Raise (ValueError "wrong number of values to unpack")).
Proof. vm_compute. reflexivity. Qed.

(** ** The model on concrete inputs *)

(** The default call on three stored formulas, and a stored formula that
    holds a [None] part. *)

Example computeScore_sum_example :
  computeScore
    (Combine "+" [Hit [PyStr "text"; PyNum 3; PyNum 4];
                  Value "coord" (Some (1 # 2))])
    (Atom PyNone) (Some (PyDict {["text" := 2]} None)) None
  = Ok (0 + 3 * 2 * 4 + (1 # 2)).
Proof. reflexivity. Qed.

Example computeScore_full_hit_example :
  computeScore
    (Hit (full_hit true "text" (Some 3) (Some (1 # 2))
            (Some 1%Z) (Some 4%Z) (Some 10%Z) "search"))
    (Atom PyNone) None (Some (PyDict {["search" := 2]} None))
  = Ok (2 * 3 * 1 * (1 # 2)).
Proof. reflexivity. Qed.

Example computeScore_three_tuple_example :
  computeScore (Hit (fieldWeight_hit false "text" (1 # 2) "search"))
    (Atom PyNone) None (Some (PyDict {["search" := 2]} None))
  = Raise (ValueError "Record missing 4th parameter: <term>").
Proof. reflexivity. Qed.

Example computeScore_none_part_example :
  computeScore (Combine "+" [Value "coord" (Some 2); Atom PyNone])
    (Atom PyNone) None None
  = Raise RecursionError.
Proof. reflexivity. Qed.

Example computeScore_none_stored_example :
  computeScore (Hit [PyStr "text"; PyNum 2; PyNum 3])
    (Combine "+" [Atom PyNone; Atom PyNone])
    (Some (PyDict {["text" := 5]} None)) None
  = Ok (0 + 2 * 5 * 3 + 2 * 5 * 3).
Proof. reflexivity. Qed.

Example threshold_search_example :
  start_search (evaluate threshold_metric)
    [("text", 1%Z); ("title", 1%Z)] None 0
  ≫= (λ ls0, default (Raise IndexError)
               (sweep_loop (evaluate threshold_metric) 3 MOVEMENTS ls0))
  = Ok (LoopState
          (SearchState [("text", 7%Z); ("title", 1%Z)] 1 (Some 1))
          1 (1 - 1) 3 [0; 1; 1; 1] 4).
Proof. reflexivity. Qed.

Example smooth_weights_example :
  smooth_weights [("text", 4); ("title", 0); ("abstract", 1)]
  = Ok [("text", 4 - Qabs (1 / 3)); ("title", 0 + Qabs (0 / 3));
        ("abstract", 1)].
Proof. reflexivity. Qed.

Example KFold_split_example :
  KFold_split 3 10
  = Ok [([4; 5; 6; 7; 8; 9], [0; 1; 2; 3]);
        ([0; 1; 2; 3; 7; 8; 9], [4; 5; 6]);
        ([0; 1; 2; 3; 4; 5; 6], [7; 8; 9])]%nat.
Proof. reflexivity. Qed.

(** * Further properties *)

(** ** The interpreter on whole formulas *)

Lemma formula_induction (P : formula → Prop) :
  (∀ t, P (Hit t)) →
  (∀ ty parts, Forall P parts → P (Combine ty parts)) →
  (∀ ty v, P (Value ty v)) →
  P Unmatched →
  (∀ v, P (Atom v)) →
  ∀ f, P f.
Proof.
  intros HH HC HV HU HA. fix IH 1. intros [t|ty parts|ty v| |v].
  - apply HH.
  - apply HC. induction parts as [|p parts IHp]; constructor; [apply IH|done].
  - apply HV.
  - apply HU.
  - apply HA.
Qed.

Lemma mapM_ext_Forall {A B} (f g : A → result B) (l : list A) :
  Forall (λ x, f x = g x) l → mapM f l = mapM g l.
Proof.
  induction 1 as [|x l Hx _ IH]; simpl; [done|]. by rewrite Hx, IH.
Qed.

Lemma mapM_app_raise {A B} (f : A → result B) (before after : list A)
    (ys : list B) (x : A) (e : exn) :
  Forall2 (λ a y, f a = Ok y) before ys →
  f x = Raise e →
  mapM f (before ++ x :: after) = Raise e.
Proof.
  induction 1 as [|a y before ys Hay _ IH]; intros Hx; simpl.
  - by rewrite Hx.
  - by rewrite Hay, IH.
Qed.

Lemma mapM_raises_Exists {A B} (f : A → result B) (l : list A) :
  Exists (λ x, raises (f x)) l → raises (mapM f l).
Proof.
  induction 1 as [x l [e He]|x l _ [e He]]; simpl.
  - rewrite He. by exists e.
  - destruct (f x); [rewrite He|]; by eexists.
Qed.

Lemma recompute_Combine_known (stored : result Q) (ty : string)
    (parts : list formula) (fp kw : option pydict) :
  ty ∈ ["+"; "*"; "max"] →
  recompute stored (Combine ty parts) fp kw
  = match mapM (λ p, recompute stored p fp kw) parts with
    | Raise e => Raise e
    | Ok scores =>
        if String.eqb ty "*" then py_reduce_mul scores
        else if String.eqb ty "+" then Ok (py_sum scores)
        else py_max scores
    end.
Proof.
  intros H. simpl. unfold is_in.
  rewrite bool_decide_eq_true_2; [done|].
  repeat (apply elem_of_cons in H as [->|H]);
    [| | |by apply elem_of_nil in H]; repeat constructor.
Qed.

(** X1. In a combining node the parts are recomputed from left to right
    and the first exception ends the recomputation: the node raises what
    its first failing part raises, whatever the parts after it are. *)
Theorem computeScore_first_error (self_formula : formula) (ty : string)
    (before after : list formula) (part : formula) (scores : list Q)
    (e : exn) (fp kw : option pydict) :
  ty ∈ ["+"; "*"; "max"] →
  Forall2 (λ p s, computeScore self_formula p fp kw = Ok s) before scores →
  computeScore self_formula part fp kw = Raise e →
  computeScore self_formula (Combine ty (before ++ part :: after)) fp kw
  = Raise e.
Proof.
  intros Hty Hbefore Hpart. unfold computeScore in *.
  rewrite (recompute_Combine_known _ _ _ _ _ Hty).
  by rewrite (mapM_app_raise _ before after scores part e Hbefore Hpart).
Qed.

Lemma computeScore_first_error_witness :
  computeScore Unmatched
    (Combine "+" ([Value "coord" (Some 2)]
                  ++ Hit [PyStr "text"] :: [Unmatched]))
    None None = Raise IndexError.
Proof.
  apply (computeScore_first_error Unmatched "+" [Value "coord" (Some 2)]
           [Unmatched] (Hit [PyStr "text"]) [2] IndexError None None).
  - repeat constructor.
  - repeat constructor.
  - reflexivity.
Defined.

(** Without term hits the maps do not matter, and without a [None] part
    what the stored formula gives does not matter either. *)
Lemma recompute_hit_free (stored stored' : result Q) (f : formula)
    (fp kw fp' kw' : option pydict) :
  hit_free f = true →
  none_free f = true ∨ stored = stored' →
  recompute stored f fp kw = recompute stored' f fp' kw'.
Proof.
  induction f as [t|ty parts IH|ty v| |v] using formula_induction;
    intros Hfree Hnone; try done.
  - simpl in Hfree. simpl.
    destruct (is_in ty ["*"; "+"; "max"]); [|done].
    rewrite (mapM_ext_Forall (λ p, recompute stored p fp kw)
               (λ p, recompute stored' p fp' kw') parts); [done|].
    rewrite forallb_forall in Hfree.
    rewrite Forall_forall in IH |- *.
    intros p Hp. apply IH; [done|apply Hfree; by apply list_elem_of_In|].
    destruct Hnone as [Hnone|Hnone]; [left|by right].
    simpl in Hnone. rewrite forallb_forall in Hnone.
    apply Hnone. by apply list_elem_of_In.
  - destruct v; try done. by destruct Hnone as [Hnone| ->].
Qed.

(** X2. A formula without term hits does not depend on the weights: it is
    recomputed to the same result, or the same exception, under any field
    and term maps.  This holds for a part without [None], whatever is
    stored, and for the default call and any other part that holds [None]
    when the stored formula has no term hit either. *)
Theorem computeScore_hit_free (self_formula f : formula)
    (fp kw fp' kw' : option pydict) :
  hit_free f = true →
  none_free f = true ∨ hit_free self_formula = true →
  computeScore self_formula f fp kw = computeScore self_formula f fp' kw'.
Proof.
  intros Hfree Hnone. unfold computeScore.
  apply recompute_hit_free; [done|].
  destruct Hnone as [Hnone|Hself]; [by left|right].
  unfold stored_score.
  destruct self_formula as [t|ty parts|ty v| |[|q|str]]; try done.
  apply recompute_hit_free; [done|by right].
Qed.

Lemma computeScore_hit_free_witness :
  computeScore
    (Combine "*" [Value "coord" (Some (1 # 2)); Value "const" (Some 3)])
    (Atom PyNone)
    (Some (PyDict {["text" := 5]} None)) (Some (PyDict {["search" := 2]} None))
  = computeScore
      (Combine "*" [Value "coord" (Some (1 # 2)); Value "const" (Some 3)])
      (Atom PyNone) None None.
Proof. apply computeScore_hit_free; [reflexivity|by right]. Defined.

Lemma subscript_unit (d : pydict) (k : pyval) :
  default_factory d = Some 1 →
  (∀ s v, items d !! s = Some v → v = 1) →
  subscript d k = Ok 1.
Proof.
  intros Hd Hones. unfold subscript.
  destruct (lookup_key d k) as [v|] eqn:E; [|by rewrite Hd].
  destruct k as [|q|s]; try done. simpl in E. by rewrite (Hones s v E).
Qed.

Lemma recompute_unit_weights (stored stored' : result Q) (f : formula)
    (d : pydict) (kw : option pydict) :
  hits_nonempty f = true →
  none_free f = true ∨ stored = stored' →
  default_factory d = Some 1 →
  (∀ s v, items d !! s = Some v → v = 1) →
  recompute stored f (Some d) kw = recompute stored' f None kw.
Proof.
  intros Hne Hnone Hd Hones. revert Hne Hnone.
  induction f as [t|ty parts IH|ty v| |v] using formula_induction;
    intros Hne Hnone; try done.
  - destruct t as [|x t]; [done|].
    change (hitScore (x :: t) (Some d) kw = hitScore (x :: t) None kw).
    unfold hitScore. simpl truthy at 3.
    destruct (truthy (Some d)) as [d'|] eqn:E; [|done].
    assert (d' = d) as ->.
    { unfold truthy in E. destruct (decide (items d = ∅)); congruence. }
    simpl. by rewrite (subscript_unit d x Hd Hones).
  - simpl in Hne. simpl.
    destruct (is_in ty ["*"; "+"; "max"]); [|done].
    rewrite (mapM_ext_Forall (λ p, recompute stored p (Some d) kw)
               (λ p, recompute stored' p None kw) parts); [done|].
    rewrite forallb_forall in Hne.
    rewrite Forall_forall in IH |- *.
    intros p Hp. apply IH; [done|apply Hne; by apply list_elem_of_In|].
    destruct Hnone as [Hnone|Hnone]; [left|by right].
    simpl in Hnone. rewrite forallb_forall in Hnone.
    apply Hnone. by apply list_elem_of_In.
  - destruct v; try done. by destruct Hnone as [Hnone| ->].
Qed.

(** X3. A [defaultdict(lambda:1)] in which every stored weight is 1, the
    uniform baseline, recomputes every formula whose hit tuples are not
    empty exactly as no field map does, under any term map; where the part
    holds [None], as in the default call, the hit tuples of the stored
    formula are to be non-empty as well. *)
Theorem computeScore_unit_weights (self_formula f : formula) (d : pydict)
    (kw : option pydict) :
  hits_nonempty f = true →
  none_free f = true ∨ hits_nonempty self_formula = true →
  default_factory d = Some 1 →
  (∀ s v, items d !! s = Some v → v = 1) →
  computeScore self_formula f (Some d) kw
  = computeScore self_formula f None kw.
Proof.
  intros Hne Hnone Hd Hones. unfold computeScore.
  apply recompute_unit_weights; try done.
  destruct Hnone as [Hnone|Hself]; [by left|right].
  unfold stored_score.
  destruct self_formula as [t|ty parts|ty v| |[|q|str]]; try done.
  all: apply recompute_unit_weights; try done; by right.
Qed.

Lemma computeScore_unit_weights_witness :
  computeScore
    (Combine "+" [Hit [PyStr "text"; PyNum 3; PyNum 4];
                  Hit [PyStr "title"; PyNum 2; PyNum 5]])
    (Atom PyNone)
    (Some (PyDict {["text" := 1]} (Some 1))) None
  = computeScore
      (Combine "+" [Hit [PyStr "text"; PyNum 3; PyNum 4];
                    Hit [PyStr "title"; PyNum 2; PyNum 5]])
      (Atom PyNone) None None.
Proof.
  apply computeScore_unit_weights; [reflexivity|by right|reflexivity|].
  intros s v H. simpl in H.
  apply lookup_singleton_Some in H as [_ <-]. reflexivity.
Defined.

(** X4. When all its parts are recomputed without error, a combining node
    raises exactly when it has no part and is not a sum: the empty product
    and the empty maximum are errors, the empty sum is 0. *)
Theorem computeScore_combine_raises_only_empty (self_formula : formula)
    (ty : string) (parts : list formula) (scores : list Q)
    (fp kw : option pydict) :
  ty ∈ ["+"; "*"; "max"] →
  Forall2 (λ p s, computeScore self_formula p fp kw = Ok s) parts scores →
  (∃ r, computeScore self_formula (Combine ty parts) fp kw = Ok r) ↔
  (parts ≠ [] ∨ ty = "+").
Proof.
  intros Hty HF. unfold computeScore in *.
  rewrite (recompute_Combine_known _ _ _ _ _ Hty).
  rewrite (mapM_Forall2 _ _ _ HF).
  repeat (apply elem_of_cons in Hty as [->|Hty]);
    [| | |by apply elem_of_nil in Hty]; simpl.
  - split; [by right|by eexists].
  - destruct HF as [|p s parts scores _ _]; simpl.
    + split; [by intros [? ?]|by intros [?|?]].
    + split; [by left|by eexists].
  - destruct HF as [|p s parts scores _ _]; simpl.
    + split; [by intros [? ?]|by intros [?|?]].
    + split; [by left|by eexists].
Qed.

Lemma computeScore_combine_raises_only_empty_witness :
  (∃ r, computeScore (Combine "max" []) (Combine "max" []) None None = Ok r)
  ↔ (@nil formula ≠ [] ∨ "max" = "+").
Proof.
  apply (computeScore_combine_raises_only_empty (Combine "max" []) "max" []
           [] None None).
  - repeat constructor.
  - constructor.
Defined.

(** ** The parser and the interpreter together *)

Lemma detail_induction (P : detail → Prop) :
  (∀ desc v ds, Forall P ds → P (Detail desc v ds)) →
  ∀ d, P d.
Proof.
  intros H. fix IH 1. intros [desc v ds]. apply H.
  induction ds as [|d ds IHds]; constructor; [apply IH|done].
Qed.

Lemma mapM_Ok_inv {A B} (f : A → result B) (l : list A) (ys : list B) :
  mapM f l = Ok ys → Forall2 (λ x y, f x = Ok y) l ys.
Proof.
  revert ys; induction l as [|x l IH]; intros ys; simpl.
  - intros [= <-]. constructor.
  - destruct (f x) as [y|e] eqn:Hx; [|done].
    destruct (mapM f l) as [ys'|e] eqn:Hl; [|done].
    intros [= <-]. constructor; auto.
Qed.

Lemma mapM_Ok_nil {A B} (f : A → result B) (l : list A) :
  mapM f l = Ok [] → l = [].
Proof.
  destruct l as [|x l]; [done|]. simpl.
  destruct (f x); [|done]. by destruct (mapM f l).
Qed.

Lemma mapM_Raise_inv {A B} (f : A → result B) (l : list A) (e : exn) :
  mapM f l = Raise e → ∃ x, x ∈ l ∧ f x = Raise e.
Proof.
  induction l as [|x l IH]; simpl; [done|].
  destruct (f x) as [y|e'] eqn:Hx.
  - destruct (mapM f l) as [ys|e'] eqn:Hl; [done|].
    intros [= ->]. destruct (IH eq_refl) as (x' & Hin & Hx').
    exists x'. split; [by right|done].
  - intros [= ->]. exists x. split; [left|done].
Qed.

Section parser_facts.
Variable re_weight : string → option (string * string).
Variable re_idf : string → option (Z * Z).
Variable re_tf : string → option Z.
Variable save_terms : bool.

Abbreviation parse := (iterateDetail re_weight re_idf re_tf save_terms).

Lemma fieldWeight_hit_shape (field term : string) (fw : Q) :
  hit_shape save_terms (fieldWeight_hit save_terms field fw term).
Proof.
  unfold hit_shape, fieldWeight_hit. destruct save_terms; simpl.
  - split; [by eexists|]. split; [by left|by eexists].
  - split; [by eexists|]. by left.
Qed.

Lemma full_hit_shape (field term : string) (qw fw : option Q)
    (tf docFreq maxDocs : option Z) :
  hit_shape save_terms
    (full_hit save_terms field qw fw tf docFreq maxDocs term).
Proof.
  unfold hit_shape, full_hit. destruct save_terms; simpl.
  - split; [by eexists|]. split; [by right|by eexists].
  - split; [by eexists|]. by right.
Qed.

Lemma hitDetail_shape (d : detail) (f : formula) :
  hitDetail re_weight re_idf re_tf save_terms d = Ok f →
  parsed_shape save_terms f.
Proof.
  unfold hitDetail.
  destruct (re_weight (description d)) as [[field term]|].
  - destruct (details d !! 0%nat) as [elem|]; [|done].
    destruct (startswith (description elem) "fieldWeight").
    + destruct (value elem); [|done]. intros [= <-].
      constructor. apply fieldWeight_hit_shape.
    + destruct (details elem !! 0%nat) as [e0|]; [|done].
      destruct (details elem !! 1%nat) as [e1|]; [|done].
      destruct (scan_elements _ _ _ _ _ _) as [[tf docFreq] maxDocs].
      intros [= <-]. constructor. apply full_hit_shape.
  - destruct (startswith _ _); [|done]. intros [= <-].
    constructor. repeat constructor.
Qed.

Lemma iterateDetail_parsed_shape (d : detail) (f : formula) :
  parse d = Ok f → parsed_shape save_terms f.
Proof.
  revert f. induction d as [desc v ds IH] using detail_induction.
  intros f. simpl.
  assert (Hparts : ∀ parts, mapM parse ds = Ok parts →
            Forall (parsed_shape save_terms) parts).
  { intros parts Hm. apply mapM_Ok_inv in Hm.
    clear -IH Hm. induction Hm as [|d p ds parts Hd _ IHm]; [constructor|].
    apply Forall_cons in IH as [IHd IH]. constructor; auto. }
  destruct (startswith desc "coord").
  { intros [= <-]. constructor. repeat constructor. }
  destruct (startswith desc "sum of").
  { destruct (mapM _ ds) as [parts|] eqn:E; [|done]. intros [= <-].
    constructor; [repeat constructor|by apply Hparts]. }
  destruct (startswith desc "product of").
  { destruct (mapM _ ds) as [parts|] eqn:E; [|done]. intros [= <-].
    constructor; [repeat constructor|by apply Hparts]. }
  destruct (startswith desc "max of").
  { destruct (mapM _ ds) as [parts|] eqn:E; [|done]. intros [= <-].
    constructor; [repeat constructor|by apply Hparts]. }
  apply hitDetail_shape.
Qed.

(** X5. What [fromElasticExplanation] stores for a matched explanation has
    the shape the interpreter reads: sum, product and maximum nodes over
    constants and hit tuples that start with the field name and have 4 or 7
    items ending in the term when terms are saved, 3 or 6 items
    otherwise.  An explanation that did not match is stored as the
    sentinel, whatever its tree holds. *)
Theorem fromElasticExplanation_shape (e : explanation) (f : formula) :
  fromElasticExplanation re_weight re_idf re_tf save_terms e = Ok f →
  if matched e then parsed_shape save_terms f else f = Unmatched.
Proof.
  unfold fromElasticExplanation. destruct (matched e); simpl.
  - apply iterateDetail_parsed_shape.
  - by intros [= <-].
Qed.
End parser_facts.

Lemma fromElasticExplanation_shape_witness :
  parsed_shape true
    (Combine "*"
       [Combine "+"
          [Hit [PyStr "text"; PyNum 3; PyNum (1 # 2); PyNum 1; PyNum 4;
                PyNum 10; PyStr "search"];
           Hit [PyStr "text"; PyNum 1; PyNum 2; PyStr "search"]];
        Value "coord" (Some (1 # 2))]).
Proof.
  apply (fromElasticExplanation_shape example_re_weight example_re_idf
           example_re_tf true example_explanation).
  reflexivity.
Defined.

Lemma hitScore_not_unexpected (t : list pyval) (fp kw : option pydict)
    (e : exn) :
  hitScore t fp kw = Raise e → ¬ unexpected_node e.
Proof.
  unfold hitScore, getitem, subscript, as_num, unexpected_node.
  intros H [[ty ->]| ->]; revert H; simpl;
    repeat (case_match; simpl; try done).
Qed.

Lemma recompute_parsed_not_unexpected (stored : result Q)
    (save_terms : bool) (f : formula) (fp kw : option pydict) (e : exn) :
  parsed_shape save_terms f →
  recompute stored f fp kw = Raise e → ¬ unexpected_node e.
Proof.
  revert e. induction f as [t|ty parts IH|ty v| |v] using formula_induction;
    intros e Hshape; inversion Hshape as [t' Ht|ty' parts' Hty Hparts|ty' v' Hty];
    subst.
  - apply hitScore_not_unexpected.
  - rewrite (recompute_Combine_known _ _ _ _ _ Hty).
    destruct (mapM _ parts) as [scores|e'] eqn:Hm.
    + unfold py_reduce_mul, py_max, unexpected_node.
      intros H [[ty' ->]| ->]; revert H;
        repeat (case_match; simpl; try done).
    + intros [= ->]. apply mapM_Raise_inv in Hm as (p & Hp & Hraise).
      rewrite Forall_forall in IH, Hparts.
      by apply (IH p Hp e (Hparts p Hp)).
  - simpl. unfold is_in, unexpected_node.
    repeat (apply elem_of_cons in Hty as [->|Hty]);
      [| |by apply elem_of_nil in Hty]; simpl;
      destruct v; intros [= <-] [[? ?]|?]; done.
Qed.

(** X6. Recomputing a formula that the parser returned never ends in one
    of the two errors for a node the interpreter does not know
    ("Unexpected operation type", "Unexpected type"), under any maps. *)
Theorem computeScore_parsed_dispatch
    (re_weight : string → option (string * string))
    (re_idf : string → option (Z * Z)) (re_tf : string → option Z)
    (save_terms : bool) (d : detail) (self_formula f : formula)
    (fp kw : option pydict) (e : exn) :
  iterateDetail re_weight re_idf re_tf save_terms d = Ok f →
  computeScore self_formula f fp kw = Raise e →
  ¬ unexpected_node e.
Proof.
  intros Hparse. unfold computeScore.
  apply (recompute_parsed_not_unexpected _ save_terms).
  exact (iterateDetail_parsed_shape _ _ _ _ _ _ Hparse).
Qed.

Lemma computeScore_parsed_dispatch_witness :
  ¬ unexpected_node IndexError.
Proof.
  apply (computeScore_parsed_dispatch example_re_weight example_re_idf
           example_re_tf true example_field_weight
           (Hit [PyStr "text"; PyNum 1; PyNum 2; PyStr "search"])
           (Hit [PyStr "text"; PyNum 1; PyNum 2; PyStr "search"])
           None (Some (PyDict {["search" := 2]} None)) IndexError).
  - reflexivity.
  - reflexivity.
Defined.

Lemma recompute_without_terms_raises (stored : result Q) (f : formula)
    (fp : option pydict) (kw : pydict) :
  parsed_shape false f →
  hit_free f = false →
  items kw ≠ ∅ →
  raises (recompute stored f fp (Some kw)).
Proof.
  intros Hshape Hhit Hkw. revert Hshape Hhit.
  induction f as [t|ty parts IH|ty v| |v] using formula_induction;
    intros Hshape Hhit; try done;
    inversion Hshape as [t' Ht|ty' parts' Hty Hparts|ty' v' Hty]; subst.
  - change (raises (hitScore t fp (Some kw))). unfold hitScore.
    rewrite (truthy_Some kw Hkw).
    destruct (match truthy fp with Some _ => _ | None => _ end) as [m|e];
      [|by eexists].
    destruct Ht as [_ [Hlen|Hlen]].
    + rewrite Hlen. simpl. by eexists.
    + rewrite Hlen. unfold getitem, TERM_POSITION_IN_TUPLE.
      rewrite (lookup_ge_None_2 t 6) by lia. simpl. by eexists.
  - rewrite (recompute_Combine_known _ _ _ _ _ Hty).
    destruct (mapM_raises_Exists (λ p, recompute stored p fp (Some kw))
                parts)
      as [e He]; [|rewrite He; by eexists].
    simpl in Hhit. apply not_true_iff_false in Hhit.
    rewrite forallb_forall in Hhit.
    apply Exists_exists.
    destruct (decide (Exists (λ p, hit_free p = false) parts))
      as [Hex|Hnex].
    + apply Exists_exists in Hex as (p & Hp & Hfree).
      exists p. split; [done|].
      rewrite Forall_forall in IH, Hparts. by apply IH; [|apply Hparts|].
    + exfalso. apply Hhit. intros p Hp.
      destruct (hit_free p) eqn:E; [done|]. exfalso. apply Hnex.
      apply Exists_exists. exists p. split; [by apply list_elem_of_In|done].
Qed.

(** X7. A formula parsed without its terms ([save_terms=False]) that holds
    at least one term hit cannot be recomputed with term weights: with any
    non-empty term map the recomputation raises, it never falls back to
    the field weights. *)
Theorem computeScore_parsed_without_terms
    (re_weight : string → option (string * string))
    (re_idf : string → option (Z * Z)) (re_tf : string → option Z)
    (d : detail) (self_formula f : formula) (fp : option pydict)
    (kw : pydict) :
  iterateDetail re_weight re_idf re_tf false d = Ok f →
  hit_free f = false →
  items kw ≠ ∅ →
  raises (computeScore self_formula f fp (Some kw)).
Proof.
  intros Hparse. unfold computeScore.
  apply recompute_without_terms_raises.
  exact (iterateDetail_parsed_shape _ _ _ _ _ _ Hparse).
Qed.

Lemma computeScore_parsed_without_terms_witness :
  raises
    (computeScore
       (Combine "+"
          [Hit [PyStr "text"; PyNum 3; PyNum (1 # 2); PyNum 1; PyNum 4;
                PyNum 10];
           Hit [PyStr "text"; PyNum 1; PyNum 2]])
       (Combine "+"
          [Hit [PyStr "text"; PyNum 3; PyNum (1 # 2); PyNum 1; PyNum 4;
                PyNum 10];
           Hit [PyStr "text"; PyNum 1; PyNum 2]])
       None (Some (PyDict {["search" := 2]} None))).
Proof.
  apply (computeScore_parsed_without_terms example_re_weight example_re_idf
           example_re_tf
           (Detail "sum of:" (Some (7 # 2))
              [example_full_weight; example_field_weight])).
  - reflexivity.
  - reflexivity.
  - simpl. intros H.
    apply (f_equal (λ m : gmap string Q, m !! "search")) in H.
    vm_compute in H. discriminate H.
Defined.

Lemma sum_scores_Qeq (l1 l2 : list Q) :
  Forall2 Qeq l1 l2 → sum_scores l1 == sum_scores l2.
Proof.
  induction 1 as [|x y l1 l2 Hxy _ IH]; simpl; [reflexivity|].
  by rewrite Hxy, IH.
Qed.

Lemma product_scores_Qeq (l1 l2 : list Q) :
  Forall2 Qeq l1 l2 → product_scores l1 == product_scores l2.
Proof.
  induction 1 as [|x y l1 l2 Hxy _ IH]; simpl; [reflexivity|].
  by rewrite Hxy, IH.
Qed.

Lemma Forall2_Qeq_elem_l (l1 l2 : list Q) (x : Q) :
  Forall2 Qeq l1 l2 → x ∈ l1 → ∃ y, y ∈ l2 ∧ x == y.
Proof.
  induction 1 as [|a b l1 l2 Hab _ IH]; intros Hx.
  - by apply elem_of_nil in Hx.
  - apply elem_of_cons in Hx as [->|Hx].
    + exists b. split; [left|done].
    + destruct (IH Hx) as (y & Hy & Heq). exists y. split; [by right|done].
Qed.

Lemma Forall2_Qeq_elem_r (l1 l2 : list Q) (y : Q) :
  Forall2 Qeq l1 l2 → y ∈ l2 → ∃ x, x ∈ l1 ∧ x == y.
Proof.
  induction 1 as [|a b l1 l2 Hab _ IH]; intros Hy.
  - by apply elem_of_nil in Hy.
  - apply elem_of_cons in Hy as [->|Hy].
    + exists a. split; [left|done].
    + destruct (IH Hy) as (x & Hx & Heq). exists x. split; [by right|done].
Qed.

Lemma is_maximum_unique (l1 l2 : list Q) (m1 m2 : Q) :
  Forall2 Qeq l1 l2 → is_maximum m1 l1 → is_maximum m2 l2 → m1 == m2.
Proof.
  intros HF [Hin1 Hle1] [Hin2 Hle2]. apply Qle_antisym.
  - destruct (Forall2_Qeq_elem_l _ _ _ HF Hin1) as (y & Hy & Heq).
    rewrite Heq. by apply Hle2.
  - destruct (Forall2_Qeq_elem_r _ _ _ HF Hin2) as (x & Hx & Heq).
    rewrite <- Heq. by apply Hle1.
Qed.

Section round_trip.
Variable re_weight : string → option (string * string).
Variable re_idf : string → option (Z * Z).
Variable re_tf : string → option Z.
Variable save_terms : bool.

Abbreviation parse := (iterateDetail re_weight re_idf re_tf save_terms).

(** A detail is parsed to a formula that is recomputed, without weights,
    to the value [v]. *)
Abbreviation recomputed d v :=
  (∃ f r, parse d = Ok f ∧
          (∀ stored, recompute stored f None None = Ok r) ∧ r == v).

Lemma recomputed_parts (ds : list detail) (vs : list Q) :
  Forall2 (λ d v, recomputed d v) ds vs →
  ∃ parts scores,
    mapM parse ds = Ok parts ∧
    (∀ stored,
       mapM (λ p, recompute stored p None None) parts = Ok scores) ∧
    Forall2 Qeq scores vs.
Proof.
  induction 1 as [|d v ds vs (f & r & Hf & Hr & Hrv) _
                    (parts & scores & Hparts & Hscores & Heq)].
  - exists [], []. done.
  - exists (f :: parts), (r :: scores). simpl.
    rewrite Hf, Hparts. split; [done|]. split; [|by constructor].
    intros stored. by rewrite Hr, Hscores.
Qed.

Lemma recompute_round_trip (d : detail) (v : Q) :
  consistent re_weight d v → recomputed d v.
Proof.
  revert v. induction d as [desc val ds IH] using detail_induction.
  intros v H.
  assert (Hparts : ∀ vs, Forall2 (consistent re_weight) ds vs →
            Forall2 (λ d v, recomputed d v) ds vs).
  { clear H. intros vs HF.
    induction HF as [|d' v' ds' vs' Hd _ IHF]; constructor.
    - apply Forall_cons in IH as [IHd _]. by apply IHd.
    - apply Forall_cons in IH as [_ IH]. by apply IHF. }
  inversion H as [? ? ? Hc
                 |? ? ? vs Hc Hs HF Hv
                 |? ? ? vs Hc Hs Hp Hne HF Hv
                 |? ? ? vs Hc Hs Hp Hm Hne HF Hv
                 |? ? ? field term elem fw Hc Hs Hp Hm Hre Helem Hfw Hval Hv
                 |? ? ? field term elem e0 e1 qw fw
                    Hc Hs Hp Hm Hre Helem Hfw He0 He1 Hqw Hfwv Hv
                 |? ? ? Hc Hs Hp Hm Hre Hconst]; subst.
  - exists (Value "coord" (Some v)), v. simpl. rewrite Hc. done.
  - destruct (recomputed_parts ds vs (Hparts vs HF))
      as (parts & scores & Hpa & Hsc & Heq).
    exists (Combine "+" parts), (py_sum scores). simpl.
    rewrite Hc, Hs, Hpa. split; [done|].
    split; [intros stored; simpl; by rewrite Hsc|].
    by rewrite py_sum_spec, (sum_scores_Qeq _ _ Heq), Hv.
  - destruct (recomputed_parts ds vs (Hparts vs HF))
      as (parts & scores & Hpa & Hsc & Heq).
    destruct scores as [|x xs].
    { pose proof (Hsc (Raise RecursionError)) as Hnil.
      apply mapM_Ok_nil in Hnil as ->. by apply mapM_Ok_nil in Hpa. }
    exists (Combine "*" parts), (fold_left Qmult xs x). simpl.
    rewrite Hc, Hs, Hp, Hpa. split; [done|].
    split; [intros stored; simpl; by rewrite Hsc|].
    rewrite py_product_acc, Hv, <- (product_scores_Qeq _ _ Heq). simpl. ring.
  - destruct (recomputed_parts ds vs (Hparts vs HF))
      as (parts & scores & Hpa & Hsc & Heq).
    destruct scores as [|x xs].
    { pose proof (Hsc (Raise RecursionError)) as Hnil.
      apply mapM_Ok_nil in Hnil as ->. by apply mapM_Ok_nil in Hpa. }
    destruct (py_max_spec x xs) as (r & Hr & Hmax).
    exists (Combine "max" parts), r. simpl.
    rewrite Hc, Hs, Hp, Hm, Hpa. split; [done|].
    split; [intros stored; simpl; by rewrite Hsc|].
    by apply (is_maximum_unique (x :: xs) vs).
  - exists (Hit (fieldWeight_hit save_terms field fw term)), (1 * 1 * fw).
    simpl. rewrite Hc, Hs, Hp, Hm. unfold hitDetail. simpl.
    rewrite Hre, Helem, Hfw, Hval. split; [done|].
    split; [intros stored; by destruct save_terms|]. rewrite Hv. ring.
  - exists (Hit (full_hit save_terms field (Some qw) (Some fw)
                   (scan_elements re_idf re_tf (details elem) None None None).1.1
                   (scan_elements re_idf re_tf (details elem) None None None).1.2
                   (scan_elements re_idf re_tf (details elem) None None None).2
                   term)), (qw * 1 * fw).
    simpl. rewrite Hc, Hs, Hp, Hm. unfold hitDetail. simpl.
    rewrite Hre, Helem, Hfw, He0, He1, Hqw, Hfwv.
    destruct (scan_elements _ _ _ _ _ _) as [[tf docFreq] maxDocs].
    split; [done|]. split; [intros stored; by destruct save_terms|]. rewrite Hv. ring.
  - exists (Value "const" (Some v)), v. simpl.
    rewrite Hc, Hs, Hp, Hm. unfold hitDetail. simpl. rewrite Hre, Hconst.
    done.
Qed.

(** X8. Round trip: an explanation whose values add up as the engine
    computes them is parsed to a formula that, recomputed without any
    weights, gives back the value the explanation reports, when it is
    passed as the part and when it is stored and recomputed by the default
    call. *)
Theorem computeScore_round_trip (d : detail) (v : Q) :
  consistent re_weight d v →
  ∃ f r,
    iterateDetail re_weight re_idf re_tf save_terms d = Ok f ∧
    (∀ self_formula, computeScore self_formula f None None = Ok r) ∧
    computeScore f (Atom PyNone) None None = Ok r ∧
    r == v.
Proof.
  intros H. destruct (recompute_round_trip d v H) as (f & r & Hf & Hr & Hv).
  exists f, r. split; [done|].
  split; [intros self_formula; apply Hr|]. split; [|done].
  pose proof (iterateDetail_parsed_shape _ _ _ _ _ _ Hf) as Hshape.
  unfold computeScore, stored_score. simpl.
  destruct Hshape; apply Hr.
Qed.
End round_trip.

Lemma computeScore_round_trip_witness :
  ∃ f r,
    iterateDetail example_re_weight example_re_idf example_re_tf true
      (explanation_root example_explanation) = Ok f ∧
    (∀ self_formula, computeScore self_formula f None None = Ok r) ∧
    computeScore f (Atom PyNone) None None = Ok r ∧
    r == 7 # 4.
Proof.
  apply computeScore_round_trip.
  apply (consistent_product _ _ _ _ [7 # 2; 1 # 2]);
    [reflexivity|reflexivity|reflexivity|discriminate| |reflexivity].
  constructor; [|constructor; [|constructor]].
  - apply (consistent_sum _ _ _ _ [3 # 2; 2]);
      [reflexivity|reflexivity| |reflexivity].
    constructor; [|constructor; [|constructor]].
    + eapply consistent_weight; reflexivity.
    + eapply consistent_fieldWeight; reflexivity.
  - by apply consistent_coord.
Defined.

(** ** Invariants of the search *)

Lemma dict_get_keys_eq {A B} (d1 : odict A) (d2 : odict B) (k : string) :
  keys d1 = keys d2 → is_Some (dict_get k d1) → is_Some (dict_get k d2).
Proof.
  intros Hk H. apply dict_get_is_Some_keys.
  rewrite <- Hk. by apply dict_get_is_Some_keys.
Qed.

Section search_invariants.
Variable metric : odict Z → Q.

Abbreviation kept := (search_kept metric).

Lemma search_kept_refl (wp : odict Z * Q) : kept wp wp.
Proof.
  split; [done|]. split; [by right|]. split; [done|apply Qle_refl].
Qed.

Lemma search_kept_trans (a b c : odict Z * Q) :
  kept a b → kept b c → kept a c.
Proof.
  intros (Hk1 & Hw1 & Hs1 & Hle1) (Hk2 & Hw2 & Hs2 & Hle2).
  split; [congruence|]. split; [|split; [auto|lra]].
  intros name z Hz. destruct (Hw2 name z Hz) as [?|Hb]; [by left|auto].
Qed.

Lemma spec_try_kept (delta : Z) (wp : odict Z * Q) (name : string) :
  kept wp (spec_try metric delta wp name).
Proof.
  unfold spec_try. destruct (dict_get name wp.1) as [w|] eqn:Hw;
    [|apply search_kept_refl].
  destruct (Qlt_bool _ _) eqn:E; [|apply search_kept_refl].
  apply Qlt_bool_true in E. split; [|split; [|split]]; simpl.
  - apply keys_dict_set. by eexists.
  - intros name' z Hz. destruct (decide (name = name')) as [<-|Hne].
    + rewrite dict_get_set_eq in Hz. injection Hz as <-. left. lia.
    + rewrite dict_get_set_ne in Hz by done. by right.
  - done.
  - lra.
Qed.

Lemma spec_sweep_kept (movements : list Z) (wp : odict Z * Q) :
  kept wp (spec_sweep metric movements wp).
Proof.
  unfold spec_sweep. revert wp.
  induction movements as [|d movements IH]; intros wp; simpl;
    [apply search_kept_refl|].
  eapply search_kept_trans; [|apply IH].
  generalize (keys wp.1). intros names. revert wp.
  induction names as [|n names IHn]; intros wp; simpl;
    [apply search_kept_refl|].
  eapply search_kept_trans; [apply spec_try_kept|apply IHn].
Qed.

Lemma sweep_loop_kept (movements : list Z) (fuel : nat) :
  ∀ ls ls',
    sweep_loop (evaluate metric) fuel movements ls = Some (Ok ls') →
    kept (accepted (search ls)) (accepted (search ls')).
Proof.
  induction fuel as [|fuel IH]; intros ls ls'; simpl.
  - destruct (continue ls); [done|]. intros [= <-]. apply search_kept_refl.
  - destruct (continue ls); [|intros [= <-]; apply search_kept_refl].
    destruct (sweep_spec metric movements (search ls))
      as (st & Hst & Hacc & _).
    rewrite Hst. simpl. unfold end_of_pass.
    destruct (this_score st) as [this|]; [|done].
    intros Hloop. apply IH in Hloop. simpl in Hloop.
    eapply search_kept_trans; [|exact Hloop].
    rewrite Hacc. apply spec_sweep_kept.
Qed.

(** X9. Whatever the metric and however many passes it makes, the sweep
    loop keeps the weight names and their order, and every weight it leaves
    is either at least 0 or exactly the weight it started with: the floor
    holds for every weight the search has moved. *)
Theorem sweep_loop_floor (movements : list Z) (fuel : nat)
    (ls ls' : loop_state) :
  sweep_loop (evaluate metric) fuel movements ls = Some (Ok ls') →
  keys (weights (search ls')) = keys (weights (search ls)) ∧
  ∀ name z,
    dict_get name (weights (search ls')) = Some z →
    (0 ≤ z)%Z ∨ dict_get name (weights (search ls)) = Some z.
Proof.
  intros H. apply sweep_loop_kept in H as (Hk & Hw & _). done.
Qed.

(** X10. The weights the search ends with never score below the initial
    weights on the training set, and the score the search reports for
    them is the metric of these very weights. *)
Theorem sweep_loop_never_worse (movements : list Z) (fuel : nat)
    (weights0 : odict Z) (this0 : option Q) (counter : nat)
    (ls0 ls' : loop_state) :
  start_search (evaluate metric) weights0 this0 counter = Ok ls0 →
  sweep_loop (evaluate metric) fuel movements ls0 = Some (Ok ls') →
  previous_score (search ls') = metric (weights (search ls')) ∧
  metric weights0 <= metric (weights (search ls')).
Proof.
  unfold start_search, evaluate. simpl. intros [= <-] H.
  apply sweep_loop_kept in H as (_ & _ & Hs & Hle). simpl in *.
  rewrite <- (Hs eq_refl). done.
Qed.
End search_invariants.

Lemma sweep_loop_floor_witness :
  keys [("text", 7%Z); ("title", 1%Z)] = keys [("text", 1%Z); ("title", 1%Z)] ∧
  ∀ name z,
    dict_get name [("text", 7%Z); ("title", 1%Z)] = Some z →
    (0 ≤ z)%Z ∨ dict_get name [("text", 1%Z); ("title", 1%Z)] = Some z.
Proof.
  apply (sweep_loop_floor threshold_metric MOVEMENTS 3
           (LoopState (SearchState [("text", 1%Z); ("title", 1%Z)] 0 None)
              0 0 0 [0] 1)
           (LoopState (SearchState [("text", 7%Z); ("title", 1%Z)] 1 (Some 1))
              1 (1 - 1) 3 [0; 1; 1; 1] 4)).
  reflexivity.
Defined.

Lemma sweep_loop_never_worse_witness :
  1 = threshold_metric [("text", 7%Z); ("title", 1%Z)] ∧
  threshold_metric [("text", 1%Z); ("title", 1%Z)]
  <= threshold_metric [("text", 7%Z); ("title", 1%Z)].
Proof.
  apply (sweep_loop_never_worse threshold_metric MOVEMENTS 3
           [("text", 1%Z); ("title", 1%Z)] None 0
           (LoopState (SearchState [("text", 1%Z); ("title", 1%Z)] 0 None)
              0 0 0 [0] 1)
           (LoopState (SearchState [("text", 7%Z); ("title", 1%Z)] 1 (Some 1))
              1 (1 - 1) 3 [0; 1; 1; 1] 4)).
  - reflexivity.
  - reflexivity.
Defined.

(** ** The initial weights *)

Lemma keys_dict_set_absent {V} (k : string) (v : V) (d : odict V) :
  dict_get k d = None → keys (dict_set k v d) = keys d ++ [k].
Proof.
  unfold keys. induction d as [|[k' v'] d IH]; simpl; [done|].
  destruct (String.eqb k k'); [done|]. intros H. simpl. f_equal. by apply IH.
Qed.

Lemma NoDup_keys_dict_set {V} (k : string) (v : V) (d : odict V) :
  NoDup (keys d) → NoDup (keys (dict_set k v d)).
Proof.
  intros Hnd. destruct (dict_get k d) as [v'|] eqn:E.
  - rewrite keys_dict_set by (by eexists). done.
  - rewrite keys_dict_set_absent by done.
    apply NoDup_app. split; [done|]. split; [|apply NoDup_singleton].
    intros x Hx ->%list_elem_of_singleton.
    apply dict_get_is_Some_keys in Hx as [? ?]. congruence.
Qed.

Lemma fold_dict_set_lookup {V} (names : list string) (v : V) :
  ∀ d : odict V,
    NoDup (keys d) →
    NoDup (keys (fold_left (λ d x, dict_set x v d) names d)) ∧
    ∀ k, dict_get k (fold_left (λ d x, dict_set x v d) names d)
         = if decide (k ∈ names) then Some v else dict_get k d.
Proof.
  induction names as [|n names IH]; intros d Hnd; simpl.
  - split; [done|]. intros k.
    destruct (decide (k ∈ [])) as [H|_]; [by apply elem_of_nil in H|done].
  - destruct (IH (dict_set n v d) (NoDup_keys_dict_set n v d Hnd))
      as [Hnd' Hget].
    split; [done|]. intros k. rewrite Hget.
    destruct (decide (k ∈ names)) as [Hk|Hk].
    + rewrite decide_True by (by right). done.
    + destruct (decide (k = n)) as [->|Hne].
      * rewrite decide_True by left. apply dict_get_set_eq.
      * rewrite decide_False by (by intros [?|?]%elem_of_cons).
        by apply dict_get_set_ne.
Qed.

(** X11. The initial weight vector built from a method's runtime
    parameters holds each parameter exactly once, with the given weight,
    and nothing else, also when a parameter is listed more than once. *)
Theorem dict_fromkeys_lookup {V} (names : list string) (v : V) :
  NoDup (keys (dict_fromkeys names v)) ∧
  ∀ k, dict_get k (dict_fromkeys names v)
       = if decide (k ∈ names) then Some v else None.
Proof.
  unfold dict_fromkeys.
  apply (fold_dict_set_lookup names v []). constructor.
Qed.

(** ** Smoothing *)

Lemma smooth_weights_fold_keys (names : list string) :
  ∀ best : odict Q,
    (∀ k, k ∈ names → is_Some (dict_get k best)) →
    ∃ best',
      foldM (λ d weight,
               w ← dict_item weight d;
               let amount := Qabs (py_min 1 w / 3) in
               if Qlt_bool 1 w then Ok (dict_set weight (w - amount) d)
               else if Qlt_bool w 1 then Ok (dict_set weight (w + amount) d)
               else Ok d) names best = Ok best' ∧
      keys best' = keys best.
Proof.
  induction names as [|a names IH]; intros best Hin; simpl.
  - by exists best.
  - destruct (Hin a) as [w Hw]; [by left|].
    unfold dict_item. rewrite Hw. simpl.
    set (d1 := if Qlt_bool 1 w then dict_set a (w - Qabs (py_min 1 w / 3)) best
               else if Qlt_bool w 1
                    then dict_set a (w + Qabs (py_min 1 w / 3)) best
                    else best).
    assert (Hk1 : keys d1 = keys best).
    { unfold d1. destruct (Qlt_bool 1 w);
        [apply keys_dict_set; by eexists|].
      destruct (Qlt_bool w 1); [apply keys_dict_set; by eexists|done]. }
    destruct (IH d1) as (best' & Hbest' & Hkeys).
    { intros k Hk. apply (dict_get_keys_eq best d1); [done|].
      apply Hin. by right. }
    exists best'. split; [|congruence].
    unfold d1 in Hbest'.
    destruct (Qlt_bool 1 w); [done|]. by destruct (Qlt_bool w 1).
Qed.

(** X12. Smoothing never raises and never adds, drops or reorders a
    weight name: the smoothed dict has the keys of the learned one. *)
Theorem smooth_weights_keeps_names (best : odict Q) :
  ∃ best', smooth_weights best = Ok best' ∧ keys best' = keys best.
Proof.
  apply smooth_weights_fold_keys.
  intros k Hk. by apply dict_get_is_Some_keys.
Qed.

Lemma smooth_weight_crossing (w : Q) :
  (1 < w → (smooth_weight w < 1 ↔ w < 4 # 3)) ∧
  (w < 1 → (1 < smooth_weight w ↔ 3 # 4 < w)).
Proof.
  destruct (smooth_weight_cases w) as [[H1 Hs]|[[H1 Hs]|[H1 Hs]]];
    (split; [intros Hgt|intros Hlt]); try lra.
  - rewrite Hs. change (1 / 3) with (1 # 3). split; intros; lra.
  - rewrite Hs. unfold Qdiv. change (/ 3) with (1 # 3).
    destruct (Qlt_le_dec w 0) as [Hneg|Hpos].
    + rewrite Qabs_neg by lra. split; intros; lra.
    + rewrite Qabs_pos by lra. split; intros; lra.
Qed.

(** X13. Smoothing can carry a weight across 1: the weights strictly
    between 1 and 4/3 end below 1 and those strictly between 3/4 and 1 end
    above 1, and no other weight changes side. *)
Theorem smooth_weights_can_cross_one (best : odict Q) (name : string)
    (w : Q) :
  NoDup (keys best) →
  dict_get name best = Some w →
  ∃ best' w',
    smooth_weights best = Ok best' ∧
    dict_get name best' = Some w' ∧
    (1 < w → (w' < 1 ↔ w < 4 # 3)) ∧
    (w < 1 → (1 < w' ↔ 3 # 4 < w)).
Proof.
  intros Hnd Hw. unfold smooth_weights.
  destruct (smooth_weights_lookup (keys best) Hnd best)
    as (best' & Hbest' & Hget).
  { intros k Hk. by apply dict_get_is_Some_keys. }
  exists best', (smooth_weight w). split; [done|]. split.
  - rewrite Hget, Hw. rewrite decide_True; [done|].
    apply dict_get_is_Some_keys. by eexists.
  - apply smooth_weight_crossing.
Qed.

Lemma smooth_weights_can_cross_one_witness :
  ∃ best' w',
    smooth_weights [("text", 11 # 10); ("title", 2)] = Ok best' ∧
    dict_get "text" best' = Some w' ∧
    (1 < 11 # 10 → (w' < 1 ↔ 11 # 10 < 4 # 3)) ∧
    (11 # 10 < 1 → (1 < w' ↔ 3 # 4 < 11 # 10)).
Proof.
  apply smooth_weights_can_cross_one.
  - by apply (bool_decide_unpack _).
  - reflexivity.
Defined.

(** ** Measuring precomputed results *)

Lemma foldM_raises_app {A S} (f : S → A → result S) (l1 l2 : list A)
    (a : A) (s : S) :
  (∀ s', raises (f s' a)) → raises (foldM f (l1 ++ a :: l2) s).
Proof.
  intros Ha. rewrite foldM_app.
  destruct (foldM f l1 s) as [s1|e]; simpl; [|by eexists].
  destruct (Ha s1) as [e He]. rewrite He. by eexists.
Qed.

Section measure_facts.
Context {logger retrieved : Type}.
Variable new_logger : nat → logger.
Variable addResolutionResultDict : logger → pyresult → logger.
Variable measureScoreAndLog :
  logger → list retrieved → jvalue → pyresult → logger.
Variable averages : logger → odict (odict (odict Q)).
Variable precision_scores : logger → odict (odict Q).
Variable runPrecomputedQuery :
  list (string * formula) → odict Q → result (option (list retrieved)).
Variable method : string.
Variable parameters : odict Q.

Abbreviation measure_one :=
  (measure_result addResolutionResultDict measureScoreAndLog
     runPrecomputedQuery method parameters).

Abbreviation measure_all :=
  (measurePrecomputedResolution new_logger addResolutionResultDict
     measureScoreAndLog averages precision_scores runPrecomputedQuery
     method parameters).

(** X14. Results without a ["formulas"] entry are passed over: they never
    reach the logger and never raise, so the loop over all results logs
    what the loop over the results that have formulas logs. *)
Theorem measure_skips_results_without_formulas
    (retrieval_results : list pyresult) (lg : logger) :
  foldM measure_one retrieval_results lg
  = foldM measure_one
      (filter (λ r, is_Some (dict_get "formulas" r)) retrieval_results) lg.
Proof.
  revert lg. induction retrieval_results as [|r rs IH]; intros lg; [done|].
  rewrite filter_cons.
  destruct (decide (is_Some (dict_get "formulas" r))) as [Hf|Hf]; simpl.
  - destruct (measure_one lg r); [apply IH|done].
  - unfold measure_result at 1.
    destruct (dict_get "formulas" r) as [fs|] eqn:E; [|apply IH].
    exfalso. apply Hf. by eexists.
Qed.

Lemma make_result_dict_missing (r : pyresult) (k : string) :
  k ∈ ["file_guid"; "citation_id"; "doc_position"; "query_method";
       "az"; "cfc"; "match_guids"] →
  dict_get k r = None →
  ∃ k', make_result_dict method r = Raise (KeyError k') ∧
        dict_get k' r = None.
Proof.
  intros Hk Hnone. unfold make_result_dict, dict_item.
  destruct (dict_get "file_guid" r) eqn:H1; simpl; [|by eexists].
  destruct (dict_get "citation_id" r) eqn:H2; simpl; [|by eexists].
  destruct (dict_get "doc_position" r) eqn:H3; simpl; [|by eexists].
  destruct (dict_get "query_method" r) eqn:H4; simpl; [|by eexists].
  destruct (dict_get "az" r) eqn:H5; simpl; [|by eexists].
  destruct (dict_get "cfc" r) eqn:H6; simpl; [|by eexists].
  destruct (dict_get "match_guids" r) eqn:H7; simpl; [|by eexists].
  exfalso.
  repeat (apply elem_of_cons in Hk as [->|Hk]; [congruence|]).
  by apply elem_of_nil in Hk.
Qed.

(** X15. A result that has formulas and a recomputed candidate list but
    lacks one of the seven entries copied into its [result_dict] is not
    passed over: it raises [KeyError], and so does the whole measurement
    of any list of results that holds it. *)
Theorem measure_missing_entry_raises (r : pyresult)
    (fs : list (string * formula)) (q : option (list retrieved))
    (k : string) :
  dict_get "formulas" r = Some (JFormulas fs) →
  runPrecomputedQuery fs parameters = Ok q →
  k ∈ ["file_guid"; "citation_id"; "doc_position"; "query_method";
       "az"; "cfc"; "match_guids"] →
  dict_get k r = None →
  (∀ lg, ∃ k', measure_one lg r = Raise (KeyError k') ∧
               dict_get k' r = None) ∧
  ∀ before after citation_az,
    raises (measure_all (before ++ r :: after) citation_az).
Proof.
  intros Hf Hq Hk Hnone.
  destruct (make_result_dict_missing r k Hk Hnone) as (k' & Hk' & Hnone').
  assert (Hone : ∀ lg, measure_one lg r = Raise (KeyError k')).
  { intros lg. unfold measure_result. rewrite Hf. simpl. rewrite Hq. simpl.
    by rewrite Hk'. }
  split; [intros lg; by exists k'|].
  intros before after citation_az. unfold measurePrecomputedResolution.
  destruct (foldM_raises_app measure_one before after r
              (new_logger (length (before ++ r :: after)))) as [e He].
  { intros lg. rewrite Hone. by eexists. }
  rewrite He. by eexists.
Qed.
End measure_facts.

Lemma measure_missing_entry_raises_witness :
  let r : pyresult :=
    [("file_guid", JStr "f1"); ("citation_id", JStr "cit0");
     ("formulas", JFormulas [])] in
  (∀ lg : list pyresult, ∃ k',
     measure_result (λ lg d, lg ++ [d])
       (λ lg (_ : list unit) _ d, lg ++ [d]) (λ _ _, Ok (Some []))
       "az_annotated" [("text", 1)] lg r = Raise (KeyError k') ∧
     dict_get k' r = None) ∧
  ∀ before after citation_az,
    raises
      (measurePrecomputedResolution (λ _, []) (λ lg d, lg ++ [d])
         (λ lg (_ : list unit) _ d, lg ++ [d]) (λ _, []) (λ _, [])
         (λ _ _, Ok (Some [])) "az_annotated" [("text", 1)]
         (before ++ r :: after) citation_az).
Proof.
  intros r.
  apply (measure_missing_entry_raises (λ _, []) (λ lg d, lg ++ [d])
           (λ lg (_ : list unit) _ d, lg ++ [d]) (λ _, []) (λ _, [])
           (λ _ _, Ok (Some [])) "az_annotated" [("text", 1)] r []
           (Some []) "az").
  - reflexivity.
  - reflexivity.
  - repeat constructor.
  - reflexivity.
Defined.

Lemma foldM_append_lines {A B} (g : A → result B) (P : B → Prop)
    (l : list A) :
  (∀ a line, g a = Ok line → P line) →
  ∀ res0 res,
    foldM (λ res a, line ← g a; Ok (res ++ [line])) l res0 = Ok res →
    length res = (length res0 + length l)%nat ∧
    (Forall P res0 → Forall P res).
Proof.
  intros Hg. induction l as [|a l IH]; intros res0 res; simpl.
  - intros [= <-]. split; [lia|done].
  - destruct (g a) as [line|e] eqn:Ha; simpl; [|done].
    intros H. apply IH in H as [Hlen HP]. rewrite length_app in Hlen.
    simpl in Hlen. split; [lia|].
    intros H0. apply HP. apply Forall_app. split; [done|].
    constructor; [by apply (Hg a)|constructor].
Qed.

Section measure_lines.
Context {logger : Type}.
Variable averages : logger → odict (odict (odict Q)).
Variable precision_scores : logger → odict (odict Q).

(** A line of the returned list: it names its query method, its doc method
    and the zone, and carries the precision total. *)
Abbreviation identified citation_az line :=
  ((∃ qm, dict_get "query_method" line = Some (JStr qm)) ∧
   (∃ dm, dict_get "doc_method" line = Some (JStr dm)) ∧
   dict_get "citation_az" line = Some (JStr citation_az) ∧
   (∃ p, dict_get "precision_total" line = Some (JNum p))).

Lemma avg_entries_keep (k : string) (metrics : odict Q) (line : pyresult) :
  (∀ m, "avg_" +:+ m ≠ k) →
  dict_get k
    (fold_left (λ line m, dict_set ("avg_" +:+ m.1) (JNum m.2) line)
       metrics line)
  = dict_get k line.
Proof.
  intros Hk. revert line.
  induction metrics as [|m metrics IH]; intros line; simpl; [done|].
  rewrite IH. apply dict_get_set_ne. apply Hk.
Qed.

Lemma data_line_identified (lg : logger)
    (citation_az qm dm : string) (metrics : odict Q) (line : pyresult) :
  data_line precision_scores lg citation_az qm dm metrics = Ok line →
  identified citation_az line.
Proof.
  unfold data_line.
  destruct (dict_item qm (precision_scores lg)) as [by_query|]; [|done].
  simpl. destruct (dict_item dm by_query) as [p|]; [|done]. simpl.
  intros [= <-].
  rewrite !dict_get_set_ne by done.
  rewrite !avg_entries_keep by (intros m; simpl; discriminate).
  rewrite dict_get_set_eq. simpl. eauto 10.
Qed.
End measure_lines.

(** X16. When the measurement returns, it returns one line for each pair
    of a query method and a doc method in the logger's averages, and every
    line still names its two methods and the zone and carries the
    precision total: the averaged metrics, stored under ["avg_..."], never
    overwrite these entries. *)
Theorem measurePrecomputedResolution_lines {logger retrieved : Type}
    (new_logger : nat → logger)
    (addResolutionResultDict : logger → pyresult → logger)
    (measureScoreAndLog : logger → list retrieved → jvalue → pyresult → logger)
    (averages : logger → odict (odict (odict Q)))
    (precision_scores : logger → odict (odict Q))
    (runPrecomputedQuery :
       list (string * formula) → odict Q → result (option (list retrieved)))
    (method : string) (parameters : odict Q)
    (retrieval_results : list pyresult) (citation_az : string)
    (lines : list pyresult) :
  measurePrecomputedResolution new_logger addResolutionResultDict
    measureScoreAndLog averages precision_scores runPrecomputedQuery
    method parameters retrieval_results citation_az = Ok lines →
  (∃ lg,
     foldM (measure_result addResolutionResultDict measureScoreAndLog
              runPrecomputedQuery method parameters)
       retrieval_results (new_logger (length retrieval_results)) = Ok lg ∧
     length lines = sum_list_with (λ qm, length qm.2) (averages lg)) ∧
  Forall (λ line,
            (∃ qm, dict_get "query_method" line = Some (JStr qm)) ∧
            (∃ dm, dict_get "doc_method" line = Some (JStr dm)) ∧
            dict_get "citation_az" line = Some (JStr citation_az) ∧
            (∃ p, dict_get "precision_total" line = Some (JNum p))) lines.
Proof.
  unfold measurePrecomputedResolution.
  destruct (foldM _ retrieval_results _) as [lg|e]; simpl; [|done].
  intros H.
  assert (Hgen : ∀ qms res0 res,
            foldM (λ results qm,
                     foldM (λ results dm,
                              line ← data_line precision_scores lg
                                       citation_az qm.1 dm.1 dm.2;
                              Ok (results ++ [line]))
                           qm.2 results) qms res0 = Ok res →
            length res
            = (length res0 + sum_list_with (λ qm, length qm.2) qms)%nat ∧
            (Forall (λ line,
               (∃ qm, dict_get "query_method" line = Some (JStr qm)) ∧
               (∃ dm, dict_get "doc_method" line = Some (JStr dm)) ∧
               dict_get "citation_az" line = Some (JStr citation_az) ∧
               (∃ p, dict_get "precision_total" line = Some (JNum p))) res0 →
             Forall (λ line,
               (∃ qm, dict_get "query_method" line = Some (JStr qm)) ∧
               (∃ dm, dict_get "doc_method" line = Some (JStr dm)) ∧
               dict_get "citation_az" line = Some (JStr citation_az) ∧
               (∃ p, dict_get "precision_total" line = Some (JNum p))) res)).
  { induction qms as [|qm qms IH]; intros res0 res; simpl.
    - intros [= <-]. split; [lia|done].
    - destruct (foldM _ qm.2 res0) as [res1|e] eqn:E; [|done].
      intros Hrest. apply IH in Hrest as [Hlen HP].
      apply (foldM_append_lines
               (λ dm, data_line precision_scores lg citation_az qm.1 dm.1 dm.2)
               (λ line,
                  (∃ qm, dict_get "query_method" line = Some (JStr qm)) ∧
                  (∃ dm, dict_get "doc_method" line = Some (JStr dm)) ∧
                  dict_get "citation_az" line = Some (JStr citation_az) ∧
                  (∃ p, dict_get "precision_total" line = Some (JNum p))))
        in E as [Hlen1 HP1].
      + split; [|auto]. unfold pyresult, odict in *. lia.
      + intros dm line. apply data_line_identified. }
  apply Hgen in H as [Hlen HP]. split.
  - exists lg. split; [done|]. simpl in Hlen.
    unfold pyresult, odict in *. lia.
  - apply HP. constructor.
Qed.

Lemma measurePrecomputedResolution_lines_witness :
  (∃ lg : list pyresult,
     foldM (measure_result (retrieved := unit)
              (λ lg d, lg ++ [d]) (λ lg _ _ d, lg ++ [d])
              (λ _ _, Ok (Some [])) "az_annotated" [("text", 1)])
       [] [] = Ok lg ∧
     length [[("query_method", JStr "window");
              ("doc_method", JStr "az_annotated");
              ("citation_az", JStr "Bkg"); ("avg_mrr", JNum (1 # 2));
              ("precision_total", JNum 3)]]
     = sum_list_with (λ qm : string * odict (odict Q), length qm.2)
         [("window", [("az_annotated", [("mrr", 1 # 2)])])]) ∧
  Forall (λ line,
            (∃ qm, dict_get "query_method" line = Some (JStr qm)) ∧
            (∃ dm, dict_get "doc_method" line = Some (JStr dm)) ∧
            dict_get "citation_az" line = Some (JStr "Bkg") ∧
            (∃ p, dict_get "precision_total" line = Some (JNum p)))
    [[("query_method", JStr "window"); ("doc_method", JStr "az_annotated");
      ("citation_az", JStr "Bkg"); ("avg_mrr", JNum (1 # 2));
      ("precision_total", JNum 3)]].
Proof.
  apply (measurePrecomputedResolution_lines (logger := list pyresult)
           (retrieved := unit)
           (λ _, []) (λ lg d, lg ++ [d]) (λ lg _ _ d, lg ++ [d])
           (λ _, [("window", [("az_annotated", [("mrr", 1 # 2)])])])
           (λ _, [("window", [("az_annotated", 3)])])
           (λ _ _, Ok (Some [])) "az_annotated" [("text", 1)] [] "Bkg").
  reflexivity.
Defined.

(** ** The trainer as a whole *)

Lemma select_train_fold_Raise (ver : pyversion) (numfolds n_results : nat)
    (split_fold : nat) :
  ∃ e, select_train_fold ver numfolds n_results split_fold = Raise e.
Proof.
  unfold select_train_fold, KFold.
  destruct (numfolds <=? 1)%nat; [by eexists|]. simpl.
  unfold py_zip1, split_objects. destruct ver; simpl; [|by eexists].
  destruct (KFold_split numfolds n_results) as [l|e]; simpl; [|by eexists].
  rewrite list_lookup_fmap.
  destruct (_ !! split_fold); simpl; by eexists.
Qed.

Lemma select_test_fold_Raise (numfolds split_fold : nat) :
  ∃ e, select_test_fold numfolds split_fold = Raise e.
Proof.
  unfold select_test_fold, KFold.
  destruct (numfolds <=? 1)%nat; by eexists.
Qed.

Lemma for_each_inv {A S R} (f : S → A → fueled (S + R)) (I : S → Prop)
    (l : list A) (s : S) :
  I s →
  (∀ s a, I s → (∃ e, f s a = Some (Raise e))
                ∨ (∃ s', f s a = Some (Ok (inl s')) ∧ I s')) →
  (∃ e, for_each f l s = Some (Raise e))
  ∨ (∃ s', for_each f l s = Some (Ok (inl s')) ∧ I s').
Proof.
  intros Hs Hf. induction l as [|a l IH] in s, Hs |- *; simpl.
  - right. by exists s.
  - destruct (Hf s a Hs) as [[e ->]|[s' [-> Hs']]]; simpl.
    + left. by exists e.
    + by apply IH.
Qed.

Lemma for_each_continue {A S R} (f : S → A → fueled (S + R)) (g : S → A → S)
    (l : list A) (s : S) :
  (∀ s a, a ∈ l → f s a = Some (Ok (inl (g s a)))) →
  for_each f l s = Some (Ok (inl (fold_left g l s))).
Proof.
  induction l as [|a l IH] in s |- *; simpl; intros Hf; [done|].
  rewrite Hf by constructor. simpl. apply IH.
  intros s' a' Ha'. apply Hf. by constructor.
Qed.

Lemma foldM_inv {A S} (f : S → A → result S) (I : S → Prop) (l : list A)
    (s s' : S) :
  I s → (∀ s a s', I s → f s a = Ok s' → I s') →
  foldM f l s = Ok s' → I s'.
Proof.
  intros Hs Hf. induction l as [|a l IH] in s, Hs |- *; simpl.
  - by intros [= <-].
  - destruct (f s a) as [s1|e] eqn:E; [|done]. apply IH. by eapply Hf.
Qed.

Lemma cfg_strings_CStr (l : list string) :
  cfg_strings (CList (CStr <$> l)) = Ok l.
Proof.
  unfold cfg_strings.
  induction l as [|x l IH]; [done|].
  rewrite fmap_cons. cbn [mapM]. by rewrite IH.
Qed.

Section trainer.
Context {logger retrieved storer : Type}.
Variable new_logger : nat → logger.
Variable addResolutionResultDict : logger → pyresult → logger.
Variable measureScoreAndLog :
  logger → list retrieved → jvalue → pyresult → logger.
Variable averages : logger → odict (odict (odict Q)).
Variable precision_scores : logger → odict (odict Q).
Variable runPrecomputedQuery :
  list (string * formula) → odict Q → result (option (list retrieved)).
Variable getDictOfTestingMethods : cfg → odict doc_method.
Variable addExtraWeights : odict Z → gmap string cfg → odict Q.
Variable ElasticResultStorer : cfg → string → result storer.
Variable ResultDiskReader : storer → cfg → cfg → result results_reader.
Variable ver : pyversion.

#[local] Abbreviation load :=
  (loadPrecomputedFormulas ElasticResultStorer ResultDiskReader).
#[local] Abbreviation train_one :=
  (train_query_type new_logger addResolutionResultDict measureScoreAndLog
     averages precision_scores runPrecomputedQuery addExtraWeights
     ElasticResultStorer ResultDiskReader ver).
#[local] Abbreviation train_fold :=
  (dynamicWeightValues new_logger addResolutionResultDict measureScoreAndLog
     averages precision_scores runPrecomputedQuery getDictOfTestingMethods
     addExtraWeights ElasticResultStorer ResultDiskReader ver).
#[local] Abbreviation score_one :=
  (score_query_type new_logger addResolutionResultDict measureScoreAndLog
     averages precision_scores runPrecomputedQuery addExtraWeights
     ElasticResultStorer ResultDiskReader).
#[local] Abbreviation score_folds :=
  (measureScoresOfWeights new_logger addResolutionResultDict
     measureScoreAndLog averages precision_scores runPrecomputedQuery
     addExtraWeights ElasticResultStorer ResultDiskReader).
#[local] Abbreviation train_all :=
  (trainWeights new_logger addResolutionResultDict measureScoreAndLog
     averages precision_scores runPrecomputedQuery getDictOfTestingMethods
     addExtraWeights ElasticResultStorer ResultDiskReader ver).

(** A query type either raises or is left with an empty entry: the search
    is never reached. *)
Lemma train_query_type_outcome (fuel : nat) (exp : gmap string cfg)
    (all_doc_methods : odict doc_method) (methods : list string)
    (numfolds : result nat) (split_fold : nat) (ts : trainer_state)
    (query_type : string) :
  (∃ e, train_one fuel exp all_doc_methods methods numfolds split_fold ts
          query_type = Some (Raise e))
  ∨ train_one fuel exp all_doc_methods methods numfolds split_fold ts
      query_type
    = Some (Ok (inl (TrainerState
                       (dict_set query_type [] (best_weights_of ts))
                       (last_score ts) (file_counter ts)))).
Proof.
  unfold train_query_type.
  destruct (load exp query_type) as [reader|e]; [|left; by eexists].
  destruct (_ =? 0)%nat; [by right|].
  destruct numfolds as [nf|e]; [|left; by eexists].
  destruct (_ <? nf)%nat; [by right|].
  destruct (select_train_fold_Raise ver nf (length (rows reader))
              split_fold) as [e ->].
  left. by eexists.
Qed.

Lemma Forall_empty_dict_set (k : string) (d : odict (odict (odict Q))) :
  Forall (λ entry, entry.2 = []) d →
  Forall (λ entry, entry.2 = []) (dict_set k [] d).
Proof.
  induction 1 as [|[k' v'] d Hv Hd IH]; simpl.
  - by repeat constructor.
  - destruct (k =? k')%string; constructor; auto.
Qed.

(** The loop over the query types either raises or ends with the counter
    as it was and, if it started with empty entries only, with empty
    entries only. *)
Lemma train_loop_outcome (fuel : nat) (exp : gmap string cfg)
    (all_doc_methods : odict doc_method) (methods : list string)
    (numfolds : result nat) (split_fold : nat) (query_types : list string)
    (ts : trainer_state) :
  (∃ e, for_each (train_one fuel exp all_doc_methods methods numfolds
                    split_fold) query_types ts = Some (Raise e))
  ∨ (∃ ts',
       for_each (train_one fuel exp all_doc_methods methods numfolds
                   split_fold) query_types ts = Some (Ok (inl ts'))
       ∧ (Forall (λ entry, entry.2 = []) (best_weights_of ts) →
          Forall (λ entry, entry.2 = []) (best_weights_of ts'))
       ∧ file_counter ts' = file_counter ts).
Proof.
  apply (for_each_inv _
           (λ ts', (Forall (λ entry, entry.2 = []) (best_weights_of ts) →
                    Forall (λ entry, entry.2 = []) (best_weights_of ts'))
                   ∧ file_counter ts' = file_counter ts)); [done|].
  intros ts1 qt [Hempty Hc].
  destruct (train_query_type_outcome fuel exp all_doc_methods methods
              numfolds split_fold ts1 qt) as [[e ->]| ->].
  - left. by eexists.
  - right. eexists. split; [done|]. simpl. split; [|done].
    intros H. by apply Forall_empty_dict_set, Hempty.
Qed.

(** What a call leaves behind, whatever it returns. *)
Lemma dynamicWeightValues_frame (fuel : nat) (exp : gmap string cfg)
    (counter split_fold : nat) :
  (∃ e, train_fold fuel exp counter split_fold = Some (Raise e))
  ∨ (∃ weights,
       train_fold fuel exp counter split_fold
       = Some (Ok (weights,
                   <["movements" := CList [CInt (-1); CInt 6; CInt (-2)]]> exp,
                   counter))).
Proof.
  unfold dynamicWeightValues.
  destruct (exp_item exp "doc_methods") as [dm|e]; [|left; by eexists].
  cbv zeta.
  destruct (exp_item _ "train_weights_for" ≫= cfg_strings) as [qts|e];
    [|left; by eexists].
  match goal with
  | |- context [for_each (train_query_type _ _ _ _ _ _ _ _ _ _ ?fu ?ex ?adm
                            ?ms ?nf ?sf) qts ?s] =>
      destruct (train_loop_outcome fu ex adm ms nf sf qts s)
        as [[e ->]|[ts [-> [_ Hc]]]]
  end.
  - left. by eexists.
  - simpl. destruct qts; [left; by eexists|].
    right. eexists. by rewrite Hc.
Qed.

(** X17. [dynamicWeightValues] never returns a learnt weight: whatever the
    experiment, the stored results and the fuel, the call either raises or
    returns a dict whose entry for every query type is empty, with the
    counter of exported files as it was and [movements] set to the
    hard-coded list; in particular it never runs out of fuel, because the
    search loop is never entered. *)
Theorem dynamicWeightValues_never_learns (fuel : nat)
    (exp : gmap string cfg) (counter split_fold : nat) :
  (∃ e, train_fold fuel exp counter split_fold = Some (Raise e))
  ∨ (∃ best_weights,
       train_fold fuel exp counter split_fold
       = Some (Ok (BestWeights best_weights,
                   <["movements" := CList [CInt (-1); CInt 6; CInt (-2)]]> exp,
                   counter))
       ∧ Forall (λ entry, entry.2 = []) best_weights).
Proof.
  unfold dynamicWeightValues.
  destruct (exp_item exp "doc_methods") as [dm|e]; [|left; by eexists].
  cbv zeta.
  destruct (exp_item _ "train_weights_for" ≫= cfg_strings) as [qts|e];
    [|left; by eexists].
  match goal with
  | |- context [for_each (train_query_type _ _ _ _ _ _ _ _ _ _ ?fu ?ex ?adm
                            ?ms ?nf ?sf) qts ?s] =>
      destruct (train_loop_outcome fu ex adm ms nf sf qts s)
        as [[e ->]|[ts [-> [Hempty Hc]]]]
  end.
  - left. by eexists.
  - simpl. destruct qts; [left; by eexists|].
    right. exists (best_weights_of ts). rewrite Hc.
    split; [done|]. apply Hempty. constructor.
Qed.

Lemma fold_left_skip (query_types : list string) (ts : trainer_state) :
  fold_left (λ ts query_type,
               TrainerState (dict_set query_type [] (best_weights_of ts))
                 (last_score ts) (file_counter ts)) query_types ts
  = TrainerState
      (fold_left (λ d x, dict_set x [] d) query_types (best_weights_of ts))
      (last_score ts) (file_counter ts).
Proof.
  induction query_types as [|x l IH] in ts |- *; simpl; [by destruct ts|].
  by rewrite IH.
Qed.

(** X18. When [cross_validation_folds] is the integer [numfolds] (2 when
    the option is absent) and, for every query type of a non-empty
    [train_weights_for], the stored results are loaded without error and
    there is none of them or fewer than [numfolds] (fewer than
    [max(1, numfolds)], that is), [dynamicWeightValues] skips them all and
    returns the dict with an empty entry for each query type, in order. *)
Theorem dynamicWeightValues_skips_small_classes (fuel : nat)
    (exp : gmap string cfg) (counter split_fold : nat) (doc_methods : cfg)
    (query_types : list string) (numfolds : Z) :
  exp !! "doc_methods" = Some doc_methods →
  exp !! "train_weights_for" = Some (CList (CStr <$> query_types)) →
  query_types ≠ [] →
  default (CInt 2) (exp !! "cross_validation_folds") = CInt numfolds →
  Forall (λ query_type,
            ∃ reader,
              load (<["movements" := CList [CInt (-1); CInt 6; CInt (-2)]]>
                      exp) query_type = Ok reader ∧
              (Z.of_nat (length (rows reader)) < Z.max 1 numfolds)%Z)
    query_types →
  train_fold fuel exp counter split_fold
  = Some (Ok (BestWeights (dict_fromkeys query_types []),
              <["movements" := CList [CInt (-1); CInt 6; CInt (-2)]]> exp,
              counter)).
Proof.
  intros Hdm Hqt Hsome Hnf Hsmall. unfold dynamicWeightValues, exp_item.
  rewrite Hdm. cbv zeta.
  rewrite !lookup_insert_ne by done. rewrite Hqt.
  change (Ok (CList (CStr <$> query_types)) ≫= cfg_strings)
    with (cfg_strings (CList (CStr <$> query_types))).
  rewrite cfg_strings_CStr.
  erewrite for_each_continue.
  { simpl. rewrite fold_left_skip. by destruct query_types. }
  intros ts qt Hin. rewrite Forall_forall in Hsmall.
  destruct (Hsmall qt Hin) as (reader & Hload & Hrows).
  unfold train_query_type. rewrite Hload.
  destruct (_ =? 0)%nat eqn:E0; [done|].
  apply Nat.eqb_neq in E0.
  destruct (exp !! "cross_validation_folds") as [[]|]; simpl in Hnf;
    try done; injection Hnf as <-.
  - replace (_ <? Z.to_nat _)%nat with true; [done|].
    symmetry. apply Nat.ltb_lt. lia.
  - replace (_ <? 2)%nat with true; [done|].
    symmetry. apply Nat.ltb_lt. lia.
Qed.

(** A query type either raises or leaves what a fold has gathered as it
    was: no score is ever measured. *)
Lemma score_query_type_outcome (exp : gmap string cfg)
    (all_doc_methods : odict doc_method) (numfolds : Z) (split_fold : nat)
    (weights : trained) (fs fs' : fold_state) (query_type : string) :
  score_one exp all_doc_methods numfolds split_fold weights fs query_type
  = Ok fs' →
  fs' = fs.
Proof.
  unfold score_query_type.
  destruct (load exp query_type) as [reader|e]; [|done]. simpl.
  destruct (_ =? 0)%nat; [by intros [= <-]|].
  destruct (_ <? numfolds)%Z; [by intros [= <-]|].
  destruct (select_test_fold_Raise (Z.to_nat numfolds) split_fold) as [e ->].
  done.
Qed.

(** The loop over the folds, when it ends, has added no row to the first
    table and a row of zeros per fold to the second. *)
Lemma score_fold_loop (exp : gmap string cfg)
    (all_doc_methods : odict doc_method) (best_weights : gmap nat trained)
    (numfolds : Z) (k a : nat) (fold_rows : list (odict cell))
    (acc : list (odict cell) * list (odict cell)) :
  foldM (score_fold new_logger addResolutionResultDict measureScoreAndLog
           averages precision_scores runPrecomputedQuery addExtraWeights
           ElasticResultStorer ResultDiskReader exp all_doc_methods
           best_weights numfolds)
    (seq a k) ([], fold_rows) = Ok acc →
  acc = ([], fold_rows
             ++ map (λ split_fold,
                       [("fold", CellNum (inject_Z (Z.of_nat split_fold)));
                        ("avg_improvement", CellNum 0);
                        ("num_improved_zones", CellNum 0);
                        ("num_zones", CellNum 0);
                        ("better_zones", CellStrs []);
                        ("better_zones_details", CellPairs [])])
                  (seq a k)).
Proof.
  induction k as [|k IH] in a, fold_rows |- *; simpl.
  - intros [= <-]. by rewrite app_nil_r.
  - unfold score_fold at 1.
    destruct (best_weights !! a) as [weights|]; [|done]. simpl.
    destruct (exp_item exp "train_weights_for" ≫= cfg_strings)
      as [qts|e]; [|done]. simpl.
    match goal with
    | |- context [foldM ?g qts ?s0] =>
        destruct (foldM g qts s0) as [fs|e] eqn:E; [|done];
        apply (foldM_inv g (λ fs, fs = s0)) in E; [subst fs|done|]
    end.
    + simpl. intros H. apply IH in H. subst acc.
      by rewrite <- app_assoc.
    + intros s qt s' -> Hs. by apply score_query_type_outcome in Hs.
Qed.

Lemma measureScoresOfWeights_improvements (exp : gmap string cfg)
    (all_doc_methods : odict doc_method) (best_weights : gmap nat trained)
    (improvements folds : csv_file) :
  score_folds exp all_doc_methods best_weights = Ok (improvements, folds) →
  table_rows improvements = [].
Proof.
  unfold measureScoresOfWeights.
  destruct (exp_item exp "name") as [name|e]; [|done]. simpl.
  destruct (exp_item exp "metric") as [metric|e]; [|done]. simpl.
  destruct (folds_option exp) as [numfolds|e]; [|done]. simpl.
  destruct (foldM _ (seq 0 _) _) as [acc|e] eqn:E; [|done].
  apply score_fold_loop in E. subst acc. simpl.
  destruct (exp_item exp "train_weights_for" ≫= cfg_strings) as [qts|e];
    [|done]. simpl.
  destruct (exp_item exp "exp_dir" ≫= cfg_string) as [dir|e]; [|done]. simpl.
  destruct (cfg_string name) as [nm|e]; [|done]. simpl.
  by intros [= <- <-].
Qed.

(** X19. A call of [measureScoresOfWeights] that completes has measured no
    score: the improvements table it writes is empty, and the folds table
    has one row per fold, each with 0 zones, 0 improved zones, an average
    improvement of 0 and no better zone.  (A query type with enough stored
    results raises where the fold is selected.) *)
Theorem measureScoresOfWeights_reports_no_score (exp : gmap string cfg)
    (all_doc_methods : odict doc_method) (best_weights : gmap nat trained)
    (improvements folds : csv_file) :
  score_folds exp all_doc_methods best_weights = Ok (improvements, folds) →
  table_rows improvements = [] ∧
  ∃ numfolds,
    folds_option exp = Ok numfolds ∧
    table_rows folds
    = map (λ split_fold,
             [("fold", CellNum (inject_Z (Z.of_nat split_fold)));
              ("avg_improvement", CellNum 0);
              ("num_improved_zones", CellNum 0);
              ("num_zones", CellNum 0);
              ("better_zones", CellStrs []);
              ("better_zones_details", CellPairs [])])
          (seq 0 (Z.to_nat numfolds)).
Proof.
  unfold measureScoresOfWeights.
  destruct (exp_item exp "name") as [name|e]; [|done]. simpl.
  destruct (exp_item exp "metric") as [metric|e]; [|done]. simpl.
  destruct (folds_option exp) as [numfolds|e]; [|done]. simpl.
  destruct (foldM _ (seq 0 _) _) as [acc|e] eqn:E; [|done].
  apply score_fold_loop in E. subst acc. simpl.
  destruct (exp_item exp "train_weights_for" ≫= cfg_strings) as [qts|e];
    [|done]. simpl.
  destruct (exp_item exp "exp_dir" ≫= cfg_string) as [dir|e]; [|done]. simpl.
  destruct (cfg_string name) as [nm|e]; [|done]. simpl.
  intros [= <- <-]. split; [done|]. by exists numfolds.
Qed.

(** X20. A call of [trainWeights] that completes has trained and measured
    nothing: the improvements table is empty, the counter of exported
    files is as it was, and a truthy [override_folds] option is what the
    experiment is left with as [cross_validation_folds]. *)
Theorem trainWeights_completes_untrained (fuel : nat)
    (exp options : gmap string cfg) (counter : nat)
    (improvements folds : csv_file) (exp' : gmap string cfg)
    (counter' : nat) :
  train_all fuel exp options counter
  = Some (Ok (improvements, folds, exp', counter')) →
  table_rows improvements = [] ∧
  counter' = counter ∧
  (cfg_truthy (options !! "override_folds") = true →
   exp' !! "cross_validation_folds" = options !! "override_folds").
Proof.
  unfold trainWeights.
  destruct (exp_item exp "doc_methods") as [dm|e]; [|done].
  cbv zeta.
  set (exp1 := if cfg_truthy (options !! "override_folds") then _ else exp).
  destruct (folds_option exp1) as [numfolds|e]; [|done].
  match goal with
  | |- context [for_each ?f ?l ?s] =>
      destruct (for_each_inv f
                  (λ st, st.2 = counter
                         ∧ st.1.2 !! "cross_validation_folds"
                           = exp1 !! "cross_validation_folds") l s)
        as [[e ->]|[st [-> [Hc Hcv]]]]
  end.
  - done.
  - intros st split_fold [Hc Hcv].
    destruct (dynamicWeightValues_frame fuel st.1.2 st.2 split_fold)
      as [[e ->]|[bw ->]]; simpl.
    + left. by eexists.
    + right. eexists. split; [done|]. simpl. split; [done|].
      by rewrite lookup_insert_ne.
  - done.
  - simpl.
    destruct (measureScoresOfWeights _ _ _ _ _ _ _ _ _ _ _ _)
      as [[t1 t2]|e] eqn:E; [|done].
    simpl. intros [= <- <- <- <-].
    apply measureScoresOfWeights_improvements in E.
    split; [done|]. split; [done|].
    intros Htruthy. rewrite Hcv. subst exp1. rewrite Htruthy.
    destruct (options !! "override_folds"); [|done].
    by rewrite lookup_insert.
Qed.
End trainer.

Lemma dynamicWeightValues_skips_small_classes_witness :
  example_trainer Python3 0
    (<["cross_validation_folds" := CInt 5]> example_exp) 7 0
  = Some (Ok (BestWeights (dict_fromkeys ["Bkg"] []),
              <["movements" := CList [CInt (-1); CInt 6; CInt (-2)]]>
                (<["cross_validation_folds" := CInt 5]> example_exp),
              7%nat)).
Proof.
  apply (dynamicWeightValues_skips_small_classes (logger := list pyresult)
           (retrieved := unit) (storer := string) _ _ _ _ _ _ _ _ _ _
           Python3 0 (<["cross_validation_folds" := CInt 5]> example_exp) 7 0
           (CDict []) ["Bkg"] 5).
  - reflexivity.
  - reflexivity.
  - discriminate.
  - reflexivity.
  - repeat constructor. eexists. split; [vm_compute; reflexivity|].
    reflexivity.
Defined.

Lemma measureScoresOfWeights_reports_no_score_witness :
  table_rows (CsvFile "/exp/exp1_improvements_Bkg.csv" []) = [] ∧
  ∃ numfolds,
    folds_option (<["cross_validation_folds" := CInt 5]> example_exp)
    = Ok numfolds ∧
    table_rows
      (CsvFile "/exp/exp1_folds_Bkg.csv"
         (map (λ split_fold,
                 [("fold", CellNum (inject_Z (Z.of_nat split_fold)));
                  ("avg_improvement", CellNum 0);
                  ("num_improved_zones", CellNum 0);
                  ("num_zones", CellNum 0);
                  ("better_zones", CellStrs []);
                  ("better_zones_details", CellPairs [])])
              (seq 0 5)))
    = map (λ split_fold,
             [("fold", CellNum (inject_Z (Z.of_nat split_fold)));
              ("avg_improvement", CellNum 0);
              ("num_improved_zones", CellNum 0);
              ("num_zones", CellNum 0);
              ("better_zones", CellStrs []);
              ("better_zones_details", CellPairs [])])
          (seq 0 (Z.to_nat numfolds)).
Proof.
  apply (measureScoresOfWeights_reports_no_score (logger := list pyresult)
           (retrieved := unit) (storer := string)
           (λ _, []) (λ lg d, lg ++ [d]) (λ lg _ _ d, lg ++ [d])
           (λ _, []) (λ _, []) (λ _ _, Ok (Some []))
           (λ w _, map (λ kv, (kv.1, inject_Z kv.2)) w)
           (λ _ index, Ok index)
           (λ _ _ _, Ok (ResultsReader PythonList
                           [example_result "f1"; example_result "f2";
                            example_result "f3"; example_result "f4"]))
           (<["cross_validation_folds" := CInt 5]> example_exp)
           [("az_annotated", DocMethod "annotated_boost" ["text"; "title"])]
           (list_to_map
              ((λ i, (i, BestWeights [("Bkg", [])])) <$> seq 0 5))).
  vm_compute. reflexivity.
Defined.

Lemma trainWeights_completes_untrained_witness :
  table_rows (CsvFile "/exp/exp1_improvements_Bkg.csv" []) = [] ∧
  7%nat = 7%nat ∧
  (cfg_truthy (({["override_folds" := CInt 5]} : gmap string cfg)
               !! "override_folds") = true →
   (<["movements" := CList [CInt (-1); CInt 6; CInt (-2)]]>
      (<["cross_validation_folds" := CInt 5]> example_exp))
   !! "cross_validation_folds"
   = ({["override_folds" := CInt 5]} : gmap string cfg) !! "override_folds").
Proof.
  apply (trainWeights_completes_untrained (logger := list pyresult)
           (retrieved := unit) (storer := string)
           (λ _, []) (λ lg d, lg ++ [d]) (λ lg _ _ d, lg ++ [d])
           (λ _, []) (λ _, []) (λ _ _, Ok (Some []))
           (λ _, [("az_annotated",
                   DocMethod "annotated_boost" ["text"; "title"])])
           (λ w _, map (λ kv, (kv.1, inject_Z kv.2)) w)
           (λ _ index, Ok index)
           (λ _ _ _, Ok (ResultsReader PythonList
                           [example_result "f1"; example_result "f2";
                            example_result "f3"; example_result "f4"]))
           Python3 0 example_exp {["override_folds" := CInt 5]} 7
           (CsvFile "/exp/exp1_improvements_Bkg.csv" [])
           (CsvFile "/exp/exp1_folds_Bkg.csv"
              (map (λ split_fold,
                      [("fold", CellNum (inject_Z (Z.of_nat split_fold)));
                       ("avg_improvement", CellNum 0);
                       ("num_improved_zones", CellNum 0);
                       ("num_zones", CellNum 0);
                       ("better_zones", CellStrs []);
                       ("better_zones_details", CellPairs [])])
                   (seq 0 5)))).
  vm_compute. reflexivity.
Defined.

(** With enough stored results for the folds, training stops where the
    fold is selected; without an experiment name, where the stored results
    are loaded. *)
Example example_trainWeights_python3 :
  example_trainWeights Python3 0 example_exp ∅ 0 = Some (Raise TypeError).
Proof. vm_compute. reflexivity. Qed.

Example example_trainWeights_python2 :
  example_trainWeights Python2 0 example_exp ∅ 0
  = Some (Raise (ValueError "wrong number of values to unpack")).
Proof. vm_compute. reflexivity. Qed.

Example example_trainWeights_without_name :
  example_trainWeights Python3 0 (delete "name" example_exp) ∅ 0
  = Some (Raise (KeyError "name")).
Proof. vm_compute. reflexivity. Qed.

Example example_trainer_without_query_types :
  example_trainer Python3 0
    (<["train_weights_for" := CList []]> example_exp) 0 0
  = Some (Raise (NameError "results_compare")).
Proof. vm_compute. reflexivity. Qed.

Example example_scorer_enough_results :
  example_scorer example_exp
    (list_to_map [(0%nat, BestWeights [("Bkg", [])]);
                  (1%nat, BestWeights [("Bkg", [])])])
  = Raise TypeError.
Proof. vm_compute. reflexivity. Qed.
